(** * Resilient paginated harvester: the two notebook drivers and their coordinators

    A shallow embedding of the review harvesters of the repository:
    - [BGG]: [boardgamegeek_reviews.ipynb] ([checkNumericRange], [removeMarkup],
      [flushBuffer], [getData] and the main cell with its resume filter);
    - [TP]: the TrustPilot notebook ([get_business_reviews], the main loop, the
      name clean-up cell and the final [json.dump]).

    The network is an explicit input: every driver consumes a _script_, the list
    of what the successive [requests.get] calls answer.  Library functions whose
    behaviour the notebooks rely on ([float], [langdetect.detect], the [re.sub]
    passes, [urljoin]) are section variables, so every general theorem holds for
    whatever those functions do.  Console output ([print], [logMessage]) is not
    part of the model; [time.sleep] calls and requests are recorded as events. *)

From Stdlib Require Import List String Ascii Bool Arith Lia QArith.
From Stdlib Require Import Permutation Sorted.
Import ListNotations.
Close Scope Q_scope.
Open Scope string_scope.
Open Scope list_scope.
Open Scope nat_scope.

(** ** Python values shared by both notebooks *)

(** The exception classes the notebooks distinguish in their handlers.  All of
    them derive from [Exception]. *)
Inductive exn : Type :=
| LangDetectException
| RequestException
| TypeError
| ValueError
| UnboundLocalError
| OtherException.

(** Result of evaluating an expression that may raise. *)
Inductive res (A : Type) : Type :=
| Ok (a : A)
| Exc (e : exn).
Arguments Ok {A} a.
Arguments Exc {A} e.

(** Result of running a whole function against a script of responses:
    it returns, it lets an exception escape, or the script is used up while the
    loop still wants another page. *)
Inductive run (A : Type) : Type :=
| Return (v : A)
| Raise (e : exn)
| Starved.
Arguments Return {A} v.
Arguments Raise {A} e.
Arguments Starved {A}.

(** A Python [float]: a finite value (every double is a rational), an infinity
    or a NaN. *)
Inductive pyfloat : Type :=
| FFinite (q : Q)
| FInf (negative : bool)
| FNan.

(** [lo <= x] and [x <= hi] for a finite bound and a float. *)
Definition float_ge (lo : Q) (x : pyfloat) : bool :=
  match x with
  | FFinite q => Qle_bool lo q
  | FInf negative => negb negative
  | FNan => false
  end.

Definition float_le (x : pyfloat) (hi : Q) : bool :=
  match x with
  | FFinite q => Qle_bool q hi
  | FInf negative => negative
  | FNan => false
  end.

(** Truthiness of an optional [str]: [None] and [''] are falsy. *)
Definition truthy (s : option string) : bool :=
  match s with
  | None => false
  | Some s => negb (String.eqb s "")
  end.

(** ** [str.strip()] on UTF-8 text

    A [string] holds the UTF-8 bytes of a Python [str].  [str.strip()] removes
    from both ends the characters for which [str.isspace()] holds: U+0009 to
    U+000D, U+001C to U+0020, U+0085, U+00A0, U+1680, U+2000 to U+200A, U+2028,
    U+2029, U+202F, U+205F and U+3000.  They are encoded in one, two or three
    bytes. *)

(** White space of one byte. *)
Definition isspace (c : ascii) : bool :=
  let n := nat_of_ascii c in
  ((9 <=? n) && (n <=? 13)) || ((28 <=? n) && (n <=? 32)).

(** White space of two bytes: U+0085 (194, 133) and U+00A0 (194, 160). *)
Definition isspace2 (c1 c2 : ascii) : bool :=
  let n2 := nat_of_ascii c2 in
  (nat_of_ascii c1 =? 194) && ((n2 =? 133) || (n2 =? 160)).

(** White space of three bytes: U+1680 (225, 154, 128), U+2000 to U+200A
    (226, 128, 128 to 138), U+2028, U+2029, U+202F (226, 128, 168, 169, 175),
    U+205F (226, 129, 159) and U+3000 (227, 128, 128). *)
Definition isspace3 (c1 c2 c3 : ascii) : bool :=
  let n1 := nat_of_ascii c1 in
  let n2 := nat_of_ascii c2 in
  let n3 := nat_of_ascii c3 in
  ((n1 =? 225) && (n2 =? 154) && (n3 =? 128)) ||
  ((n1 =? 226) && (n2 =? 128) &&
   (((128 <=? n3) && (n3 <=? 138)) || (n3 =? 168) || (n3 =? 169) || (n3 =? 175))) ||
  ((n1 =? 226) && (n2 =? 129) && (n3 =? 159)) ||
  ((n1 =? 227) && (n2 =? 128) && (n3 =? 128)).

(** Drop from the front every character that [w1], [w2] or [w3] recognises in
    its one, two or three bytes. *)
Fixpoint lstrip_by (w1 : ascii -> bool) (w2 : ascii -> ascii -> bool)
    (w3 : ascii -> ascii -> ascii -> bool) (s : string) : string :=
  match s with
  | EmptyString => EmptyString
  | String c1 r1 =>
      if w1 c1 then lstrip_by w1 w2 w3 r1
      else
        match r1 with
        | EmptyString => s
        | String c2 r2 =>
            if w2 c1 c2 then lstrip_by w1 w2 w3 r2
            else
              match r2 with
              | EmptyString => s
              | String c3 r3 => if w3 c1 c2 c3 then lstrip_by w1 w2 w3 r3 else s
              end
        end
  end.

(** [str.lstrip()]. *)
Definition lstrip (s : string) : string := lstrip_by isspace isspace2 isspace3 s.

(** [str.lstrip()] on a text whose bytes stand in reverse order. *)
Definition lstrip_reversed (s : string) : string :=
  lstrip_by isspace (fun a b => isspace2 b a) (fun a b c => isspace3 c b a) s.

Fixpoint string_rev_onto (s acc : string) : string :=
  match s with
  | EmptyString => acc
  | String c r => string_rev_onto r (String c acc)
  end.

Definition string_rev (s : string) : string := string_rev_onto s EmptyString.

Definition strip (s : string) : string :=
  string_rev (lstrip_reversed (string_rev (lstrip s))).

(** ** The BoardGameGeek notebook *)

Module BGG.

(** One [<comment>] element: its [rating] attribute ([comment.get('rating')],
    [None] when absent) and its text ([comment.text], [None] when empty). *)
Record Comment : Type := mkComment {
  c_rating : option string;
  c_text : option string
}.

(** [resp.content] as [etree.fromstring] sees it: not well-formed, or a document
    with the result of the name xpath and its [<comment>] elements. *)
Inductive Content : Type :=
| Malformed
| Document (names : list string) (comments : list Comment).

Record Response : Type := mkResponse {
  status_code : nat;
  content : Content
}.

(** One call of [requests.get]: it raises or it answers. *)
Inductive Fetch : Type :=
| FetchRaises (e : exn)
| FetchOk (r : Response).

(** [{'rating': rtg, 'review_text': txt}] *)
Record Review : Type := mkReview {
  rating : option string;
  review_text : option string
}.

(** [gameName] starts as the string [''] and becomes the list the xpath
    returns. *)
Inductive NameValue : Type :=
| NameStr (s : string)
| NameList (l : list string).

(** [{'game_name': gameName, 'reviews': reviewData}] *)
Record ParentResult : Type := mkResult {
  game_name : NameValue;
  reviews : list Review
}.

Inductive Event : Type :=
| EvGet (gameID pg : nat)     (* requests.get(gameDataURL+str(pgCount)) *)
| EvSleep (lo hi : nat).      (* time.sleep(random.uniform(lo, hi)) *)

(** The local variables of [getData]. *)
Record Locals : Type := mkLocals {
  pgCount : nat;
  reviewData : list Review;
  gameName : NameValue;
  keepGoing : bool;
  commentTotal : nat;
  commentTotalGood : nat;
  commentPage : nat;
  commentGood : nat;
  requestErrorCount : nat
}.

Definition init_locals : Locals :=
  {| pgCount := 1; reviewData := []; gameName := NameStr ""; keepGoing := true;
     commentTotal := 0; commentTotalGood := 0; commentPage := 0; commentGood := 0;
     requestErrorCount := 0 |}.

Definition result_of (st : Locals) : ParentResult :=
  {| game_name := gameName st; reviews := reviewData st |}.

Section Driver.

(** [float(s)] for a [str], [detect(x)] for any value the notebook hands it, and
    the effect of the five [re.sub] passes of [removeMarkup] on a [str]. *)
Variable float_str : string -> res pyfloat.
Variable detect : option string -> res string.
Variable re_sub_all : string -> string.

(** [float(val)]: [float(None)] raises [TypeError]. *)
Definition float_ (val : option string) : res pyfloat :=
  match val with
  | None => Exc TypeError
  | Some s => float_str s
  end.

Definition checkNumericRange (val : option string) (min max : Q) : bool :=
  match float_ val with
  | Ok num => if float_ge min num && float_le num max then true else false
  | Exc _ => false
  end.

(** [removeMarkup]: on [None] the first [re.sub] raises [TypeError], which the
    function swallows, and [cleanText] is still [None]. *)
Definition removeMarkup (txt : option string) : option string :=
  match txt with
  | None => None
  | Some s => Some (re_sub_all s)
  end.

Definition accept_comment (rtg txt : option string) (st : Locals) : Locals :=
  {| pgCount := pgCount st;
     reviewData := reviewData st ++ [ {| rating := rtg; review_text := txt |} ];
     gameName := gameName st; keepGoing := keepGoing st;
     commentTotal := commentTotal st;
     commentTotalGood := commentTotalGood st + 1;
     commentPage := commentPage st;
     commentGood := commentGood st + 1;
     requestErrorCount := requestErrorCount st |}.

(** Body of [for comment in comments]: the locals afterwards and the exception
    that left the body, if any. *)
Definition comment_body (comment : Comment) (st : Locals) : Locals * option exn :=
  let dummy := c_rating comment in
  if checkNumericRange dummy 1 10 then
    let rtg := dummy in
    let txt := removeMarkup (c_text comment) in
    match detect txt with
    | Ok lang => if String.eqb lang "en" then (accept_comment rtg txt st, None) else (st, None)
    | Exc LangDetectException => (st, None)
    | Exc e => (st, Some e)
    end
  else (st, None).

Fixpoint comment_loop (comments : list Comment) (st : Locals) : Locals * option exn :=
  match comments with
  | [] => (st, None)
  | comment :: rest =>
      match comment_body comment st with
      | (st', None) => comment_loop rest st'
      | (st', Some e) => (st', Some e)
      end
  end.

(** [requestErrorCount += 1; if requestErrorCount >= 3: keepGoing = False],
    the code of both the [except Exception] handler around the parsing and the
    [else] branch of the status test. *)
Definition count_error (st : Locals) : Locals :=
  let n := requestErrorCount st + 1 in
  {| pgCount := pgCount st; reviewData := reviewData st; gameName := gameName st;
     keepGoing := if 3 <=? n then false else keepGoing st;
     commentTotal := commentTotal st; commentTotalGood := commentTotalGood st;
     commentPage := commentPage st; commentGood := commentGood st;
     requestErrorCount := n |}.

Definition stop_paging (st : Locals) : Locals :=
  {| pgCount := pgCount st; reviewData := reviewData st; gameName := gameName st;
     keepGoing := false;
     commentTotal := commentTotal st; commentTotalGood := commentTotalGood st;
     commentPage := commentPage st; commentGood := commentGood st;
     requestErrorCount := requestErrorCount st |}.

(** [commentPage = len(comments); commentTotal += commentPage; commentGood = 0]
    and, on page 1, the capture of the name. *)
Definition begin_page (names : list string) (n : nat) (st : Locals) : Locals :=
  {| pgCount := pgCount st; reviewData := reviewData st;
     gameName := if pgCount st =? 1 then NameList names else gameName st;
     keepGoing := keepGoing st;
     commentTotal := commentTotal st + n; commentTotalGood := commentTotalGood st;
     commentPage := n; commentGood := 0;
     requestErrorCount := requestErrorCount st |}.

Definition next_page (st : Locals) : Locals :=
  {| pgCount := pgCount st + 1; reviewData := reviewData st; gameName := gameName st;
     keepGoing := keepGoing st;
     commentTotal := commentTotal st; commentTotalGood := commentTotalGood st;
     commentPage := commentPage st; commentGood := commentGood st;
     requestErrorCount := requestErrorCount st |}.

(** One turn of [while keepGoing]: the events it produces, and the locals
    afterwards or the exception that reaches the outer [try]. *)
Definition loop_body (gameID : nat) (f : Fetch) (st : Locals) : list Event * res Locals :=
  let req := [EvGet gameID (pgCount st)] in
  match f with
  | FetchRaises e => (req, Exc e)
  | FetchOk resp =>
      if status_code resp =? 200 then
        match content resp with
        | Malformed => (req, Ok (count_error st))
        | Document names comments =>
            if 0 <? List.length comments then
              match comment_loop comments (begin_page names (List.length comments) st) with
              | (st', None) => (req ++ [EvSleep 5 10], Ok (next_page st'))
              | (st', Some _) => (req, Ok (count_error st'))
              end
            else (req, Ok (stop_paging st))
        end
      else (req, Ok (count_error st))
  end.

(** The [while keepGoing] loop inside the outer [try]: [None] is returned by the
    outer [except Exception] handler. *)
Fixpoint while_loop (gameID : nat) (script : list Fetch) (st : Locals)
  : list Event * run (option ParentResult) :=
  if keepGoing st then
    match script with
    | [] => ([], Starved)
    | f :: rest =>
        match loop_body gameID f st with
        | (evs, Exc _) => (evs, Return None)
        | (evs, Ok st') =>
            let (evs', r) := while_loop gameID rest st' in (evs ++ evs', r)
        end
    end
  else ([], Return (Some (result_of st))).

Definition getData (gameID : option nat) (script : list Fetch)
  : list Event * run (option ParentResult) :=
  match gameID with
  | None => ([], Return None)
  | Some g => while_loop g script init_locals
  end.

End Driver.

(** *** The main cell and the wrap-up cell *)

(** A row of the filtered, sorted and re-indexed data frame. *)
Record Row : Type := mkRow {
  row_id : nat;
  row_name : string;
  usersrated : nat
}.

(** The settings of the notebook.  The integers are natural numbers: a negative
    [reprocessIndex] or [checkThreshold] behaves as 0 in the two comparisons
    that use them. *)
Record Config : Type := mkConfig {
  reprocess : bool;
  reprocessIndex : nat;
  reprocessIDs : list nat;
  checkThreshold : nat;
  outputFile : string
}.

(** The files written so far: path and what [json.dump] put there. *)
Definition Disk : Type := list (string * list ParentResult).

Definition read_file (path : string) (d : Disk) : option (list ParentResult) :=
  match find (fun e => String.eqb (fst e) path) d with
  | Some e => Some (snd e)
  | None => None
  end.

(** [open(path, 'w')] followed by [json.dump(data, fl)]: the file is replaced. *)
Definition write_file (path : string) (data : list ParentResult) (d : Disk) : Disk :=
  (path, data) :: filter (fun e => negb (String.eqb (fst e) path)) d.

(** The global [all_reviews], the counters of the main cell, and the disk. *)
Record Globals : Type := mkGlobals {
  all_reviews : list ParentResult;
  totalSaved : nat;
  checkCount : nat;
  disk : Disk
}.

Definition init_globals : Globals :=
  {| all_reviews := []; totalSaved := 0; checkCount := 0; disk := [] |}.

Definition flushBuffer (cfg : Config) (g : Globals) : Globals :=
  {| all_reviews := all_reviews g; totalSaved := totalSaved g;
     checkCount := checkCount g;
     disk := write_file (outputFile cfg) (all_reviews g) (disk g) |}.

Definition reset_checkCount (g : Globals) : Globals :=
  {| all_reviews := all_reviews g; totalSaved := totalSaved g;
     checkCount := 0; disk := disk g |}.

(** [gameID in reprocessIDs] *)
Definition id_in (gameID : nat) (ids : list nat) : bool :=
  existsb (Nat.eqb gameID) ids.

(** The test in front of [continue] in the main loop. *)
Definition skipped (cfg : Config) (index gameID : nat) : bool :=
  reprocess cfg && ((index <? reprocessIndex cfg) || negb (id_in gameID (reprocessIDs cfg))).

(** The main loop from [if len(gameReviews['reviews']) > 0] up to, and not
    including, the final [time.sleep]. *)
Definition store_result (cfg : Config) (gameReviews : ParentResult) (g : Globals) : Globals :=
  let n := List.length (reviews gameReviews) in
  if 0 <? n then
    let g1 := {| all_reviews := all_reviews g ++ [gameReviews];
                 totalSaved := totalSaved g + n;
                 checkCount := checkCount g + n;
                 disk := disk g |} in
    if checkThreshold cfg <=? checkCount g1
    then reset_checkCount (flushBuffer cfg g1)
    else g1
  else g.

Section Coordinator.

Variable float_str : string -> res pyfloat.
Variable detect : option string -> res string.
Variable re_sub_all : string -> string.

(** One turn of [for index, row in gameIDs.iterrows()]; [script] is what the
    server answers while this row is being processed. *)
Definition row_body (cfg : Config) (index : nat) (row : Row) (script : list Fetch)
    (g : Globals) : list Event * run Globals :=
  let gameID := row_id row in
  if skipped cfg index gameID then ([], Return g)
  else
    match getData float_str detect re_sub_all (Some gameID) script with
    | (evs, Return None) => (evs ++ [EvSleep 5 10], Return g)
    | (evs, Return (Some gameReviews)) =>
        (evs ++ [EvSleep 5 10], Return (store_result cfg gameReviews g))
    | (evs, Raise e) => (evs, Raise e)
    | (evs, Starved) => (evs, Starved)
    end.

Fixpoint main_loop (cfg : Config) (index : nat) (rows : list (Row * list Fetch))
    (g : Globals) : list Event * run Globals :=
  match rows with
  | [] => ([], Return g)
  | (row, script) :: rest =>
      match row_body cfg index row script g with
      | (evs, Return g') =>
          let (evs', r) := main_loop cfg (S index) rest g' in (evs ++ evs', r)
      | (evs, r) => (evs, r)
      end
  end.

(** The main cell (with [canProcess] set) followed by the wrap-up cell. *)
Definition notebook (cfg : Config) (rows : list (Row * list Fetch))
  : list Event * run Globals :=
  match main_loop cfg 0 rows init_globals with
  | (evs, Return g) => (evs, Return (flushBuffer cfg g))
  | (evs, r) => (evs, r)
  end.

End Coordinator.

End BGG.

(** ** The TrustPilot notebook *)

Module TP.

(** One review [<article>]: the rating attribute of the rating [div] ([None]
    when [find] returns nothing), the text of the title [h2] and of the body
    [p] (also [None] when not found). *)
Record Card : Type := mkCard {
  card_rating : option string;
  card_title : option string;
  card_text : option string
}.

(** What BeautifulSoup finds in one page: the text of [div#business-unit-title],
    the review cards, and the [href] of the next-page link (when the link is
    there and has one).  The driver never looks at the status code. *)
Record Page : Type := mkPage {
  page_title : option string;
  cards : list Card;
  next_href : option string
}.

(** One call of [requests.get] under the page-level [try]: it raises, or the
    page is read. *)
Inductive Fetch : Type :=
| FetchRaises (e : exn)
| FetchOk (p : Page).

(** [{'rating': rating, 'review_title': ttl, 'review_text': txt}] *)
Record Review : Type := mkReview {
  rating : string;
  review_title : option string;
  review_text : option string
}.

(** [{'business_name': business_name, 'reviews': reviews_data}] *)
Record ParentResult : Type := mkResult {
  business_name : string;
  reviews : list Review
}.

Inductive Event : Type :=
| EvGet (url : string)        (* requests.get(url) *)
| EvSleep (lo hi : nat).      (* time.sleep(random.uniform(lo, hi)) *)

(** The local variables of [get_business_reviews]; [l_business_name] is [None]
    as long as the name [business_name] is unbound. *)
Record Locals : Type := mkLocals {
  url : option string;
  reviews_data : list Review;
  l_business_name : option string
}.

Definition base_url : string := "https://www.trustpilot.com".

Definition is_some {A : Type} (o : option A) : bool :=
  match o with Some _ => true | None => false end.

Section Driver.

Variable detect : option string -> res string.
Variable urljoin : string -> string -> string.

(** [s and detect(s)=='en'] *)
Definition english (s : option string) : res bool :=
  if truthy s then
    match detect s with
    | Ok lang => Ok (String.eqb lang "en")
    | Exc e => Exc e
    end
  else Ok false.

(** [(ttl and detect(ttl)=='en') or (txt and detect(txt)=='en')] *)
Definition is_english (ttl txt : option string) : res bool :=
  match english ttl with
  | Ok true => Ok true
  | Ok false => english txt
  | Exc e => Exc e
  end.

(** The statements under the inner [try]: the record to append, if any, or the
    exception that leaves them. *)
Definition review_try (review : Card) : res (option Review) :=
  match card_rating review with
  | Some rating_value =>
      if is_some (card_text review) || is_some (card_title review) then
        let ttl := option_map strip (card_title review) in
        let txt := option_map strip (card_text review) in
        match is_english ttl txt with
        | Ok true =>
            Ok (Some {| rating := rating_value; review_title := ttl; review_text := txt |})
        | Ok false => Ok None
        | Exc e => Exc e
        end
      else Ok None
  | None => Ok None
  end.

(** Body of [for review in ...]: both handlers of the inner [try] drop the
    exception. *)
Definition review_body (review : Card) (data : list Review) : list Review :=
  match review_try review with
  | Ok (Some r) => data ++ [r]
  | Ok None => data
  | Exc _ => data
  end.

Fixpoint review_loop (reviews_ : list Card) (data : list Review) : list Review :=
  match reviews_ with
  | [] => data
  | review :: rest => review_loop rest (review_body review data)
  end.

(** The name after the [if not reviews_data] block. *)
Definition capture_name (page : Page) (st : Locals) : option string :=
  match reviews_data st with
  | [] =>
      match page_title page with
      | Some t => Some (strip t)
      | None => l_business_name st
      end
  | _ :: _ => l_business_name st
  end.

(** One turn of [while url] for the current [u]: events, locals afterwards,
    and whether a [break] was taken. *)
Definition loop_body (f : Fetch) (u : string) (st : Locals) : list Event * Locals * bool :=
  match f with
  | FetchRaises _ => ([EvGet u], st, true)
  | FetchOk page =>
      ([EvGet u; EvSleep 2 7],
       {| url := match next_href page with
                 | Some href => Some (urljoin base_url href)
                 | None => None
                 end;
          reviews_data := review_loop (cards page) (reviews_data st);
          l_business_name := capture_name page st |},
       false)
  end.

(** The [return] statement: reading an unbound [business_name] raises. *)
Definition return_result (st : Locals) : run ParentResult :=
  match l_business_name st with
  | Some n => Return {| business_name := n; reviews := reviews_data st |}
  | None => Raise UnboundLocalError
  end.

Fixpoint while_loop (script : list Fetch) (st : Locals) : list Event * run ParentResult :=
  match url st with
  | Some u =>
      if String.eqb u "" then ([], return_result st)
      else
        match script with
        | [] => ([], Starved)
        | f :: rest =>
            match loop_body f u st with
            | (evs, st', true) => (evs, return_result st')
            | (evs, st', false) =>
                let (evs', r) := while_loop rest st' in (evs ++ evs', r)
            end
        end
  | None => ([], return_result st)
  end.

Definition get_business_reviews (url_ : string) (script : list Fetch)
  : list Event * run ParentResult :=
  while_loop script {| url := Some url_; reviews_data := []; l_business_name := None |}.

End Driver.

(** *** The main loop, the clean-up cell and the final dump *)

Definition Disk : Type := list (string * list ParentResult).

Definition read_file (path : string) (d : Disk) : option (list ParentResult) :=
  match find (fun e => String.eqb (fst e) path) d with
  | Some e => Some (snd e)
  | None => None
  end.

Definition write_file (path : string) (data : list ParentResult) (d : Disk) : Disk :=
  (path, data) :: filter (fun e => negb (String.eqb (fst e) path)) d.

Record Globals : Type := mkGlobals {
  all_reviews : list ParentResult;
  disk : Disk
}.

Definition init_globals : Globals := {| all_reviews := []; disk := [] |}.

(** The [try] block of the main loop: the result is kept when it has a review. *)
Definition store_result (reviews_ : ParentResult) (g : Globals) : Globals :=
  if 0 <? List.length (reviews reviews_)
  then {| all_reviews := all_reviews g ++ [reviews_]; disk := disk g |}
  else g.

(** [txt.split(delim)[0]]: the text in front of the first [delim]. *)
Fixpoint split_head (delim s : string) : string :=
  if String.prefix delim s then EmptyString
  else match s with
       | EmptyString => EmptyString
       | String c r => String c (split_head delim r)
       end.

(** [.replace(NBSP, '')] on UTF-8 text: the no-break space U+00A0 is the two
    bytes 194, 160. *)
Fixpoint remove_nbsp (s : string) : string :=
  match s with
  | EmptyString => EmptyString
  | String c1 r1 =>
      match r1 with
      | String c2 r2 =>
          if (nat_of_ascii c1 =? 194) && (nat_of_ascii c2 =? 160)
          then remove_nbsp r2
          else String c1 (remove_nbsp r1)
      | EmptyString => s
      end
  end.

(** The clean-up cell, on one element of [all_reviews]. *)
Definition clean_name (rvw : ParentResult) : ParentResult :=
  {| business_name := remove_nbsp (split_head "Reviews" (business_name rvw));
     reviews := reviews rvw |}.

Section Coordinator.

Variable detect : option string -> res string.
Variable urljoin : string -> string -> string.

(** One turn of [for url in reversed(business_urls)].  The call of
    [get_business_reviews] stands outside the [try]: what it raises ends the
    cell. *)
Definition url_body (url_ : string) (script : list Fetch) (g : Globals)
  : list Event * run Globals :=
  match get_business_reviews detect urljoin url_ script with
  | (evs, Return reviews_) => (evs ++ [EvSleep 30 60], Return (store_result reviews_ g))
  | (evs, Raise e) => (evs, Raise e)
  | (evs, Starved) => (evs, Starved)
  end.

Fixpoint for_loop (urls : list (string * list Fetch)) (g : Globals)
  : list Event * run Globals :=
  match urls with
  | [] => ([], Return g)
  | (url_, script) :: rest =>
      match url_body url_ script g with
      | (evs, Return g') =>
          let (evs', r) := for_loop rest g' in (evs ++ evs', r)
      | (evs, r) => (evs, r)
      end
  end.

Definition main_loop (business_urls : list (string * list Fetch)) (g : Globals)
  : list Event * run Globals :=
  for_loop (rev business_urls) g.

(** The last cell: [json.dump(all_reviews, file)] into [filename]. *)
Definition save (filename : string) (g : Globals) : Globals :=
  {| all_reviews := all_reviews g;
     disk := write_file filename (all_reviews g) (disk g) |}.

Definition cleanup (g : Globals) : Globals :=
  {| all_reviews := map clean_name (all_reviews g); disk := disk g |}.

(** Main loop, clean-up cell, save cell. *)
Definition notebook (filename : string) (business_urls : list (string * list Fetch))
  : list Event * run Globals :=
  match main_loop business_urls init_globals with
  | (evs, Return g) => (evs, Return (save filename (cleanup g)))
  | (evs, r) => (evs, r)
  end.

End Coordinator.

End TP.

(** ** The category walk of the TrustPilot notebook *)

Module Category.

(** One [<a data-business-unit-card-link>]: the number of images whose [alt]
    mentions TrustScore ([len(tst)]) and the [href] attribute ([None] when the
    anchor has none). *)
Record Link : Type := mkLink {
  trustscore_imgs : nat;
  link_href : option string
}.

(** One page of the category: its business links in document order and the
    [href] of the next-page link ([None] when there is no such link or it has
    no [href]). *)
Record Page : Type := mkPage {
  links : list Link;
  next_href : option string
}.

(** One call of [requests.get]; nothing in [scrape_category_page] catches what
    it raises. *)
Inductive Fetch : Type :=
| FetchRaises (e : exn)
| FetchOk (p : Page).

(** ['/review/' in url]: [needle] occurs somewhere in [s]. *)
Fixpoint contains (needle s : string) : bool :=
  String.prefix needle s ||
  match s with
  | EmptyString => false
  | String _ r => contains needle r
  end.

Section Walk.

Variable urljoin : string -> string -> string.

(** [urljoin(base_url, link.get('href'))]: for [None] the library returns the
    base ([if not url: return base]). *)
Definition join_href (href : option string) : string :=
  match href with
  | None => TP.base_url
  | Some h => urljoin TP.base_url h
  end.

(** The [for link in ...] loop: the list afterwards, and whether the
    [return business_urls] inside the loop was taken. *)
Fixpoint link_loop (ls : list Link) (business_urls : list string) : list string * bool :=
  match ls with
  | [] => (business_urls, false)
  | link :: rest =>
      if trustscore_imgs link =? 0 then (business_urls, true)
      else
        let url := join_href (link_href link) in
        if contains "/review/" url
        then link_loop rest (business_urls ++ [url])
        else link_loop rest business_urls
  end.

(** The [while current_page_url] loop. *)
Fixpoint while_loop (script : list Fetch) (current_page_url : string)
    (business_urls : list string) : list TP.Event * run (list string) :=
  if String.eqb current_page_url "" then ([], Return business_urls)
  else
    match script with
    | [] => ([], Starved)
    | FetchRaises e :: _ => ([TP.EvGet current_page_url], Raise e)
    | FetchOk page :: rest =>
        match link_loop (links page) business_urls with
        | (urls, true) => ([TP.EvGet current_page_url], Return urls)
        | (urls, false) =>
            match next_href page with
            | Some href =>
                if String.eqb href "" then ([TP.EvGet current_page_url], Return urls)
                else
                  let (evs, r) := while_loop rest (urljoin TP.base_url href) urls in
                  (TP.EvGet current_page_url :: TP.EvSleep 2 5 :: evs, r)
            | None => ([TP.EvGet current_page_url], Return urls)
            end
        end
    end.


End Walk.

End Category.

(** ** The seed cell of the BoardGameGeek notebook *)

Module Seed.

Definition gamesSelection : nat := 250.

Section Select.

(** [sort_values(by='usersrated', ascending=False)] on the rows of a frame. *)
Variable sort_values : list BGG.Row -> list BGG.Row.

(** [df[df['usersrated']>=1000].sort_values(...).head(gamesSelection)]; the
    position in the list is the index after [reset_index(drop=True)]. *)
Definition select_games (df : list BGG.Row) : list BGG.Row :=
  firstn gamesSelection
    (sort_values (filter (fun row => 1000 <=? BGG.usersrated row) df)).

End Select.

End Seed.

(** ** Concrete library behaviour for the worked examples

    The general theorems quantify over [float], [detect], the [re.sub] passes
    and [urljoin].  The examples run the model with the instances below. *)

Module Samples.

Definition digit (c : ascii) : option nat :=
  let n := nat_of_ascii c in
  if (48 <=? n) && (n <=? 57) then Some (n - 48) else None.

Fixpoint digits (s : string) (acc : nat) : option nat :=
  match s with
  | EmptyString => Some acc
  | String c r =>
      match digit c with
      | Some d => digits r (10 * acc + d)
      | None => None
      end
  end.

Fixpoint split_dot (s : string) : string * option string :=
  match s with
  | EmptyString => (EmptyString, None)
  | String c r =>
      if Ascii.eqb c "."%char then (EmptyString, Some r)
      else let (a, b) := split_dot r in (String c a, b)
  end.

(** [float] on unsigned decimal numerals ([7], [11], [7.5], [.5], [7.]); any
    other text gets the [ValueError] that [float('N/A')] raises.  Signs,
    exponents, white space, [inf] and [nan] are outside this instance. *)
Definition float_str (s : string) : res pyfloat :=
  let (ip, fp) := split_dot s in
  match fp with
  | None =>
      if String.eqb ip "" then Exc ValueError
      else match digits ip 0 with
           | Some n => Ok (FFinite (inject_Z (Z.of_nat n)))
           | None => Exc ValueError
           end
  | Some fr =>
      if String.eqb ip "" && String.eqb fr "" then Exc ValueError
      else match digits ip 0, digits fr 0 with
           | Some a, Some b =>
               let scale := 10 ^ String.length fr in
               Ok (FFinite (Qmake (Z.of_nat (a * scale + b)) (Pos.of_nat scale)))
           | _, _ => Exc ValueError
           end
  end.

(** A detector in the manner of [langdetect.detect]: [None] is not a string
    ([TypeError] from the first [re.sub] inside the library), text without
    letters has no features ([LangDetectException]), and three sentences are
    classified. *)
Definition detect (x : option string) : res string :=
  match x with
  | None => Exc TypeError
  | Some s =>
      if String.eqb s "" then Exc LangDetectException
      else if String.eqb s "5/5" then Exc LangDetectException
      else if String.eqb s "Great service" then Ok "en"
      else if String.eqb s "Great game" then Ok "en"
      else if String.eqb s "Service impeccable" then Ok "fr"
      else Ok "de"
  end.

(** The markup passes leave text without markup alone. *)
Definition re_sub_all (s : string) : string := s.

(** [urljoin(base, href)] for an absolute path [href]. *)
Definition urljoin (base href : string) : string := base ++ href.

End Samples.

(** ** Vocabulary of the properties *)

Module Props.

(** Number of requests in a trace of the BoardGameGeek driver. *)
Definition bgg_is_get (e : BGG.Event) : bool :=
  match e with BGG.EvGet _ _ => true | BGG.EvSleep _ _ => false end.

Definition bgg_attempts (evs : list BGG.Event) : nat :=
  List.length (filter bgg_is_get evs).

(** A fetch that answers, but with a status other than 200 or with content
    that does not parse. *)
Definition bgg_bad_answer (f : BGG.Fetch) : bool :=
  match f with
  | BGG.FetchRaises _ => false
  | BGG.FetchOk r =>
      negb (BGG.status_code r =? 200) ||
      match BGG.content r with BGG.Malformed => true | BGG.Document _ _ => false end
  end.

(** A failed fetch: [requests.get] raises, or the answer is bad. *)
Definition bgg_failed (f : BGG.Fetch) : bool :=
  match f with
  | BGG.FetchRaises _ => true
  | BGG.FetchOk _ => bgg_bad_answer f
  end.

(** A fetch after which [getData] is certain to leave its loop: the request
    raises, or a good answer has no comment. *)
Definition bgg_ends (f : BGG.Fetch) : bool :=
  match f with
  | BGG.FetchRaises _ => true
  | BGG.FetchOk r =>
      (BGG.status_code r =? 200) &&
      match BGG.content r with
      | BGG.Document _ [] => true
      | _ => false
      end
  end.

Definition tp_is_get (e : TP.Event) : bool :=
  match e with TP.EvGet _ => true | TP.EvSleep _ _ => false end.

Definition tp_attempts (evs : list TP.Event) : nat :=
  List.length (filter tp_is_get evs).

Definition tp_failed (f : TP.Fetch) : bool :=
  match f with TP.FetchRaises _ => true | TP.FetchOk _ => false end.

(** A fetch after which [get_business_reviews] leaves its loop: an exception,
    or a page without a next-page link. *)
Definition tp_ends (f : TP.Fetch) : bool :=
  match f with
  | TP.FetchRaises _ => true
  | TP.FetchOk p => negb (TP.is_some (TP.next_href p))
  end.

(** Accepted records held by a buffer. *)
Definition bgg_total (buf : list BGG.ParentResult) : nat :=
  list_sum (map (fun r => List.length (BGG.reviews r)) buf).

Definition tp_total (buf : list TP.ParentResult) : nat :=
  list_sum (map (fun r => List.length (TP.reviews r)) buf).

(** Whether the inner [try] of the TrustPilot driver appends a record. *)
Definition tp_admitted (detect : option string -> res string) (c : TP.Card) : bool :=
  match TP.review_try detect c with
  | Ok (Some _) => true
  | _ => false
  end.


Definition bgg_nonempty (r : BGG.ParentResult) : Prop := BGG.reviews r <> [].
Definition tp_nonempty (r : TP.ParentResult) : Prop := TP.reviews r <> [].

(** Every script of the list contains a fetch that ends the paging. *)
Definition bgg_served (rows : list (BGG.Row * list BGG.Fetch)) : bool :=
  forallb (fun rs => existsb bgg_ends (snd rs)) rows.

(** The url is not empty, the first page is read and shows the business title,
    and some fetch ends the paging. *)
Definition tp_served_one (e : string * list TP.Fetch) : bool :=
  negb (String.eqb (fst e) "") &&
  match snd e with
  | TP.FetchOk p :: _ => TP.is_some (TP.page_title p)
  | _ => false
  end &&
  existsb tp_ends (snd e).

Definition tp_served (urls : list (string * list TP.Fetch)) : bool :=
  forallb tp_served_one urls.

(** What the checkpoint file of the BoardGameGeek notebook holds. *)
Definition bgg_on_disk (cfg : BGG.Config) (g : BGG.Globals) : list BGG.ParentResult :=
  match BGG.read_file (BGG.outputFile cfg) (BGG.disk g) with
  | Some data => data
  | None => []
  end.

(** The checkpoint discipline of the main cell: only [outputFile] is ever
    written; the buffer is what the file holds followed by the results appended
    since, [checkCount] is the number of records in those; and [checkCount] is
    below the threshold (or 0, when the threshold is 0). *)
Definition bgg_flush_inv (cfg : BGG.Config) (g : BGG.Globals) : Prop :=
  (BGG.disk g = [] \/ exists data, BGG.disk g = [(BGG.outputFile cfg, data)]) /\
  (exists pending,
      BGG.all_reviews g = bgg_on_disk cfg g ++ pending /\
      bgg_total pending = BGG.checkCount g) /\
  (BGG.checkCount g = 0 \/ BGG.checkCount g < BGG.checkThreshold cfg).

(** The field is non-empty and is classified as English. *)
Definition field_en (detect : option string -> res string) (s : option string) : Prop :=
  truthy s = true /\ detect s = Ok "en".

(** The field is absent or empty, or is classified as another language. *)
Definition field_other (detect : option string -> res string) (s : option string) : Prop :=
  truthy s = false \/ (exists lang, detect s = Ok lang /\ lang <> "en").

End Props.

Import Props.

(** ** Inputs of the worked examples *)

(** The example of the specification: ratings ["11"] and ["7"]. *)
Definition comment_11 : BGG.Comment :=
  {| BGG.c_rating := Some "11"; BGG.c_text := Some "Great game" |}.
Definition comment_7 : BGG.Comment :=
  {| BGG.c_rating := Some "7"; BGG.c_text := Some "Great game" |}.

(** Three answers with status 500, and three requests that raise. *)
Definition status_500 : BGG.Fetch :=
  BGG.FetchOk {| BGG.status_code := 500; BGG.content := BGG.Malformed |}.
Definition three_bad_answers : list BGG.Fetch := [status_500; status_500; status_500].
Definition three_raising : list BGG.Fetch :=
  [BGG.FetchRaises RequestException; BGG.FetchRaises RequestException;
   BGG.FetchRaises RequestException].
Definition tp_three_raising : list TP.Fetch :=
  [TP.FetchRaises RequestException; TP.FetchRaises RequestException;
   TP.FetchRaises RequestException].
Definition acme_url : string := "https://www.trustpilot.com/review/acme.example".

(** A page of the API with the game name and one comment in English. *)
Definition good_page (name : string) : BGG.Fetch :=
  BGG.FetchOk {| BGG.status_code := 200;
                 BGG.content := BGG.Document [name] [comment_7] |}.

(** A first page of a business with one review and no next link. *)
Definition card_en : TP.Card :=
  {| TP.card_rating := Some "5"; TP.card_title := Some "Great service";
     TP.card_text := None |}.
Definition acme_last_page : TP.Page :=
  {| TP.page_title := Some "Acme Motors  "; TP.cards := [card_en]; TP.next_href := None |}.

Definition resume_cfg : BGG.Config :=
  {| BGG.reprocess := true; BGG.reprocessIndex := 1; BGG.reprocessIDs := [];
     BGG.checkThreshold := 3; BGG.outputFile := "boardgamegeek.json" |}.

Definition two_rows : list (BGG.Row * list BGG.Fetch) :=
  [ ({| BGG.row_id := 10; BGG.row_name := "Gloomhaven"; BGG.usersrated := 5000 |},
     [good_page "Gloomhaven"; BGG.FetchOk {| BGG.status_code := 200;
                                             BGG.content := BGG.Document [] [] |}]);
    ({| BGG.row_id := 20; BGG.row_name := "Catan"; BGG.usersrated := 4000 |},
     [good_page "Catan"; BGG.FetchOk {| BGG.status_code := 200;
                                        BGG.content := BGG.Document [] [] |}]) ].

Definition comment_no_text : BGG.Comment :=
  {| BGG.c_rating := Some "7"; BGG.c_text := None |}.

Definition page_with_empty_comment : BGG.Fetch :=
  BGG.FetchOk {| BGG.status_code := 200;
                 BGG.content := BGG.Document ["Catan"] [comment_7; comment_no_text] |}.

Definition card_fr : TP.Card :=
  {| TP.card_rating := Some "4"; TP.card_title := Some "Service impeccable";
     TP.card_text := None |}.

Definition acme_page_1 : TP.Page :=
  {| TP.page_title := Some "Acme Motors"; TP.cards := [card_fr];
     TP.next_href := Some "/review/acme.example?page=2" |}.

Definition acme_page_2 : TP.Page :=
  {| TP.page_title := Some "Borealis Cars"; TP.cards := [card_en]; TP.next_href := None |}.

Definition card_unclassifiable_title : TP.Card :=
  {| TP.card_rating := Some "5"; TP.card_title := Some "5/5";
     TP.card_text := Some "Great service" |}.

Definition plain_cfg : BGG.Config :=
  {| BGG.reprocess := false; BGG.reprocessIndex := 0; BGG.reprocessIDs := [];
     BGG.checkThreshold := 2; BGG.outputFile := "boardgamegeek.json" |}.

Definition two_businesses : list (string * list TP.Fetch) :=
  [ (acme_url, [TP.FetchOk acme_last_page]);
    ("https://www.trustpilot.com/review/borealis.example", [TP.FetchOk acme_page_2]) ].

(** ** Vocabulary of the further properties *)

Definition bgg_is_sleep (e : BGG.Event) : bool :=
  match e with BGG.EvSleep _ _ => true | BGG.EvGet _ _ => false end.

Definition bgg_sleeps (evs : list BGG.Event) : nat :=
  List.length (filter bgg_is_sleep evs).

(** A trace of [getData] for game [gid] standing at page [p]: requests are for
    the current page, and a request is followed by another request for the same
    page or by a sleep of 5 to 10 seconds and then the next page. *)
Fixpoint bgg_paged (gid p : nat) (evs : list BGG.Event) : bool :=
  match evs with
  | [] => true
  | BGG.EvGet g q :: rest =>
      (g =? gid) && (q =? p) &&
      match rest with
      | BGG.EvSleep lo hi :: rest' => (lo =? 5) && (hi =? 10) && bgg_paged gid (S p) rest'
      | _ => bgg_paged gid p rest
      end
  | BGG.EvSleep _ _ :: _ => false
  end.

(** A record of the API source that passed both tests of the comment loop. *)
Definition bgg_quality (float_str : string -> res pyfloat)
    (detect : option string -> res string) (r : BGG.Review) : Prop :=
  BGG.checkNumericRange float_str (BGG.rating r) 1%Q 10%Q = true /\
  detect (BGG.review_text r) = Ok "en".

(** The records of [st'] are those of [st] followed by records that passed
    both tests. *)
Definition bgg_grows (float_str : string -> res pyfloat)
    (detect : option string -> res string) (st st' : BGG.Locals) : Prop :=
  exists more,
    BGG.reviewData st' = BGG.reviewData st ++ more /\
    Forall (bgg_quality float_str detect) more.

(** What the comment loop of [getData] leaves alone. *)
Definition bgg_same_control (st st' : BGG.Locals) : Prop :=
  BGG.pgCount st' = BGG.pgCount st /\
  BGG.keepGoing st' = BGG.keepGoing st /\
  BGG.requestErrorCount st' = BGG.requestErrorCount st.

(** A record of the HTML source one of whose stored fields is English. *)
Definition tp_quality (detect : option string -> res string) (r : TP.Review) : Prop :=
  field_en detect (TP.review_title r) \/ field_en detect (TP.review_text r).

(** Review cards on the pages of a script. *)
Definition tp_cards_in (script : list TP.Fetch) : nat :=
  list_sum (map (fun f => match f with
                          | TP.FetchOk p => List.length (TP.cards p)
                          | TP.FetchRaises _ => 0
                          end) script).

Definition tp_is_sleep (lo hi : nat) (e : TP.Event) : bool :=
  match e with
  | TP.EvSleep a b => (a =? lo) && (b =? hi)
  | TP.EvGet _ => false
  end.

(** Sleeps of [lo] to [hi] seconds in a trace. *)
Definition tp_sleeps (lo hi : nat) (evs : list TP.Event) : nat :=
  List.length (filter (tp_is_sleep lo hi) evs).

(** A trace in which every request is the last event or is followed by a
    sleep of [lo] to [hi] seconds, and nothing else occurs. *)
Fixpoint tp_paged (lo hi : nat) (evs : list TP.Event) : bool :=
  match evs with
  | [] => true
  | TP.EvGet _ :: rest =>
      match rest with
      | [] => true
      | TP.EvSleep a b :: rest' => (a =? lo) && (b =? hi) && tp_paged lo hi rest'
      | TP.EvGet _ :: _ => false
      end
  | TP.EvSleep _ _ :: _ => false
  end.

Definition cat_raises (f : Category.Fetch) : bool :=
  match f with Category.FetchRaises _ => true | Category.FetchOk _ => false end.

(** [url] was made from a business link with a TrustScore image on one of the
    pages of the script. *)
Definition cat_listed (urljoin : string -> string -> string)
    (script : list Category.Fetch) (url : string) : Prop :=
  exists page link,
    In (Category.FetchOk page) script /\
    In link (Category.links page) /\
    Category.trustscore_imgs link <> 0 /\
    url = Category.join_href urljoin (Category.link_href link).

(** The same for the links of one page. *)
Definition cat_listed_on (urljoin : string -> string -> string)
    (ls : list Category.Link) (url : string) : Prop :=
  exists link,
    In link ls /\
    Category.trustscore_imgs link <> 0 /\
    url = Category.join_href urljoin (Category.link_href link).

(** Rows in the order of [ascending=False]: no row has fewer ratings than a
    later one. *)
Definition votes_desc (a b : BGG.Row) : Prop := BGG.usersrated b <= BGG.usersrated a.

(** A sort by falling number of ratings, for the worked example of the seed
    cell (the theorems hold for any sort with the two properties of
    [sort_values]). *)
Fixpoint insert_row (row : BGG.Row) (l : list BGG.Row) : list BGG.Row :=
  match l with
  | [] => [row]
  | x :: rest =>
      if BGG.usersrated x <=? BGG.usersrated row then row :: l
      else x :: insert_row row rest
  end.

Fixpoint sort_rows (l : list BGG.Row) : list BGG.Row :=
  match l with
  | [] => []
  | x :: rest => insert_row x (sort_rows rest)
  end.

Definition small_frame : list BGG.Row :=
  [ {| BGG.row_id := 20; BGG.row_name := "Catan"; BGG.usersrated := 1200 |};
    {| BGG.row_id := 30; BGG.row_name := "Obscure"; BGG.usersrated := 40 |};
    {| BGG.row_id := 10; BGG.row_name := "Gloomhaven"; BGG.usersrated := 1500 |} ].

(** The text is empty or begins with a character that is not white space. *)
Definition clean_head (s : string) : Prop :=
  match s with
  | EmptyString => True
  | String c _ => isspace c = false
  end.

(** The text neither begins nor ends with white space. *)
Definition trimmed (s : string) : Prop :=
  clean_head s /\ clean_head (string_rev s).

(** Both stored fields of a record of the HTML source are trimmed. *)
Definition tp_trimmed_review (r : TP.Review) : Prop :=
  (forall s, TP.review_title r = Some s -> trimmed s) /\
  (forall s, TP.review_text r = Some s -> trimmed s).

(** A result of the API source that may stand in the checkpoint file: it has
    a record, and all its records passed both tests. *)
Definition bgg_sound_result (float_str : string -> res pyfloat)
    (detect : option string -> res string) (r : BGG.ParentResult) : Prop :=
  BGG.reviews r <> [] /\ Forall (bgg_quality float_str detect) (BGG.reviews r).


(** *** What the drivers are to return *)





(** The records the comment loop of [getData] appends for the comments of one
    page: those that pass both tests, up to the first comment on which
    [detect] raises something other than [LangDetectException]. *)
Fixpoint bgg_comment_records (float_str : string -> res pyfloat)
    (detect : option string -> res string) (re_sub_all : string -> string)
    (comments : list BGG.Comment) : list BGG.Review :=
  match comments with
  | [] => []
  | c :: rest =>
      if BGG.checkNumericRange float_str (BGG.c_rating c) 1%Q 10%Q then
        match detect (BGG.removeMarkup re_sub_all (BGG.c_text c)) with
        | Ok lang =>
            (if String.eqb lang "en"
             then [ {| BGG.rating := BGG.c_rating c;
                       BGG.review_text := BGG.removeMarkup re_sub_all (BGG.c_text c) |} ]
             else []) ++ bgg_comment_records float_str detect re_sub_all rest
        | Exc LangDetectException => bgg_comment_records float_str detect re_sub_all rest
        | Exc _ => []
        end
      else bgg_comment_records float_str detect re_sub_all rest
  end.

(** Whether [detect] raises something other than [LangDetectException] on a
    comment of the page that passed the rating test. *)
Fixpoint bgg_comments_raise (float_str : string -> res pyfloat)
    (detect : option string -> res string) (re_sub_all : string -> string)
    (comments : list BGG.Comment) : bool :=
  match comments with
  | [] => false
  | c :: rest =>
      if BGG.checkNumericRange float_str (BGG.c_rating c) 1%Q 10%Q then
        match detect (BGG.removeMarkup re_sub_all (BGG.c_text c)) with
        | Ok _ => bgg_comments_raise float_str detect re_sub_all rest
        | Exc LangDetectException => bgg_comments_raise float_str detect re_sub_all rest
        | Exc _ => true
        end
      else bgg_comments_raise float_str detect re_sub_all rest
  end.

(** The records one answer of the server contributes to the result. *)
Definition bgg_fetch_records (float_str : string -> res pyfloat)
    (detect : option string -> res string) (re_sub_all : string -> string)
    (f : BGG.Fetch) : list BGG.Review :=
  match f with
  | BGG.FetchRaises _ => []
  | BGG.FetchOk r =>
      if BGG.status_code r =? 200 then
        match BGG.content r with
        | BGG.Malformed => []
        | BGG.Document _ comments => bgg_comment_records float_str detect re_sub_all comments
        end
      else []
  end.

(** A successful page: status 200, at least one comment, and a comment loop
    that runs to its end. *)
Definition bgg_stored (float_str : string -> res pyfloat)
    (detect : option string -> res string) (re_sub_all : string -> string)
    (f : BGG.Fetch) : bool :=
  match f with
  | BGG.FetchRaises _ => false
  | BGG.FetchOk r =>
      (BGG.status_code r =? 200) &&
      match BGG.content r with
      | BGG.Malformed => false
      | BGG.Document _ comments =>
          (0 <? List.length comments) &&
          negb (bgg_comments_raise float_str detect re_sub_all comments)
      end
  end.




(** A review whose title is a single no-break space and whose body is
    English. *)
Definition card_nbsp_title : TP.Card :=
  {| TP.card_rating := Some "5";
     TP.card_title := Some (String (ascii_of_nat 194) (String (ascii_of_nat 160) EmptyString));
     TP.card_text := Some "Great service" |}.

(** A page of the HTML source without a link, another page with one English
    review and a link, and a listing page. *)
Definition acme_first_of_two : TP.Page :=
  {| TP.page_title := Some "Acme Motors"; TP.cards := [card_en; card_fr];
     TP.next_href := Some "/review/acme.example?page=2" |}.

Definition listing_page : Category.Page :=
  {| Category.links :=
       [ {| Category.trustscore_imgs := 1;
            Category.link_href := Some "/review/acme.example" |};
         {| Category.trustscore_imgs := 1;
            Category.link_href := Some "/categories/car_dealer" |};
         {| Category.trustscore_imgs := 0;
            Category.link_href := Some "/review/unrated.example" |};
         {| Category.trustscore_imgs := 1;
            Category.link_href := Some "/review/late.example" |} ];
     Category.next_href := Some "/categories/car_dealer?page=2" |}.

Definition category_url : string :=
  "https://www.trustpilot.com/categories/car_dealer".

(** ** The rating gate of the API source *)

Section RatingGate.

Variable float_str : string -> res pyfloat.
Variable detect : option string -> res string.
Variable re_sub_all : string -> string.

Local Abbreviation check := (BGG.checkNumericRange float_str).
Local Abbreviation body := (BGG.comment_body float_str detect re_sub_all).
Local Abbreviation loop := (BGG.comment_loop float_str detect re_sub_all).

Lemma checkNumericRange_spec (val : option string) :
  check val 1%Q 10%Q = true <->
  exists q, BGG.float_ float_str val = Ok (FFinite q) /\ (1 <= q <= 10)%Q.
Proof.
  unfold BGG.checkNumericRange.
  destruct (BGG.float_ float_str val) as [[q | neg | ] | e]; simpl.
  - split.
    + destruct (Qle_bool 1 q) eqn:Hlo, (Qle_bool q 10) eqn:Hhi; simpl; try discriminate.
      intros _. exists q. repeat split; apply Qle_bool_iff; assumption.
    + intros (q' & Heq & H1 & H2). inversion Heq; subst q'.
      apply Qle_bool_iff in H1, H2. rewrite H1, H2. reflexivity.
  - split; [destruct neg; discriminate | intros (q & Heq & _); discriminate].
  - split; [discriminate | intros (q & Heq & _); discriminate].
  - split; [discriminate | intros (q & Heq & _); discriminate].
Qed.

Lemma comment_body_rejected (c : BGG.Comment) (st : BGG.Locals) :
  check (BGG.c_rating c) 1%Q 10%Q = false -> body c st = (st, None).
Proof.
  unfold BGG.comment_body. intros ->. reflexivity.
Qed.

Lemma comment_loop_skip (c : BGG.Comment) (before after : list BGG.Comment) :
  check (BGG.c_rating c) 1%Q 10%Q = false ->
  forall st, loop (before ++ c :: after) st = loop (before ++ after) st.
Proof.
  intros Hc. induction before as [| b before IH]; intros st; simpl.
  - rewrite (comment_body_rejected c st Hc). reflexivity.
  - destruct (BGG.comment_body float_str detect re_sub_all b st) as [st' [e |]];
      [reflexivity | apply IH].
Qed.

Lemma comment_body_reviewData (c : BGG.Comment) (st : BGG.Locals) :
  BGG.reviewData (fst (body c st)) = BGG.reviewData st \/
  (check (BGG.c_rating c) 1%Q 10%Q = true /\
   BGG.reviewData (fst (body c st)) =
     BGG.reviewData st ++ [ {| BGG.rating := BGG.c_rating c;
                               BGG.review_text := BGG.removeMarkup re_sub_all (BGG.c_text c) |} ]).
Proof.
  unfold BGG.comment_body.
  destruct (BGG.checkNumericRange float_str (BGG.c_rating c) 1 10); [| left; reflexivity].
  destruct (detect (BGG.removeMarkup re_sub_all (BGG.c_text c))) as [lang | e].
  - destruct (String.eqb lang "en"); [right; split; reflexivity | left; reflexivity].
  - left. destruct e; reflexivity.
Qed.

Lemma comment_loop_ratings (cs : list BGG.Comment) :
  forall st r,
    In r (BGG.reviewData (fst (loop cs st))) ->
    In r (BGG.reviewData st) \/ check (BGG.rating r) 1%Q 10%Q = true.
Proof.
  induction cs as [| c cs IH]; intros st r Hin; simpl in Hin; [left; exact Hin |].
  pose proof (comment_body_reviewData c st) as Hb.
  destruct (body c st) as [st' [e |]] eqn:Hbody; simpl in *.
  - destruct Hb as [Heq | [Hok Heq]]; rewrite Heq in Hin.
    + left; exact Hin.
    + apply in_app_or in Hin. destruct Hin as [Hin | [<- | []]]; [left; exact Hin | right; exact Hok].
  - destruct (IH st' r Hin) as [Hin' | Hok]; [| right; exact Hok].
    destruct Hb as [Heq | [Hok Heq]]; rewrite Heq in Hin'.
    + left; exact Hin'.
    + apply in_app_or in Hin'. destruct Hin' as [Hin' | [<- | []]]; [left; exact Hin' | right; exact Hok].
Qed.

End RatingGate.

(** C7 -- API source: a comment is eligible exactly when [float] turns its
    rating into a finite number between 1 and 10; every record the comment loop
    appends has such a rating; and a comment whose rating fails the test is
    passed over without an exception and without any change of the locals, so
    the loop treats the other comments as if it were not there. *)
Theorem C7_rating_gate
    (float_str : string -> res pyfloat) (detect : option string -> res string)
    (re_sub_all : string -> string)
    (c : BGG.Comment) (before after : list BGG.Comment) (st : BGG.Locals) :
  (BGG.checkNumericRange float_str (BGG.c_rating c) 1%Q 10%Q = true <->
     exists q, BGG.float_ float_str (BGG.c_rating c) = Ok (FFinite q) /\ (1 <= q <= 10)%Q)
  /\ (forall r,
        In r (BGG.reviewData
                (fst (BGG.comment_loop float_str detect re_sub_all (before ++ c :: after) st))) ->
        In r (BGG.reviewData st) \/
        BGG.checkNumericRange float_str (BGG.rating r) 1%Q 10%Q = true)
  /\ (BGG.checkNumericRange float_str (BGG.c_rating c) 1%Q 10%Q = false ->
        BGG.comment_body float_str detect re_sub_all c st = (st, None) /\
        BGG.comment_loop float_str detect re_sub_all (before ++ c :: after) st =
        BGG.comment_loop float_str detect re_sub_all (before ++ after) st).
Proof.
  split; [apply checkNumericRange_spec |].
  split; [intros r; apply comment_loop_ratings |].
  intros Hc. split.
  - apply comment_body_rejected; exact Hc.
  - apply comment_loop_skip; exact Hc.
Qed.

Lemma C7_rating_gate_witness :
  BGG.comment_loop Samples.float_str Samples.detect Samples.re_sub_all
    ([comment_7] ++ comment_11 :: []) BGG.init_locals =
  BGG.comment_loop Samples.float_str Samples.detect Samples.re_sub_all
    ([comment_7] ++ []) BGG.init_locals.
Proof.
  apply (C7_rating_gate Samples.float_str Samples.detect Samples.re_sub_all
           comment_11 [comment_7] [] BGG.init_locals).
  reflexivity.
Defined.

Example ratings_11_and_7 :
  BGG.reviewData
    (fst (BGG.comment_loop Samples.float_str Samples.detect Samples.re_sub_all
            [comment_11; comment_7] BGG.init_locals)) =
  [ {| BGG.rating := Some "7"; BGG.review_text := Some "Great game" |} ].
Proof. reflexivity. Qed.

(** ** The error counter of [getData] *)

Section ErrorCounter.

Variable float_str : string -> res pyfloat.
Variable detect : option string -> res string.
Variable re_sub_all : string -> string.

Local Abbreviation loop_body := (BGG.loop_body float_str detect re_sub_all).
Local Abbreviation while_loop := (BGG.while_loop float_str detect re_sub_all).

Lemma loop_body_bad_answer (gameID : nat) (f : BGG.Fetch) (st : BGG.Locals) :
  bgg_bad_answer f = true ->
  loop_body gameID f st = ([BGG.EvGet gameID (BGG.pgCount st)], Ok (BGG.count_error st)).
Proof.
  unfold BGG.loop_body. destruct f as [e | resp]; simpl; [discriminate |].
  destruct (BGG.status_code resp =? 200); simpl; [| reflexivity].
  destruct (BGG.content resp); [reflexivity | discriminate].
Qed.

Lemma loop_body_first_event (gameID : nat) (f : BGG.Fetch) (st : BGG.Locals) :
  exists tail, fst (loop_body gameID f st) = BGG.EvGet gameID (BGG.pgCount st) :: tail.
Proof.
  unfold BGG.loop_body. destruct f as [e | resp]; [eexists; reflexivity |].
  destruct (BGG.status_code resp =? 200); [| eexists; reflexivity].
  destruct (BGG.content resp) as [| names comments]; [eexists; reflexivity |].
  destruct (0 <? List.length comments); [| eexists; reflexivity].
  destruct (BGG.comment_loop _ _ _ _ _) as [st' [e |]]; eexists; reflexivity.
Qed.

Lemma while_loop_stopped (gameID : nat) (script : list BGG.Fetch) (st : BGG.Locals) :
  BGG.keepGoing st = false ->
  while_loop gameID script st = ([], Return (Some (BGG.result_of st))).
Proof.
  intros H. destruct script; simpl; rewrite H; reflexivity.
Qed.

Lemma while_loop_cons (gameID : nat) (f : BGG.Fetch) (rest : list BGG.Fetch) (st : BGG.Locals) :
  BGG.keepGoing st = true ->
  while_loop gameID (f :: rest) st =
  match loop_body gameID f st with
  | (evs, Exc _) => (evs, Return None)
  | (evs, Ok st') =>
      (evs ++ fst (while_loop gameID rest st'), snd (while_loop gameID rest st'))
  end.
Proof.
  intros H. simpl. rewrite H.
  destruct (BGG.loop_body _ _ _ _ _ _) as [evs [st' | e]]; [| reflexivity].
  destruct (BGG.while_loop _ _ _ _ _ _); reflexivity.
Qed.

Lemma keepGoing_count_error (st : BGG.Locals) :
  BGG.keepGoing (BGG.count_error st) =
  (if 3 <=? BGG.requestErrorCount st + 1 then false else BGG.keepGoing st).
Proof. reflexivity. Qed.

Lemma count_error_frame (st : BGG.Locals) :
  BGG.requestErrorCount (BGG.count_error st) = BGG.requestErrorCount st + 1 /\
  BGG.pgCount (BGG.count_error st) = BGG.pgCount st /\
  BGG.result_of (BGG.count_error st) = BGG.result_of st.
Proof. repeat split. Qed.

Lemma bad_answers_abort (gameID : nat) (script : list BGG.Fetch) :
  forall st,
    BGG.keepGoing st = true ->
    BGG.requestErrorCount st < 3 ->
    forallb bgg_bad_answer script = true ->
    3 - BGG.requestErrorCount st <= List.length script ->
    while_loop gameID script st =
    (repeat (BGG.EvGet gameID (BGG.pgCount st)) (3 - BGG.requestErrorCount st),
     Return (Some (BGG.result_of st))).
Proof.
  induction script as [| f rest IH]; intros st Hk Hc Hall Hlen;
    cbn [List.length forallb] in Hlen, Hall; [lia |].
  apply andb_prop in Hall. destruct Hall as [Hf Hrest].
  rewrite (while_loop_cons gameID f rest st Hk), (loop_body_bad_answer gameID f st Hf).
  destruct (count_error_frame st) as (Hn & Hp & Hr).
  destruct (Nat.eq_dec (BGG.requestErrorCount st) 2) as [H2 | H2].
  - rewrite while_loop_stopped
      by (rewrite keepGoing_count_error, H2; reflexivity).
    rewrite Hr, H2. reflexivity.
  - assert (Hk' : BGG.keepGoing (BGG.count_error st) = true).
    { rewrite keepGoing_count_error.
      destruct (3 <=? BGG.requestErrorCount st + 1) eqn:E; [| exact Hk].
      apply Nat.leb_le in E. lia. }
    assert (Hc' : BGG.requestErrorCount (BGG.count_error st) < 3) by lia.
    assert (Hlen' : 3 - BGG.requestErrorCount (BGG.count_error st) <= List.length rest) by lia.
    rewrite (IH (BGG.count_error st) Hk' Hc' Hrest Hlen'), Hn, Hp, Hr.
    replace (3 - BGG.requestErrorCount st) with (S (3 - (BGG.requestErrorCount st + 1))) by lia.
    reflexivity.
Qed.

Lemma raising_fetch_returns_None (gameID : nat) (e : exn) (rest : list BGG.Fetch) (st : BGG.Locals) :
  BGG.keepGoing st = true ->
  while_loop gameID (BGG.FetchRaises e :: rest) st =
  ([BGG.EvGet gameID (BGG.pgCount st)], Return None).
Proof.
  intros Hk. rewrite (while_loop_cons gameID _ rest st Hk). reflexivity.
Qed.

End ErrorCounter.

Lemma tp_raising_fetch_breaks
    (detect : option string -> res string) (urljoin : string -> string -> string)
    (u : string) (e : exn) (rest : list TP.Fetch) (st : TP.Locals) :
  TP.url st = Some u -> u <> "" ->
  TP.while_loop detect urljoin (TP.FetchRaises e :: rest) st =
  ([TP.EvGet u], TP.return_result st).
Proof.
  intros Hu Hne. simpl. rewrite Hu.
  destruct (String.eqb u "") eqn:E; [apply String.eqb_eq in E; contradiction | reflexivity].
Qed.

(** C2, as stated, fails: when every request of an entity raises, [getData]
    makes one request and returns [None], and [get_business_reviews] makes one
    request as well. *)
Lemma C2_every_fetch_raises_one_attempt :
  forallb bgg_failed three_raising = true /\
  bgg_attempts (fst (BGG.getData Samples.float_str Samples.detect Samples.re_sub_all
                       (Some 13) three_raising)) = 1 /\
  snd (BGG.getData Samples.float_str Samples.detect Samples.re_sub_all
         (Some 13) three_raising) = Return None /\
  forallb tp_failed tp_three_raising = true /\
  tp_attempts (fst (TP.get_business_reviews Samples.detect Samples.urljoin
                      acme_url tp_three_raising)) = 1.
Proof. repeat split. Qed.

(** C10 -- In [getData], an answer with a status other than 200 that leaves
    the error counter below 3 changes neither the page counter nor the gathered
    records and produces no [time.sleep]: the next event of the loop is a
    request for the same page. *)
Theorem C10_bad_status_retries_same_page
    (float_str : string -> res pyfloat) (detect : option string -> res string)
    (re_sub_all : string -> string)
    (gameID : nat) (resp : BGG.Response) (next : BGG.Fetch) (rest : list BGG.Fetch)
    (st : BGG.Locals) :
  BGG.keepGoing st = true ->
  BGG.status_code resp <> 200 ->
  BGG.requestErrorCount st + 1 < 3 ->
  exists st' evs r,
    BGG.loop_body float_str detect re_sub_all gameID (BGG.FetchOk resp) st =
      ([BGG.EvGet gameID (BGG.pgCount st)], Ok st')
    /\ BGG.pgCount st' = BGG.pgCount st
    /\ BGG.reviewData st' = BGG.reviewData st
    /\ BGG.keepGoing st' = true
    /\ BGG.while_loop float_str detect re_sub_all gameID (BGG.FetchOk resp :: next :: rest) st =
         (BGG.EvGet gameID (BGG.pgCount st) :: BGG.EvGet gameID (BGG.pgCount st) :: evs, r).
Proof.
  intros Hk Hs Hc.
  assert (Hbad : bgg_bad_answer (BGG.FetchOk resp) = true).
  { simpl. apply Nat.eqb_neq in Hs. rewrite Hs. reflexivity. }
  assert (Hk' : BGG.keepGoing (BGG.count_error st) = true).
  { rewrite keepGoing_count_error.
    destruct (3 <=? BGG.requestErrorCount st + 1) eqn:E; [| exact Hk].
    apply Nat.leb_le in E. lia. }
  destruct (loop_body_first_event float_str detect re_sub_all gameID next (BGG.count_error st))
    as [tail Htail].
  pose proof (while_loop_cons float_str detect re_sub_all gameID next rest _ Hk') as Hnext.
  destruct (BGG.loop_body float_str detect re_sub_all gameID next (BGG.count_error st))
    as [evs2 out] eqn:Hb2.
  simpl in Htail. subst evs2.
  exists (BGG.count_error st).
  exists (match out with
          | Ok st2 => tail ++ fst (BGG.while_loop float_str detect re_sub_all gameID rest st2)
          | Exc _ => tail
          end).
  exists (match out with
          | Ok st2 => snd (BGG.while_loop float_str detect re_sub_all gameID rest st2)
          | Exc _ => Return None
          end).
  split; [apply loop_body_bad_answer; exact Hbad |].
  repeat split; [exact Hk' |].
  rewrite (while_loop_cons float_str detect re_sub_all gameID _ _ st Hk).
  rewrite (loop_body_bad_answer float_str detect re_sub_all gameID _ st Hbad).
  rewrite Hnext. destruct out; reflexivity.
Qed.

Lemma C10_bad_status_retries_same_page_witness :
  exists st' evs r,
    BGG.loop_body Samples.float_str Samples.detect Samples.re_sub_all 13 status_500
      BGG.init_locals = ([BGG.EvGet 13 1], Ok st')
    /\ BGG.pgCount st' = 1
    /\ BGG.reviewData st' = []
    /\ BGG.keepGoing st' = true
    /\ BGG.while_loop Samples.float_str Samples.detect Samples.re_sub_all 13
         (status_500 :: status_500 :: []) BGG.init_locals =
         (BGG.EvGet 13 1 :: BGG.EvGet 13 1 :: evs, r).
Proof.
  apply (C10_bad_status_retries_same_page Samples.float_str Samples.detect Samples.re_sub_all
           13 {| BGG.status_code := 500; BGG.content := BGG.Malformed |} status_500 []
           BGG.init_locals).
  - reflexivity.
  - discriminate.
  - simpl; lia.
Defined.

(** The counter is cumulative: three single errors, each followed by a good
    page, end the loop although no two errors are consecutive. *)
Example error_counter_is_never_reset :
  BGG.getData Samples.float_str Samples.detect Samples.re_sub_all (Some 13)
    [status_500; good_page "Catan"; status_500; good_page "Catan"; status_500] =
  ([BGG.EvGet 13 1; BGG.EvGet 13 1; BGG.EvSleep 5 10;
    BGG.EvGet 13 2; BGG.EvGet 13 2; BGG.EvSleep 5 10; BGG.EvGet 13 3],
   Return (Some {| BGG.game_name := BGG.NameList ["Catan"];
                   BGG.reviews :=
                     [ {| BGG.rating := Some "7"; BGG.review_text := Some "Great game" |};
                       {| BGG.rating := Some "7"; BGG.review_text := Some "Great game" |} ] |})).
Proof. reflexivity. Qed.

(** ** What the drivers hand to their caller *)

Section DriversReturn.

Variable float_str : string -> res pyfloat.
Variable detect : option string -> res string.
Variable re_sub_all : string -> string.
Variable urljoin : string -> string -> string.

Local Abbreviation loop_body := (BGG.loop_body float_str detect re_sub_all).
Local Abbreviation while_loop := (BGG.while_loop float_str detect re_sub_all).


Lemma bgg_loop_body_ends (gameID : nat) (f : BGG.Fetch) (st : BGG.Locals) :
  bgg_ends f = true ->
  (exists e, snd (loop_body gameID f st) = Exc e) \/
  snd (loop_body gameID f st) = Ok (BGG.stop_paging st).
Proof.
  unfold BGG.loop_body. destruct f as [e | resp]; simpl.
  - intros _. left. exists e. reflexivity.
  - destruct (BGG.status_code resp =? 200); simpl; [| discriminate].
    destruct (BGG.content resp) as [| names [| c cs]]; try discriminate.
    intros _. right. reflexivity.
Qed.

Lemma bgg_while_returns (gameID : nat) (script : list BGG.Fetch) :
  forall st,
    existsb bgg_ends script = true ->
    exists r, snd (while_loop gameID script st) = Return r.
Proof.
  induction script as [| f rest IH]; intros st Hex; [discriminate |].
  destruct (BGG.keepGoing st) eqn:Hk.
  - rewrite (while_loop_cons float_str detect re_sub_all gameID f rest st Hk).
    cbn [existsb] in Hex. destruct (bgg_ends f) eqn:Hf.
    + destruct (bgg_loop_body_ends gameID f st Hf) as [[e He] | Hs];
        destruct (BGG.loop_body float_str detect re_sub_all gameID f st) as [evs out];
        simpl in *; subst out.
      * eexists; reflexivity.
      * rewrite while_loop_stopped by reflexivity. eexists; reflexivity.
    + destruct (BGG.loop_body float_str detect re_sub_all gameID f st) as [evs [st' | e]].
      * apply IH. exact Hex.
      * eexists; reflexivity.
  - rewrite (while_loop_stopped float_str detect re_sub_all gameID _ st Hk).
    eexists; reflexivity.
Qed.


(** In [get_business_reviews] a bound name stays bound. *)
Lemma tp_capture_keeps_name (page : TP.Page) (st : TP.Locals) (n : string) :
  TP.l_business_name st = Some n ->
  exists n', TP.capture_name page st = Some n'.
Proof.
  intros Hn. unfold TP.capture_name.
  destruct (TP.reviews_data st); [destruct (TP.page_title page) |]; eauto.
Qed.

Lemma tp_while_returns (script : list TP.Fetch) :
  forall st n,
    TP.l_business_name st = Some n ->
    existsb tp_ends script = true ->
    exists name data,
      snd (TP.while_loop detect urljoin script st) =
      Return {| TP.business_name := name; TP.reviews := data |}.
Proof.
  assert (Hret : forall st n, TP.l_business_name st = Some n ->
            exists name data, TP.return_result st =
              Return {| TP.business_name := name; TP.reviews := data |}).
  { intros st n Hn. unfold TP.return_result. rewrite Hn. eauto. }
  induction script as [| f rest IH]; intros st n Hn Hex; [discriminate |].
  cbn [TP.while_loop]. destruct (TP.url st) as [u |]; [| simpl; eauto].
  destruct (String.eqb u ""); [simpl; eauto |].
  destruct f as [e | page]; cbn [TP.loop_body]; [simpl; eauto |].
  destruct (tp_capture_keeps_name page st n Hn) as [n' Hn'].
  cbn [existsb tp_ends] in Hex.
  destruct (TP.next_href page) as [href |] eqn:Hnext.
  - simpl in Hex.
    set (st' := TP.mkLocals _ _ _).
    destruct (IH st' n' Hn' Hex) as (name & data & Hr).
    destruct (TP.while_loop detect urljoin rest st') as [evs r]. simpl in *. eauto.
  - set (st' := TP.mkLocals _ _ _).
    assert (Hu : TP.url st' = None) by reflexivity.
    destruct (Hret st' n' Hn') as (name & data & Hr).
    exists name, data.
    destruct rest as [| f' rest']; cbn [TP.while_loop]; rewrite Hu; simpl; exact Hr.
Qed.

End DriversReturn.

Example acme_result :
  TP.get_business_reviews Samples.detect Samples.urljoin acme_url [TP.FetchOk acme_last_page] =
  ([TP.EvGet acme_url; TP.EvSleep 2 7],
   Return {| TP.business_name := "Acme Motors";
             TP.reviews := [ {| TP.rating := "5"; TP.review_title := Some "Great service";
                                TP.review_text := None |} ] |}).
Proof. reflexivity. Qed.

(** The first request of a business fails: the name was never bound and the
    [return] statement raises. *)
Example first_fetch_fails_unbound_name :
  TP.get_business_reviews Samples.detect Samples.urljoin acme_url
    [TP.FetchRaises RequestException] =
  ([TP.EvGet acme_url], Raise UnboundLocalError).
Proof. reflexivity. Qed.

(** ** The resume filter of the main cell *)

Lemma id_in_In (gameID : nat) (ids : list nat) :
  BGG.id_in gameID ids = true <-> In gameID ids.
Proof.
  unfold BGG.id_in. rewrite existsb_exists. split.
  - intros (x & Hin & Heq). apply Nat.eqb_eq in Heq. subst x. exact Hin.
  - intros Hin. exists gameID. split; [exact Hin | apply Nat.eqb_refl].
Qed.

(** The filter as written: with [reprocess] set, a row is passed over when it
    lies before the cutoff _or_ its id is not listed. *)
Lemma skipped_spec (cfg : BGG.Config) (index gameID : nat) :
  BGG.skipped cfg index gameID = true <->
  BGG.reprocess cfg = true /\
  (index < BGG.reprocessIndex cfg \/ ~ In gameID (BGG.reprocessIDs cfg)).
Proof.
  unfold BGG.skipped. rewrite andb_true_iff, orb_true_iff, Nat.ltb_lt, negb_true_iff.
  rewrite <- id_in_In. destruct (BGG.id_in gameID (BGG.reprocessIDs cfg)); intuition congruence.
Qed.

(** C3 -- the code at the failing input: resuming at index 1 with no listed
    ids, the row at index 1 (id 20) is not before the cutoff, yet the filter
    passes it over, and the main loop issues no request at all. *)
Theorem C3_resume_filter_skips_unlisted_row :
  BGG.skipped resume_cfg 1 20 = true /\
  BGG.main_loop Samples.float_str Samples.detect Samples.re_sub_all resume_cfg 0 two_rows
    BGG.init_globals = ([], Return BGG.init_globals).
Proof. split; reflexivity. Qed.

(** ** Exceptions of the language detector *)

(** In [getData] an exception of [detect] other than [LangDetectException]
    leaves the comment loop and is counted as an error of the page. *)
Lemma detector_error_escapes
    (float_str : string -> res pyfloat) (detect : option string -> res string)
    (re_sub_all : string -> string)
    (gameID : nat) (names : list string) (c : BGG.Comment) (st : BGG.Locals) (e : exn) :
  BGG.checkNumericRange float_str (BGG.c_rating c) 1%Q 10%Q = true ->
  detect (BGG.removeMarkup re_sub_all (BGG.c_text c)) = Exc e ->
  e <> LangDetectException ->
  BGG.comment_body float_str detect re_sub_all c st = (st, Some e) /\
  BGG.loop_body float_str detect re_sub_all gameID
    (BGG.FetchOk {| BGG.status_code := 200; BGG.content := BGG.Document names [c] |}) st =
  ([BGG.EvGet gameID (BGG.pgCount st)], Ok (BGG.count_error (BGG.begin_page names 1 st))).
Proof.
  intros Hc Hd He.
  assert (Hb : forall s, BGG.comment_body float_str detect re_sub_all c s = (s, Some e)).
  { intros s. unfold BGG.comment_body. rewrite Hc, Hd. destruct e; congruence. }
  split; [apply Hb |].
  unfold BGG.loop_body. cbn [BGG.status_code BGG.content Nat.eqb List.length Nat.ltb Nat.leb
                             BGG.comment_loop].
  rewrite Hb. reflexivity.
Qed.

(** In [get_business_reviews] no exception of [detect] leaves the body of the
    review loop: the record is dropped and nothing else changes. *)
Lemma tp_review_body_absorbs
    (detect : option string -> res string) (review : TP.Card) (data : list TP.Review) (e : exn) :
  TP.review_try detect review = Exc e -> TP.review_body detect review data = data.
Proof. unfold TP.review_body. intros ->. reflexivity. Qed.

(** C5 -- the code at the failing input: a page of the API whose second
    comment has a valid rating and no text.  [detect(None)] raises a
    [TypeError]; the page is counted as failed and requested again, the record
    accepted before the exception is appended once per attempt, and after
    three attempts the entity is given up. *)
Theorem C5_absent_text_is_a_page_error :
  BGG.comment_body Samples.float_str Samples.detect Samples.re_sub_all comment_no_text
    BGG.init_locals = (BGG.init_locals, Some TypeError) /\
  BGG.getData Samples.float_str Samples.detect Samples.re_sub_all (Some 13)
    [page_with_empty_comment; page_with_empty_comment; page_with_empty_comment] =
  ([BGG.EvGet 13 1; BGG.EvGet 13 1; BGG.EvGet 13 1],
   Return (Some {| BGG.game_name := BGG.NameList ["Catan"];
                   BGG.reviews :=
                     [ {| BGG.rating := Some "7"; BGG.review_text := Some "Great game" |};
                       {| BGG.rating := Some "7"; BGG.review_text := Some "Great game" |};
                       {| BGG.rating := Some "7"; BGG.review_text := Some "Great game" |} ] |})).
Proof. split; reflexivity. Qed.

(** ** The name of the parent entity *)

(** [getData]: a page other than page 1 leaves [gameName] alone. *)
Lemma bgg_later_pages_keep_name
    (float_str : string -> res pyfloat) (detect : option string -> res string)
    (re_sub_all : string -> string)
    (gameID : nat) (f : BGG.Fetch) (st st' : BGG.Locals) (evs : list BGG.Event) :
  BGG.pgCount st <> 1 ->
  BGG.loop_body float_str detect re_sub_all gameID f st = (evs, Ok st') ->
  BGG.gameName st' = BGG.gameName st.
Proof.
  intros Hpg. apply Nat.eqb_neq in Hpg.
  assert (Hloop : forall cs s, BGG.gameName
            (fst (BGG.comment_loop float_str detect re_sub_all cs s)) = BGG.gameName s).
  { induction cs as [| c cs IH]; intros s; simpl; [reflexivity |].
    assert (Hb : BGG.gameName (fst (BGG.comment_body float_str detect re_sub_all c s)) =
                 BGG.gameName s).
    { unfold BGG.comment_body.
      destruct (BGG.checkNumericRange float_str (BGG.c_rating c) 1 10); [| reflexivity].
      destruct (detect _) as [lang | []]; try reflexivity.
      destruct (String.eqb lang "en"); reflexivity. }
    destruct (BGG.comment_body float_str detect re_sub_all c s) as [s' [e |]]; simpl in *;
      [exact Hb | rewrite IH; exact Hb]. }
  unfold BGG.loop_body. destruct f as [e | resp]; [discriminate |].
  destruct (BGG.status_code resp =? 200); [| intros H; inversion H; reflexivity].
  destruct (BGG.content resp) as [| names comments]; [intros H; inversion H; reflexivity |].
  destruct (0 <? List.length comments); [| intros H; inversion H; reflexivity].
  pose proof (Hloop comments (BGG.begin_page names (List.length comments) st)) as Hn.
  destruct (BGG.comment_loop _ _ _ _ _) as [s' [e |]]; simpl in Hn;
    intros H; inversion H; subst; simpl; rewrite Hn; simpl; rewrite Hpg; reflexivity.
Qed.

(** [get_business_reviews]: as long as no record has been accepted, every page
    with a title element sets the name again, bound or not. *)
Lemma tp_name_recaptured
    (detect : option string -> res string) (urljoin : string -> string -> string)
    (page : TP.Page) (u t : string) (st : TP.Locals) :
  TP.reviews_data st = [] ->
  TP.page_title page = Some t ->
  TP.l_business_name (snd (fst (TP.loop_body detect urljoin (TP.FetchOk page) u st))) =
  Some (strip t).
Proof.
  intros Hd Ht. simpl. unfold TP.capture_name. rewrite Hd, Ht. reflexivity.
Qed.

(** C8 -- the code at the failing input: the first page of a business yields
    no accepted record (its only review is French) and links to a second page
    whose title element reads differently.  The name captured from page 1 is
    replaced by the one of page 2. *)
Theorem C8_name_taken_from_second_page :
  TP.get_business_reviews Samples.detect Samples.urljoin acme_url
    [TP.FetchOk acme_page_1; TP.FetchOk acme_page_2] =
  ([TP.EvGet acme_url; TP.EvSleep 2 7;
    TP.EvGet "https://www.trustpilot.com/review/acme.example?page=2"; TP.EvSleep 2 7],
   Return {| TP.business_name := "Borealis Cars";
             TP.reviews := [ {| TP.rating := "5"; TP.review_title := Some "Great service";
                                TP.review_text := None |} ] |}).
Proof. reflexivity. Qed.

(** ** Admission of a review by the HTML driver *)

Section Admission.

Variable detect : option string -> res string.

Lemma english_true (s : option string) :
  TP.english detect s = Ok true <-> field_en detect s.
Proof.
  unfold TP.english, field_en. destruct (truthy s).
  - destruct (detect s) as [lang | e].
    + destruct (String.eqb lang "en") eqn:E.
      * apply String.eqb_eq in E. subst lang. intuition.
      * apply String.eqb_neq in E. split; [discriminate | intros [_ H]; congruence].
    + split; [discriminate | intros [_ H]; discriminate].
  - split; [discriminate | intros [H _]; discriminate].
Qed.

Lemma english_false (s : option string) :
  TP.english detect s = Ok false <-> field_other detect s.
Proof.
  unfold TP.english, field_other. destruct (truthy s).
  - destruct (detect s) as [lang | e].
    + destruct (String.eqb lang "en") eqn:E.
      * apply String.eqb_eq in E. subst lang. split; [discriminate |].
        intros [H | (l & H & Hne)]; [discriminate | congruence].
      * apply String.eqb_neq in E. split; [intros _; right; eauto | reflexivity].
    + split; [discriminate |]. intros [H | (l & H & _)]; discriminate.
  - split; [intros _; left; reflexivity | reflexivity].
Qed.

Lemma is_english_true (ttl txt : option string) :
  TP.is_english detect ttl txt = Ok true <->
  field_en detect ttl \/ (field_other detect ttl /\ field_en detect txt).
Proof.
  rewrite <- !english_true, <- english_false. unfold TP.is_english.
  destruct (TP.english detect ttl) as [[|] | e]; split;
    try (intros [H | [H1 H2]]); try discriminate; auto.
Qed.

End Admission.

(** C6, as stated, fails: rating, title and body are present and the body is
    English, but the detector raises on the title, and the record is not
    appended. *)
Lemma C6_title_failure_rejects_english_body :
  Samples.detect (Some "Great service") = Ok "en" /\
  Samples.detect (Some "5/5") = Exc LangDetectException /\
  tp_admitted Samples.detect card_unclassifiable_title = false /\
  TP.review_body Samples.detect card_unclassifiable_title [] = [].
Proof. repeat split. Qed.

(** C6 (amended) -- A review with a rating is admitted exactly when its
    stripped title is non-empty and is classified as English, or its title is
    absent, empty or classified as another language and its stripped body is
    non-empty and is classified as English.  The body is not examined when the
    title is English, so a failure of the detector on the body does no harm
    then; a failure of the detector on the title rejects the record whatever
    the body is.  An admitted record is appended with its rating and the two
    stripped fields, a rejected one leaves the list as it is. *)
Theorem C6_admission
    (detect : option string -> res string) (review : TP.Card) (r : string)
    (data : list TP.Review) :
  TP.card_rating review = Some r ->
  let ttl := option_map strip (TP.card_title review) in
  let txt := option_map strip (TP.card_text review) in
  (tp_admitted detect review = true <->
     field_en detect ttl \/ (field_other detect ttl /\ field_en detect txt))
  /\ (field_en detect ttl -> tp_admitted detect review = true)
  /\ ((exists e, truthy ttl = true /\ detect ttl = Exc e) -> tp_admitted detect review = false)
  /\ TP.review_body detect review data =
       (if tp_admitted detect review
        then data ++ [ {| TP.rating := r; TP.review_title := ttl; TP.review_text := txt |} ]
        else data).
Proof.
  intros Hr ttl txt.
  assert (Hadm : tp_admitted detect review = true <-> TP.is_english detect ttl txt = Ok true).
  { unfold tp_admitted, TP.review_try. rewrite Hr. fold ttl txt.
    destruct (TP.is_some (TP.card_text review) || TP.is_some (TP.card_title review)) eqn:Hp.
    - destruct (TP.is_english detect ttl txt) as [[|] | e]; split; congruence.
    - apply orb_false_elim in Hp. destruct Hp as [Hx Ht].
      destruct (TP.card_text review); [discriminate |].
      destruct (TP.card_title review); [discriminate |].
      subst ttl txt. simpl. split; discriminate. }
  split; [rewrite Hadm; apply is_english_true |].
  split; [intros H; apply Hadm, is_english_true; left; exact H |].
  split.
  - intros (e & Ht & He).
    apply not_true_is_false. intros Ha.
    apply Hadm in Ha. unfold TP.is_english, TP.english in Ha. rewrite Ht, He in Ha.
    discriminate.
  - unfold tp_admitted, TP.review_body, TP.review_try. rewrite Hr. fold ttl txt.
    destruct (TP.is_some (TP.card_text review) || TP.is_some (TP.card_title review));
      [| reflexivity].
    destruct (TP.is_english detect ttl txt) as [[|] | e]; reflexivity.
Qed.

(** The example of the specification: rating 5, title "Great service", no
    body, detector answering "en". *)
Lemma C6_admission_witness :
  tp_admitted Samples.detect card_en = true.
Proof.
  apply (C6_admission Samples.detect card_en "5" [] eq_refl).
  split; reflexivity.
Defined.

Example french_title_rejected :
  tp_admitted Samples.detect card_fr = false.
Proof. reflexivity. Qed.

(** ** The coordinators: buffer and checkpoint file *)

Lemma bgg_write_over (path : string) (data : list BGG.ParentResult) (d : BGG.Disk) :
  (d = [] \/ exists old, d = [(path, old)]) ->
  BGG.write_file path data d = [(path, data)].
Proof.
  intros [-> | [old ->]]; unfold BGG.write_file; simpl; [reflexivity |].
  rewrite String.eqb_refl. reflexivity.
Qed.

Lemma tp_write_over (path : string) (data : list TP.ParentResult) (d : TP.Disk) :
  (d = [] \/ exists old, d = [(path, old)]) ->
  TP.write_file path data d = [(path, data)].
Proof.
  intros [-> | [old ->]]; unfold TP.write_file; simpl; [reflexivity |].
  rewrite String.eqb_refl. reflexivity.
Qed.

Lemma bgg_total_app (a b : list BGG.ParentResult) :
  bgg_total (a ++ b) = bgg_total a + bgg_total b.
Proof. unfold bgg_total. rewrite map_app, list_sum_app. reflexivity. Qed.

(** The three cases of [store_result]. *)
Lemma bgg_store_empty (cfg : BGG.Config) (r : BGG.ParentResult) (g : BGG.Globals) :
  BGG.reviews r = [] -> BGG.store_result cfg r g = g.
Proof. unfold BGG.store_result. intros ->. reflexivity. Qed.

Lemma bgg_store_flush (cfg : BGG.Config) (r : BGG.ParentResult) (g : BGG.Globals) :
  BGG.reviews r <> [] ->
  BGG.checkThreshold cfg <= BGG.checkCount g + List.length (BGG.reviews r) ->
  BGG.store_result cfg r g =
  {| BGG.all_reviews := BGG.all_reviews g ++ [r];
     BGG.totalSaved := BGG.totalSaved g + List.length (BGG.reviews r);
     BGG.checkCount := 0;
     BGG.disk := BGG.write_file (BGG.outputFile cfg) (BGG.all_reviews g ++ [r]) (BGG.disk g) |}.
Proof.
  intros Hne Hle. unfold BGG.store_result.
  destruct (BGG.reviews r) as [| x xs]; [contradiction |].
  cbn [Nat.ltb Nat.leb List.length BGG.checkCount].
  apply Nat.leb_le in Hle. cbn [List.length] in Hle. rewrite Hle. reflexivity.
Qed.

Lemma bgg_store_keep (cfg : BGG.Config) (r : BGG.ParentResult) (g : BGG.Globals) :
  BGG.reviews r <> [] ->
  BGG.checkCount g + List.length (BGG.reviews r) < BGG.checkThreshold cfg ->
  BGG.store_result cfg r g =
  {| BGG.all_reviews := BGG.all_reviews g ++ [r];
     BGG.totalSaved := BGG.totalSaved g + List.length (BGG.reviews r);
     BGG.checkCount := BGG.checkCount g + List.length (BGG.reviews r);
     BGG.disk := BGG.disk g |}.
Proof.
  intros Hne Hlt. unfold BGG.store_result.
  destruct (BGG.reviews r) as [| x xs]; [contradiction |].
  cbn [Nat.ltb Nat.leb List.length BGG.checkCount].
  apply Nat.leb_gt in Hlt. cbn [List.length] in Hlt. rewrite Hlt. reflexivity.
Qed.

Lemma bgg_store_nonempty (cfg : BGG.Config) (r : BGG.ParentResult) (g : BGG.Globals) :
  Forall bgg_nonempty (BGG.all_reviews g) ->
  Forall bgg_nonempty (BGG.all_reviews (BGG.store_result cfg r g)).
Proof.
  intros H. destruct (BGG.reviews r) as [| x xs] eqn:Hr.
  - rewrite bgg_store_empty by exact Hr. exact H.
  - assert (Hne : BGG.reviews r <> []) by (rewrite Hr; discriminate).
    assert (Hnew : Forall bgg_nonempty (BGG.all_reviews g ++ [r])).
    { apply Forall_app. split; [exact H | constructor; [exact Hne | constructor]]. }
    destruct (le_lt_dec (BGG.checkThreshold cfg)
                (BGG.checkCount g + List.length (BGG.reviews r))) as [Hle | Hlt].
    + rewrite (bgg_store_flush cfg r g Hne Hle). exact Hnew.
    + rewrite (bgg_store_keep cfg r g Hne Hlt). exact Hnew.
Qed.

Lemma bgg_store_flush_inv (cfg : BGG.Config) (r : BGG.ParentResult) (g : BGG.Globals) :
  bgg_flush_inv cfg g -> bgg_flush_inv cfg (BGG.store_result cfg r g).
Proof.
  intros (Hdisk & (pending & Hbuf & Hcount) & Hbound).
  destruct (BGG.reviews r) as [| x xs] eqn:Hr.
  - rewrite bgg_store_empty by exact Hr. repeat split; eauto.
  - assert (Hne : BGG.reviews r <> []) by (rewrite Hr; discriminate).
    destruct (le_lt_dec (BGG.checkThreshold cfg)
                (BGG.checkCount g + List.length (BGG.reviews r))) as [Hle | Hlt].
    + rewrite (bgg_store_flush cfg r g Hne Hle).
      unfold bgg_flush_inv, bgg_on_disk. cbn [BGG.disk BGG.all_reviews BGG.checkCount].
      rewrite (bgg_write_over _ _ _ Hdisk).
      split; [right; eauto |]. split; [| left; reflexivity].
      exists []. unfold BGG.read_file. simpl. rewrite String.eqb_refl. simpl.
      rewrite app_nil_r. split; reflexivity.
    + rewrite (bgg_store_keep cfg r g Hne Hlt).
      unfold bgg_flush_inv, bgg_on_disk in *. cbn [BGG.disk BGG.all_reviews BGG.checkCount].
      split; [exact Hdisk |]. split; [| right; exact Hlt].
      exists (pending ++ [r]). rewrite Hbuf at 1. rewrite <- app_assoc. split; [reflexivity |].
      rewrite bgg_total_app, Hcount. unfold bgg_total. simpl. lia.
Qed.

Lemma tp_store_nonempty (r : TP.ParentResult) (g : TP.Globals) :
  Forall tp_nonempty (TP.all_reviews g) ->
  Forall tp_nonempty (TP.all_reviews (TP.store_result r g)).
Proof.
  intros H. unfold TP.store_result.
  destruct (TP.reviews r) as [| x xs] eqn:Hr; simpl; [exact H |].
  apply Forall_app. split; [exact H |].
  constructor; [unfold tp_nonempty; rewrite Hr; discriminate | constructor].
Qed.

Lemma tp_store_disk (r : TP.ParentResult) (g : TP.Globals) :
  TP.disk (TP.store_result r g) = TP.disk g.
Proof. unfold TP.store_result. destruct (0 <? _); reflexivity. Qed.

Section Coordinators.

Variable float_str : string -> res pyfloat.
Variable detect : option string -> res string.
Variable re_sub_all : string -> string.
Variable urljoin : string -> string -> string.

Local Abbreviation getData := (BGG.getData float_str detect re_sub_all).
Local Abbreviation row_body := (BGG.row_body float_str detect re_sub_all).
Local Abbreviation bgg_main_loop := (BGG.main_loop float_str detect re_sub_all).
Local Abbreviation get_business_reviews := (TP.get_business_reviews detect urljoin).
Local Abbreviation for_loop := (TP.for_loop detect urljoin).

(** A turn of the main loop leaves the globals alone or stores one result. *)
Lemma bgg_row_body_cases (cfg : BGG.Config) (index : nat) (row : BGG.Row)
    (script : list BGG.Fetch) (g g' : BGG.Globals) (evs : list BGG.Event) :
  row_body cfg index row script g = (evs, Return g') ->
  g' = g \/ exists r, g' = BGG.store_result cfg r g.
Proof.
  unfold BGG.row_body. destruct (BGG.skipped cfg index (BGG.row_id row)).
  - intros H; inversion H; left; reflexivity.
  - destruct (getData (Some (BGG.row_id row)) script) as [evs0 [[r |] | e |]];
      intros H; inversion H; eauto.
Qed.

Lemma bgg_main_loop_inv (P : BGG.Globals -> Prop) (cfg : BGG.Config) :
  (forall r g, P g -> P (BGG.store_result cfg r g)) ->
  forall rows index g evs g',
    P g -> bgg_main_loop cfg index rows g = (evs, Return g') -> P g'.
Proof.
  intros Hstep. induction rows as [| [row script] rest IH]; intros index g evs g' Hg H.
  - inversion H; subst; exact Hg.
  - cbn [BGG.main_loop] in H.
    destruct (row_body cfg index row script g) as [evs1 [g1 | e |]] eqn:Hb;
      try discriminate.
    destruct (bgg_main_loop cfg (S index) rest g1) as [evs2 r2] eqn:Hl.
    inversion H; subst.
    eapply IH; [| exact Hl].
    destruct (bgg_row_body_cases _ _ _ _ _ _ _ Hb) as [-> | [r ->]]; auto.
Qed.

Lemma bgg_main_loop_returns (cfg : BGG.Config) (rows : list (BGG.Row * list BGG.Fetch)) :
  bgg_served rows = true ->
  forall index g, exists evs g', bgg_main_loop cfg index rows g = (evs, Return g').
Proof.
  induction rows as [| [row script] rest IH]; intros Hs index g; [simpl; eauto |].
  cbn [bgg_served forallb snd] in Hs. apply andb_prop in Hs. destruct Hs as [Hrow Hrest].
  assert (Hb : exists evs1 g1, row_body cfg index row script g = (evs1, Return g1)).
  { unfold BGG.row_body. destruct (BGG.skipped cfg index (BGG.row_id row)); [eauto |].
    destruct (bgg_while_returns float_str detect re_sub_all (BGG.row_id row) script
                BGG.init_locals Hrow) as [r Hr].
    cbn [BGG.getData].
    destruct (BGG.while_loop float_str detect re_sub_all (BGG.row_id row) script
                BGG.init_locals) as [evs0 out].
    simpl in Hr. subst out. destruct r; eauto. }
  destruct Hb as (evs1 & g1 & Hb).
  destruct (IH Hrest (S index) g1) as (evs2 & g2 & Hl).
  cbn [BGG.main_loop]. rewrite Hb, Hl. eauto.
Qed.

Lemma tp_for_loop_inv (P : TP.Globals -> Prop) :
  (forall r g, P g -> P (TP.store_result r g)) ->
  forall urls g evs g', P g -> for_loop urls g = (evs, Return g') -> P g'.
Proof.
  intros Hstep. induction urls as [| [u script] rest IH]; intros g evs g' Hg H.
  - inversion H; subst; exact Hg.
  - cbn [TP.for_loop] in H. unfold TP.url_body in H.
    destruct (get_business_reviews u script) as [evs0 [r | e |]]; try discriminate.
    destruct (for_loop rest (TP.store_result r g)) as [evs2 r2] eqn:Hl.
    inversion H; subst. eapply IH; [| exact Hl]. auto.
Qed.

Lemma tp_driver_returns (u : string) (script : list TP.Fetch) :
  tp_served_one (u, script) = true ->
  exists evs r, get_business_reviews u script = (evs, Return r).
Proof.
  unfold tp_served_one. cbn [fst snd]. intros H.
  apply andb_prop in H. destruct H as [H Hends]. apply andb_prop in H. destruct H as [Hu Hp].
  destruct script as [| [e | page] rest]; try discriminate.
  destruct (TP.page_title page) as [t |] eqn:Ht; [| discriminate].
  unfold TP.get_business_reviews. cbn [TP.while_loop TP.url].
  apply negb_true_iff in Hu. rewrite Hu.
  cbn [TP.loop_body TP.capture_name TP.reviews_data]. rewrite Ht.
  cbn [existsb tp_ends] in Hends.
  destruct (TP.next_href page) as [href |] eqn:Hnext.
  - simpl in Hends. set (st' := TP.mkLocals _ _ _).
    destruct (tp_while_returns detect urljoin rest st' (strip t) eq_refl Hends)
      as (name & data & Hr).
    destruct (TP.while_loop detect urljoin rest st') as [evs r]. simpl in Hr. subst r. eauto.
  - destruct rest as [| f' rest']; simpl; unfold TP.return_result; simpl; eauto.
Qed.

Lemma tp_for_loop_returns (urls : list (string * list TP.Fetch)) :
  tp_served urls = true ->
  forall g, exists evs g', for_loop urls g = (evs, Return g').
Proof.
  induction urls as [| [u script] rest IH]; intros Hs g; [simpl; eauto |].
  cbn [tp_served forallb] in Hs. apply andb_prop in Hs. destruct Hs as [Hone Hrest].
  destruct (tp_driver_returns u script Hone) as (evs0 & r & Hr).
  destruct (IH Hrest (TP.store_result r g)) as (evs2 & g2 & Hl).
  cbn [TP.for_loop]. unfold TP.url_body. rewrite Hr, Hl. eauto.
Qed.

Lemma tp_served_rev (urls : list (string * list TP.Fetch)) :
  tp_served urls = true -> tp_served (rev urls) = true.
Proof.
  unfold tp_served. rewrite !forallb_forall. intros H x Hin. apply H, in_rev, Hin.
Qed.

End Coordinators.

(** C9 -- In both notebooks a result is appended to [all_reviews] only when
    its list of records is not empty: storing a result keeps the buffer free of
    empty results, so does every run of the main loop from such a buffer, and
    the loops do return when the server ends every paging. *)
Theorem C9_buffer_holds_no_empty_result
    (float_str : string -> res pyfloat) (detect : option string -> res string)
    (re_sub_all : string -> string) (urljoin : string -> string -> string)
    (cfg : BGG.Config) (index : nat) (rows : list (BGG.Row * list BGG.Fetch))
    (g : BGG.Globals) (urls : list (string * list TP.Fetch)) (tg : TP.Globals) :
  Forall bgg_nonempty (BGG.all_reviews g) ->
  Forall tp_nonempty (TP.all_reviews tg) ->
  (forall r, Forall bgg_nonempty (BGG.all_reviews (BGG.store_result cfg r g)))
  /\ (forall evs g',
        BGG.main_loop float_str detect re_sub_all cfg index rows g = (evs, Return g') ->
        Forall bgg_nonempty (BGG.all_reviews g'))
  /\ (bgg_served rows = true ->
      exists evs g',
        BGG.main_loop float_str detect re_sub_all cfg index rows g = (evs, Return g'))
  /\ (forall r, Forall tp_nonempty (TP.all_reviews (TP.store_result r tg)))
  /\ (forall evs tg',
        TP.main_loop detect urljoin urls tg = (evs, Return tg') ->
        Forall tp_nonempty (TP.all_reviews tg'))
  /\ (tp_served urls = true ->
      exists evs tg', TP.main_loop detect urljoin urls tg = (evs, Return tg')).
Proof.
  intros Hg Htg. repeat split.
  - intros r. apply bgg_store_nonempty. exact Hg.
  - intros evs g' H.
    apply (bgg_main_loop_inv float_str detect re_sub_all
             (fun s => Forall bgg_nonempty (BGG.all_reviews s)) cfg
             (fun r s => bgg_store_nonempty cfg r s) rows index g evs g' Hg H).
  - intros Hs. apply bgg_main_loop_returns. exact Hs.
  - intros r. apply tp_store_nonempty. exact Htg.
  - intros evs tg' H.
    apply (tp_for_loop_inv detect urljoin
             (fun s => Forall tp_nonempty (TP.all_reviews s))
             tp_store_nonempty (rev urls) tg evs tg' Htg H).
  - intros Hs. apply tp_for_loop_returns, tp_served_rev. exact Hs.
Qed.

Lemma C9_buffer_holds_no_empty_result_witness :
  exists evs g',
    BGG.main_loop Samples.float_str Samples.detect Samples.re_sub_all plain_cfg 0 two_rows
      BGG.init_globals = (evs, Return g').
Proof.
  apply (C9_buffer_holds_no_empty_result Samples.float_str Samples.detect Samples.re_sub_all
           Samples.urljoin plain_cfg 0 two_rows BGG.init_globals two_businesses
           TP.init_globals (Forall_nil _) (Forall_nil _)).
  reflexivity.
Defined.

Example two_rows_buffer :
  option_map (fun g => (BGG.checkCount g, List.length (BGG.all_reviews g), BGG.disk g))
    (match snd (BGG.main_loop Samples.float_str Samples.detect Samples.re_sub_all plain_cfg 0
                  two_rows BGG.init_globals) with
     | Return g => Some g
     | _ => None
     end) =
  Some (0, 2,
        [ ("boardgamegeek.json",
           [ {| BGG.game_name := BGG.NameList ["Gloomhaven"];
                BGG.reviews := [ {| BGG.rating := Some "7";
                                    BGG.review_text := Some "Great game" |} ] |};
             {| BGG.game_name := BGG.NameList ["Catan"];
                BGG.reviews := [ {| BGG.rating := Some "7";
                                    BGG.review_text := Some "Great game" |} ] |} ]) ]).
Proof. reflexivity. Qed.

(** C4, as stated, fails for the HTML source: its main loop has no threshold
    and writes nothing.  After two businesses with one accepted record each the
    buffer holds two records and the disk is still empty, so no threshold of 1
    or 2 records was honoured. *)
Lemma C4_html_loop_never_flushes :
  exists evs g,
    TP.main_loop Samples.detect Samples.urljoin two_businesses TP.init_globals =
      (evs, Return g) /\
    tp_total (TP.all_reviews g) = 2 /\
    TP.disk g = [].
Proof. eexists; eexists. repeat split. Qed.

(** C4 (amended) -- In the API notebook the whole buffer is written over
    [outputFile] as soon as [checkCount], the number of records appended since
    the last write, reaches [checkThreshold] (the test follows every appended
    result), and once more by the wrap-up cell; no other file is written.  The
    HTML notebook writes nothing during its main loop; its last cell writes the
    whole buffer once. *)
Theorem C4_checkpoint_flushes
    (float_str : string -> res pyfloat) (detect : option string -> res string)
    (re_sub_all : string -> string) (urljoin : string -> string -> string)
    (cfg : BGG.Config) (gameReviews : BGG.ParentResult) (g : BGG.Globals)
    (rows : list (BGG.Row * list BGG.Fetch))
    (filename : string) (urls : list (string * list TP.Fetch)) :
  bgg_flush_inv cfg g ->
  bgg_flush_inv cfg (BGG.store_result cfg gameReviews g)
  /\ (BGG.reviews gameReviews <> [] ->
      BGG.checkThreshold cfg <= BGG.checkCount g + List.length (BGG.reviews gameReviews) ->
      BGG.disk (BGG.store_result cfg gameReviews g) =
        [(BGG.outputFile cfg, BGG.all_reviews g ++ [gameReviews])] /\
      BGG.all_reviews (BGG.store_result cfg gameReviews g) =
        BGG.all_reviews g ++ [gameReviews] /\
      BGG.checkCount (BGG.store_result cfg gameReviews g) = 0)
  /\ (BGG.checkCount g + List.length (BGG.reviews gameReviews) < BGG.checkThreshold cfg ->
      BGG.disk (BGG.store_result cfg gameReviews g) = BGG.disk g)
  /\ (forall index evs g',
        BGG.main_loop float_str detect re_sub_all cfg index rows g = (evs, Return g') ->
        bgg_flush_inv cfg g')
  /\ (forall evs g',
        BGG.notebook float_str detect re_sub_all cfg rows = (evs, Return g') ->
        BGG.disk g' = [(BGG.outputFile cfg, BGG.all_reviews g')])
  /\ (bgg_served rows = true ->
      exists evs g', BGG.notebook float_str detect re_sub_all cfg rows = (evs, Return g'))
  /\ (forall tg evs tg',
        TP.main_loop detect urljoin urls tg = (evs, Return tg') -> TP.disk tg' = TP.disk tg)
  /\ (forall evs tg',
        TP.notebook detect urljoin filename urls = (evs, Return tg') ->
        TP.disk tg' = [(filename, TP.all_reviews tg')])
  /\ (tp_served urls = true ->
      exists evs tg', TP.notebook detect urljoin filename urls = (evs, Return tg')).
Proof.
  intros Hinv.
  assert (Hinit : bgg_flush_inv cfg BGG.init_globals).
  { unfold bgg_flush_inv. split; [left; reflexivity |].
    split; [exists []; split; reflexivity | left; reflexivity]. }
  split; [apply bgg_store_flush_inv; exact Hinv |].
  split.
  { intros Hne Hle. rewrite (bgg_store_flush cfg gameReviews g Hne Hle).
    cbn [BGG.disk BGG.all_reviews BGG.checkCount].
    rewrite (bgg_write_over _ _ _ (proj1 Hinv)). repeat split. }
  split.
  { intros Hlt.
    assert (Hcase : BGG.reviews gameReviews = [] \/ BGG.reviews gameReviews <> [])
      by (destruct (BGG.reviews gameReviews); [left; reflexivity | right; discriminate]).
    destruct Hcase as [Hr | Hr].
    - rewrite bgg_store_empty by exact Hr. reflexivity.
    - rewrite (bgg_store_keep cfg gameReviews g Hr Hlt). reflexivity. }
  split.
  { intros index evs g' H.
    apply (bgg_main_loop_inv float_str detect re_sub_all (bgg_flush_inv cfg) cfg
             (bgg_store_flush_inv cfg) rows index g evs g' Hinv H). }
  split.
  { intros evs g' H. unfold BGG.notebook in H.
    destruct (BGG.main_loop float_str detect re_sub_all cfg 0 rows BGG.init_globals)
      as [evs0 [g0 | e |]] eqn:Hl; try discriminate.
    inversion H; subst. cbn [BGG.flushBuffer BGG.disk BGG.all_reviews].
    apply bgg_write_over.
    apply (bgg_main_loop_inv float_str detect re_sub_all (bgg_flush_inv cfg) cfg
             (bgg_store_flush_inv cfg) rows 0 BGG.init_globals evs g0 Hinit Hl). }
  split.
  { intros Hs. unfold BGG.notebook.
    destruct (bgg_main_loop_returns float_str detect re_sub_all cfg rows Hs 0 BGG.init_globals)
      as (evs & g0 & Hl).
    rewrite Hl. eauto. }
  split.
  { intros tg evs tg' H.
    apply (tp_for_loop_inv detect urljoin (fun s => TP.disk s = TP.disk tg)
             (fun r s Hs => eq_trans (tp_store_disk r s) Hs)
             (rev urls) tg evs tg' eq_refl H). }
  split.
  { intros evs tg' H. unfold TP.notebook in H.
    destruct (TP.main_loop detect urljoin urls TP.init_globals) as [evs0 [g0 | e |]] eqn:Hl;
      try discriminate.
    inversion H; subst. cbn [TP.save TP.cleanup TP.disk TP.all_reviews].
    apply tp_write_over. left.
    apply (tp_for_loop_inv detect urljoin (fun s => TP.disk s = [])
             (fun r s Hs => eq_trans (tp_store_disk r s) Hs)
             (rev urls) TP.init_globals evs g0 eq_refl Hl). }
  intros Hs. unfold TP.notebook, TP.main_loop.
  destruct (tp_for_loop_returns detect urljoin (rev urls) (tp_served_rev urls Hs)
              TP.init_globals) as (evs & g0 & Hl).
  rewrite Hl. eauto.
Qed.

Lemma C4_checkpoint_flushes_witness :
  exists evs g',
    BGG.notebook Samples.float_str Samples.detect Samples.re_sub_all plain_cfg two_rows =
      (evs, Return g').
Proof.
  assert (Hinit : bgg_flush_inv plain_cfg BGG.init_globals).
  { unfold bgg_flush_inv. split; [left; reflexivity |].
    split; [exists []; split; reflexivity | left; reflexivity]. }
  apply (C4_checkpoint_flushes Samples.float_str Samples.detect Samples.re_sub_all
           Samples.urljoin plain_cfg
           {| BGG.game_name := BGG.NameList ["Catan"]; BGG.reviews := [] |}
           BGG.init_globals two_rows "trusted_pilot_car_dealerships.json" two_businesses Hinit).
  reflexivity.
Defined.

(** ** Further properties of [getData] *)

Section GetDataRuns.

Variable float_str : string -> res pyfloat.
Variable detect : option string -> res string.
Variable re_sub_all : string -> string.

Local Abbreviation comment_body := (BGG.comment_body float_str detect re_sub_all).
Local Abbreviation comment_loop := (BGG.comment_loop float_str detect re_sub_all).
Local Abbreviation loop_body := (BGG.loop_body float_str detect re_sub_all).
Local Abbreviation while_loop := (BGG.while_loop float_str detect re_sub_all).
Local Abbreviation quality := (bgg_quality float_str detect).
Local Abbreviation grows := (bgg_grows float_str detect).
Local Abbreviation same_control := bgg_same_control.

Lemma grows_refl (st : BGG.Locals) : grows st st.
Proof. exists []. rewrite app_nil_r. split; [reflexivity | constructor]. Qed.

Lemma grows_trans (a b c : BGG.Locals) : grows a b -> grows b c -> grows a c.
Proof.
  intros (m1 & H1 & Q1) (m2 & H2 & Q2). exists (m1 ++ m2).
  rewrite H2, H1, app_assoc. split; [reflexivity | apply Forall_app; split; assumption].
Qed.

Lemma comment_body_effect (c : BGG.Comment) (st : BGG.Locals) :
  same_control st (fst (comment_body c st)) /\ grows st (fst (comment_body c st)).
Proof.
  unfold BGG.comment_body.
  destruct (BGG.checkNumericRange float_str (BGG.c_rating c) 1 10) eqn:Hc;
    [| split; [repeat split | apply grows_refl]].
  destruct (detect (BGG.removeMarkup re_sub_all (BGG.c_text c))) as [lang | e] eqn:Hd.
  - destruct (String.eqb lang "en") eqn:Hl; [| split; [repeat split | apply grows_refl]].
    apply String.eqb_eq in Hl. subst lang.
    split; [repeat split |].
    eexists. split; [reflexivity |]. constructor; [| constructor].
    split; [exact Hc | exact Hd].
  - destruct e; (split; [repeat split | apply grows_refl]).
Qed.

Lemma comment_loop_effect (cs : list BGG.Comment) :
  forall st, same_control st (fst (comment_loop cs st)) /\ grows st (fst (comment_loop cs st)).
Proof.
  induction cs as [| c cs IH]; intros st; [split; [repeat split | apply grows_refl] |].
  destruct (comment_body_effect c st) as [(Hp & Hk & Hn) Hg].
  cbn [BGG.comment_loop].
  destruct (comment_body c st) as [st1 [e |]]; cbn [fst] in *.
  - split; [repeat split; assumption | exact Hg].
  - destruct (IH st1) as [(Hp' & Hk' & Hn') Hg'].
    split; [repeat split; congruence | eapply grows_trans; eassumption].
Qed.

(** The three ways a turn of the loop can go: an exception to the outer
    handler; an error or the end of the paging, without sleep and on the same
    page; a stored page, with a sleep and the page counter advanced. *)
Lemma loop_body_shape (gameID : nat) (f : BGG.Fetch) (st : BGG.Locals) :
  (exists e, loop_body gameID f st = ([BGG.EvGet gameID (BGG.pgCount st)], Exc e)) \/
  (exists st',
      loop_body gameID f st = ([BGG.EvGet gameID (BGG.pgCount st)], Ok st') /\
      BGG.pgCount st' = BGG.pgCount st /\ grows st st' /\
      ((BGG.requestErrorCount st' = BGG.requestErrorCount st + 1 /\
        BGG.keepGoing st' =
          (if 3 <=? BGG.requestErrorCount st + 1 then false else BGG.keepGoing st)) \/
       (BGG.requestErrorCount st' = BGG.requestErrorCount st /\ BGG.keepGoing st' = false))) \/
  (exists st',
      loop_body gameID f st =
        ([BGG.EvGet gameID (BGG.pgCount st); BGG.EvSleep 5 10], Ok st') /\
      BGG.pgCount st' = S (BGG.pgCount st) /\ grows st st' /\
      BGG.requestErrorCount st' = BGG.requestErrorCount st /\
      BGG.keepGoing st' = BGG.keepGoing st).
Proof.
  unfold BGG.loop_body. destruct f as [e | resp]; [left; eauto |].
  assert (Herr : forall s, same_control st s -> grows st s ->
            BGG.pgCount (BGG.count_error s) = BGG.pgCount st /\ grows st (BGG.count_error s) /\
            ((BGG.requestErrorCount (BGG.count_error s) = BGG.requestErrorCount st + 1 /\
              BGG.keepGoing (BGG.count_error s) =
                (if 3 <=? BGG.requestErrorCount st + 1 then false else BGG.keepGoing st)) \/
             (BGG.requestErrorCount (BGG.count_error s) = BGG.requestErrorCount st /\
              BGG.keepGoing (BGG.count_error s) = false))).
  { intros s (Hp & Hk & Hn) Hg. split; [exact Hp |]. split; [exact Hg |]. left.
    rewrite keepGoing_count_error. cbn [BGG.count_error BGG.requestErrorCount].
    rewrite Hn, Hk. split; reflexivity. }
  destruct (BGG.status_code resp =? 200).
  2:{ right; left. eexists. split; [reflexivity |].
      apply Herr; [repeat split | apply grows_refl]. }
  destruct (BGG.content resp) as [| names comments].
  { right; left. eexists. split; [reflexivity |].
    apply Herr; [repeat split | apply grows_refl]. }
  destruct (0 <? List.length comments).
  2:{ right; left. eexists. split; [reflexivity |]. split; [reflexivity |].
      split; [exact (grows_refl st) |]. right. split; reflexivity. }
  set (st0 := BGG.begin_page names (List.length comments) st).
  destruct (comment_loop_effect comments st0) as [(Hp & Hk & Hn) Hg].
  assert (Hg0 : grows st (fst (comment_loop comments st0))) by exact Hg.
  destruct (comment_loop comments st0) as [st1 [e |]]; cbn [fst] in *.
  - right; left. eexists. split; [reflexivity |].
    apply Herr; [repeat split; assumption | exact Hg0].
  - right; right. eexists. split; [reflexivity |].
    cbn [BGG.next_page BGG.pgCount BGG.requestErrorCount BGG.keepGoing].
    rewrite Hp, Hn, Hk. split; [simpl; lia |]. split; [exact Hg0 |]. split; reflexivity.
Qed.

Lemma while_loop_keeps_records (gameID : nat) (script : list BGG.Fetch) :
  forall st res,
    snd (while_loop gameID script st) = Return (Some res) ->
    exists more, BGG.reviews res = BGG.reviewData st ++ more /\ Forall quality more.
Proof.
  induction script as [| f rest IH]; intros st res H.
  - simpl in H. destruct (BGG.keepGoing st); [discriminate |].
    inversion H; subst. apply grows_refl.
  - destruct (BGG.keepGoing st) eqn:Hk.
    + rewrite (while_loop_cons float_str detect re_sub_all gameID f rest st Hk) in H.
      destruct (loop_body_shape gameID f st)
        as [[e He] | [(st' & He & _ & Hg & _) | (st' & He & _ & Hg & _)]];
        rewrite He in H; cbn [snd] in H; try discriminate;
        destruct (IH st' res H) as (m2 & H2 & Q2);
        destruct Hg as (m1 & H1 & Q1);
        exists (m1 ++ m2); rewrite H2, H1, app_assoc;
        (split; [reflexivity | apply Forall_app; split; assumption]).
    + rewrite (while_loop_stopped float_str detect re_sub_all gameID _ st Hk) in H.
      inversion H; subst. apply grows_refl.
Qed.

Lemma bgg_counts_app (a b : list BGG.Event) :
  bgg_attempts (a ++ b) = bgg_attempts a + bgg_attempts b /\
  bgg_sleeps (a ++ b) = bgg_sleeps a + bgg_sleeps b.
Proof.
  unfold bgg_attempts, bgg_sleeps. rewrite !filter_app, !length_app. split; reflexivity.
Qed.

Lemma while_loop_request_bound (gameID : nat) (script : list BGG.Fetch) :
  forall st,
    BGG.requestErrorCount st <= 3 ->
    (BGG.keepGoing st = true -> BGG.requestErrorCount st <= 2) ->
    bgg_attempts (fst (while_loop gameID script st)) + BGG.requestErrorCount st <=
    bgg_sleeps (fst (while_loop gameID script st)) + 3.
Proof.
  induction script as [| f rest IH]; intros st H3 H2.
  - simpl. destruct (BGG.keepGoing st); simpl; lia.
  - destruct (BGG.keepGoing st) eqn:Hk.
    2:{ rewrite (while_loop_stopped float_str detect re_sub_all gameID _ st Hk). simpl. lia. }
    specialize (H2 eq_refl).
    rewrite (while_loop_cons float_str detect re_sub_all gameID f rest st Hk).
    destruct (loop_body_shape gameID f st)
      as [[e He] | [(st' & He & _ & _ & Hc) | (st' & He & _ & _ & Hn & Hk')]];
      rewrite He; cbn [fst].
    + cbn. lia.
    + destruct (bgg_counts_app [BGG.EvGet gameID (BGG.pgCount st)]
                  (fst (while_loop gameID rest st'))) as [-> ->].
      destruct Hc as [[Hn Hk'] | [Hn Hk']].
      * assert (Hle : BGG.requestErrorCount st' <= 3) by lia.
        assert (Hkeep : BGG.keepGoing st' = true -> BGG.requestErrorCount st' <= 2).
        { rewrite Hk', Hn.
          destruct (3 <=? BGG.requestErrorCount st + 1) eqn:E; [discriminate |].
          apply Nat.leb_gt in E. lia. }
        specialize (IH st' Hle Hkeep). cbn. lia.
      * rewrite (while_loop_stopped float_str detect re_sub_all gameID _ st' Hk'). cbn. lia.
    + destruct (bgg_counts_app [BGG.EvGet gameID (BGG.pgCount st); BGG.EvSleep 5 10]
                  (fst (while_loop gameID rest st'))) as [-> ->].
      assert (Hle : BGG.requestErrorCount st' <= 3) by lia.
      assert (Hkeep : BGG.keepGoing st' = true -> BGG.requestErrorCount st' <= 2) by lia.
      specialize (IH st' Hle Hkeep). cbn. lia.
Qed.

Lemma bgg_paged_same (gid p : nat) (evs : list BGG.Event) :
  bgg_paged gid p evs = true -> bgg_paged gid p (BGG.EvGet gid p :: evs) = true.
Proof.
  intros H. cbn [bgg_paged]. rewrite !Nat.eqb_refl. cbn [andb].
  destruct evs as [| [g q | lo hi] rest]; [reflexivity | exact H | discriminate].
Qed.

Lemma bgg_paged_next (gid p : nat) (evs : list BGG.Event) :
  bgg_paged gid (S p) evs = true ->
  bgg_paged gid p (BGG.EvGet gid p :: BGG.EvSleep 5 10 :: evs) = true.
Proof. intros H. cbn [bgg_paged]. rewrite !Nat.eqb_refl. exact H. Qed.

Lemma while_loop_paged (gameID : nat) (script : list BGG.Fetch) :
  forall st, bgg_paged gameID (BGG.pgCount st) (fst (while_loop gameID script st)) = true.
Proof.
  induction script as [| f rest IH]; intros st.
  - simpl. destruct (BGG.keepGoing st); reflexivity.
  - destruct (BGG.keepGoing st) eqn:Hk.
    2:{ rewrite (while_loop_stopped float_str detect re_sub_all gameID _ st Hk). reflexivity. }
    rewrite (while_loop_cons float_str detect re_sub_all gameID f rest st Hk).
    destruct (loop_body_shape gameID f st)
      as [[e He] | [(st' & He & Hp & _) | (st' & He & Hp & _)]];
      rewrite He; cbn [fst app].
    + cbn. rewrite !Nat.eqb_refl. reflexivity.
    + apply bgg_paged_same. rewrite <- Hp. apply IH.
    + apply bgg_paged_next. rewrite <- Hp. apply IH.
Qed.

Lemma bgg_paged_game (gid : nat) (evs : list BGG.Event) :
  forall p g q, bgg_paged gid p evs = true -> In (BGG.EvGet g q) evs -> g = gid.
Proof.
  remember (List.length evs) as n eqn:Hn. revert evs Hn.
  induction n as [n IH] using lt_wf_ind. intros evs Hn p g q Hp Hin.
  destruct evs as [| [g0 q0 | lo hi] rest]; [contradiction | | discriminate].
  cbn [bgg_paged] in Hp.
  apply andb_prop in Hp. destruct Hp as [Hh Hrest].
  apply andb_prop in Hh. destruct Hh as [Hg _]. apply Nat.eqb_eq in Hg.
  destruct Hin as [Heq | Hin]; [inversion Heq; subst; reflexivity |].
  cbn [List.length] in Hn.
  destruct rest as [| [g1 q1 | lo hi] rest'].
  - contradiction.
  - apply (IH (List.length (BGG.EvGet g1 q1 :: rest')) ltac:(lia)
             (BGG.EvGet g1 q1 :: rest') eq_refl p g q Hrest Hin).
  - apply andb_prop in Hrest. destruct Hrest as [_ Hrest].
    destruct Hin as [Heq | Hin]; [discriminate |].
    cbn [List.length] in Hn.
    apply (IH (List.length rest') ltac:(lia) rest' eq_refl (S p) g q Hrest Hin).
Qed.

End GetDataRuns.

(** X1 -- Whenever the loop of [getData] ends with a result, the result holds
    the records gathered before, in order and unchanged, followed by records
    whose rating passed [checkNumericRange] and whose cleaned text [detect]
    classified as English: neither a later page, nor a counted error, nor the
    abort after three errors drops or alters a record. *)
Theorem getData_keeps_accepted_records
    (float_str : string -> res pyfloat) (detect : option string -> res string)
    (re_sub_all : string -> string)
    (gameID : nat) (script : list BGG.Fetch) (st : BGG.Locals) (result : BGG.ParentResult) :
  snd (BGG.while_loop float_str detect re_sub_all gameID script st) = Return (Some result) ->
  exists more,
    BGG.reviews result = BGG.reviewData st ++ more /\
    Forall (bgg_quality float_str detect) more.
Proof. apply while_loop_keeps_records. Qed.

Lemma getData_keeps_accepted_records_witness :
  exists more,
    [ {| BGG.rating := Some "7"; BGG.review_text := Some "Great game" |};
      {| BGG.rating := Some "7"; BGG.review_text := Some "Great game" |} ] =
    BGG.reviewData BGG.init_locals ++ more /\
    Forall (bgg_quality Samples.float_str Samples.detect) more.
Proof.
  apply (getData_keeps_accepted_records Samples.float_str Samples.detect Samples.re_sub_all
           13 [status_500; good_page "Catan"; status_500; good_page "Catan"; status_500]
           BGG.init_locals
           {| BGG.game_name := BGG.NameList ["Catan"];
              BGG.reviews :=
                [ {| BGG.rating := Some "7"; BGG.review_text := Some "Great game" |};
                  {| BGG.rating := Some "7"; BGG.review_text := Some "Great game" |} ] |}).
  reflexivity.
Defined.

(** X2 -- Whatever the server answers, [getData] issues at most three
    requests more than the number of pages it stored (each stored page is
    followed by one sleep): at most three requests of an entity are spent on
    errors and on finding the end of the comments. *)
Theorem getData_request_bound
    (float_str : string -> res pyfloat) (detect : option string -> res string)
    (re_sub_all : string -> string) (gameID : option nat) (script : list BGG.Fetch) :
  bgg_attempts (fst (BGG.getData float_str detect re_sub_all gameID script)) <=
  bgg_sleeps (fst (BGG.getData float_str detect re_sub_all gameID script)) + 3.
Proof.
  destruct gameID as [g |]; [| cbn; lia].
  pose proof (while_loop_request_bound float_str detect re_sub_all g script BGG.init_locals)
    as H.
  cbn [BGG.getData]. cbn [BGG.init_locals BGG.requestErrorCount] in H.
  assert (H0 : 0 <= 3) by lia. assert (H1 : true = true -> 0 <= 2) by lia.
  specialize (H H0 H1). lia.
Qed.

(** X3 -- Every request of [getData] is for the given game; the first one is
    for page 1; a request is followed either by another request for the same
    page, without any sleep, or by one sleep of 5 to 10 seconds and a request
    for the next page: no page is skipped and none is revisited once left. *)
Theorem getData_pages_in_order
    (float_str : string -> res pyfloat) (detect : option string -> res string)
    (re_sub_all : string -> string) (gameID : nat) (script : list BGG.Fetch) :
  bgg_paged gameID 1 (fst (BGG.getData float_str detect re_sub_all (Some gameID) script)) = true.
Proof.
  apply (while_loop_paged float_str detect re_sub_all gameID script BGG.init_locals).
Qed.

(** X4 -- [checkNumericRange] answers [False] when [float] raises (also for
    [None]), for a NaN and for an infinity, and for every value when the range
    is empty; and a value accepted for a range is accepted for every wider
    range. *)
Theorem checkNumericRange_edges
    (float_str : string -> res pyfloat) (val : option string) (lo hi lo' hi' : Q) :
  (forall e, BGG.float_ float_str val = Exc e ->
             BGG.checkNumericRange float_str val lo hi = false)
  /\ (BGG.float_ float_str val = Ok FNan -> BGG.checkNumericRange float_str val lo hi = false)
  /\ (forall negative, BGG.float_ float_str val = Ok (FInf negative) ->
                       BGG.checkNumericRange float_str val lo hi = false)
  /\ ((hi < lo)%Q -> BGG.checkNumericRange float_str val lo hi = false)
  /\ (BGG.checkNumericRange float_str val lo hi = true ->
      (lo' <= lo)%Q -> (hi <= hi')%Q ->
      BGG.checkNumericRange float_str val lo' hi' = true).
Proof.
  unfold BGG.checkNumericRange.
  split; [intros e ->; reflexivity |].
  split; [intros ->; reflexivity |].
  split; [intros negative ->; destruct negative; reflexivity |].
  destruct (BGG.float_ float_str val) as [[q | negative |] | e]; cbn [float_ge float_le].
  - split.
    + intros Hlt. destruct (Qle_bool lo q) eqn:H1, (Qle_bool q hi) eqn:H2; try reflexivity.
      apply Qle_bool_iff in H1, H2. exfalso.
      apply (Qlt_not_le _ _ Hlt). apply (Qle_trans _ q); assumption.
    + intros H Hlo Hhi.
      destruct (Qle_bool lo q) eqn:H1, (Qle_bool q hi) eqn:H2; try discriminate.
      apply Qle_bool_iff in H1, H2.
      assert (H1' : Qle_bool lo' q = true)
        by (apply Qle_bool_iff; apply (Qle_trans _ lo); assumption).
      assert (H2' : Qle_bool q hi' = true)
        by (apply Qle_bool_iff; apply (Qle_trans _ hi); assumption).
      rewrite H1', H2'. reflexivity.
  - split; [intros _ | intros H]; destruct negative; (reflexivity || discriminate).
  - split; [reflexivity | discriminate].
  - split; [reflexivity | discriminate].
Qed.

Lemma checkNumericRange_edges_witness :
  BGG.checkNumericRange Samples.float_str (Some "7") 0%Q 100%Q = true.
Proof.
  apply (checkNumericRange_edges Samples.float_str (Some "7") 1%Q 10%Q 0%Q 100%Q).
  - reflexivity.
  - discriminate.
  - discriminate.
Defined.

(** ** Further properties of [get_business_reviews] and its main loop *)

Section BusinessRuns.

Variable detect : option string -> res string.
Variable urljoin : string -> string -> string.

Local Abbreviation review_body := (TP.review_body detect).
Local Abbreviation review_loop := (TP.review_loop detect).
Local Abbreviation while_loop := (TP.while_loop detect urljoin).
Local Abbreviation for_loop := (TP.for_loop detect urljoin).

Lemma tp_review_try_quality (review : TP.Card) (r : TP.Review) :
  TP.review_try detect review = Ok (Some r) -> tp_quality detect r.
Proof.
  unfold TP.review_try. destruct (TP.card_rating review) as [rating_value |]; [| discriminate].
  destruct (TP.is_some (TP.card_text review) || TP.is_some (TP.card_title review));
    [| discriminate].
  destruct (TP.is_english detect _ _) as [[|] | e] eqn:He; try discriminate.
  intros H. inversion H; subst. unfold tp_quality. cbn [TP.review_title TP.review_text].
  apply is_english_true in He. tauto.
Qed.

Lemma tp_review_body_effect (review : TP.Card) (data : list TP.Review) :
  exists more,
    review_body review data = data ++ more /\
    List.length more <= 1 /\ Forall (tp_quality detect) more.
Proof.
  unfold TP.review_body.
  destruct (TP.review_try detect review) as [[r |] | e] eqn:Ht.
  - exists [r]. split; [reflexivity |]. split; [simpl; lia |].
    constructor; [exact (tp_review_try_quality review r Ht) | constructor].
  - exists []. rewrite app_nil_r. split; [reflexivity |]. split; [simpl; lia | constructor].
  - exists []. rewrite app_nil_r. split; [reflexivity |]. split; [simpl; lia | constructor].
Qed.

Lemma tp_review_loop_effect (reviews_ : list TP.Card) :
  forall data,
  exists more,
    review_loop reviews_ data = data ++ more /\
    List.length more <= List.length reviews_ /\ Forall (tp_quality detect) more.
Proof.
  induction reviews_ as [| review rest IH]; intros data.
  - exists []. rewrite app_nil_r. split; [reflexivity |]. split; [simpl; lia | constructor].
  - destruct (tp_review_body_effect review data) as (m1 & H1 & L1 & Q1).
    destruct (IH (review_body review data)) as (m2 & H2 & L2 & Q2).
    exists (m1 ++ m2). cbn [TP.review_loop]. rewrite H2, H1, app_assoc.
    rewrite length_app. cbn [List.length].
    split; [reflexivity |]. split; [lia | apply Forall_app; split; assumption].
Qed.

Lemma tp_return_result_reviews (st : TP.Locals) (result : TP.ParentResult) :
  TP.return_result st = Return result -> TP.reviews result = TP.reviews_data st.
Proof.
  unfold TP.return_result. destruct (TP.l_business_name st); [| discriminate].
  intros H. inversion H. reflexivity.
Qed.

Lemma tp_while_loop_records (script : list TP.Fetch) :
  forall st result,
    snd (while_loop script st) = Return result ->
    exists more,
      TP.reviews result = TP.reviews_data st ++ more /\
      List.length more <= tp_cards_in script /\
      Forall (tp_quality detect) more.
Proof.
  assert (Hnow : forall script st result, TP.return_result st = Return result ->
            exists more, TP.reviews result = TP.reviews_data st ++ more /\
              List.length more <= tp_cards_in script /\ Forall (tp_quality detect) more).
  { intros sc st result H. exists []. rewrite app_nil_r.
    split; [exact (tp_return_result_reviews st result H) |].
    split; [simpl; lia | constructor]. }
  induction script as [| f rest IH]; intros st result H; cbn [TP.while_loop] in H.
  - destruct (TP.url st) as [u |]; [destruct (String.eqb u "") |]; try discriminate;
      apply Hnow; exact H.
  - destruct (TP.url st) as [u |]; [destruct (String.eqb u "") |];
      try (apply Hnow; exact H).
    destruct f as [e | page]; cbn [TP.loop_body] in H; [apply Hnow; exact H |].
    set (st' := TP.mkLocals _ _ _) in H.
    destruct (while_loop rest st') as [evs r] eqn:Hl. cbn [snd] in H. subst r.
    assert (Hs : snd (while_loop rest st') = Return result) by (rewrite Hl; reflexivity).
    destruct (IH st' result Hs) as (m2 & H2 & L2 & Q2).
    destruct (tp_review_loop_effect (TP.cards page) (TP.reviews_data st))
      as (m1 & H1 & L1 & Q1).
    exists (m1 ++ m2). rewrite H2. subst st'. cbn [TP.reviews_data]. rewrite H1, app_assoc.
    rewrite length_app.
    change (tp_cards_in (TP.FetchOk page :: rest))
      with (List.length (TP.cards page) + tp_cards_in rest).
    split; [reflexivity |]. split; [lia | apply Forall_app; split; assumption].
Qed.

Lemma tp_while_loop_trace (script : list TP.Fetch) :
  forall st,
    tp_paged 2 7 (fst (while_loop script st)) = true /\
    tp_sleeps 30 60 (fst (while_loop script st)) = 0 /\
    (existsb tp_failed script = false ->
     tp_attempts (fst (while_loop script st)) = tp_sleeps 2 7 (fst (while_loop script st))).
Proof.
  induction script as [| f rest IH]; intros st; cbn [TP.while_loop].
  - destruct (TP.url st) as [u |]; [destruct (String.eqb u "") |]; repeat split.
  - destruct (TP.url st) as [u |]; [destruct (String.eqb u "") |]; try (repeat split; fail).
    destruct f as [e | page]; cbn [TP.loop_body].
    + repeat split. discriminate.
    + set (st' := TP.mkLocals _ _ _).
      destruct (IH st') as (Hp & Hz & Hc).
      destruct (while_loop rest st') as [evs r]. cbn [fst] in *.
      split; [cbn; exact Hp |]. split; [cbn; exact Hz |].
      intros Hno. cbn [existsb tp_failed orb] in Hno. specialize (Hc Hno).
      unfold tp_attempts, tp_sleeps in *. cbn. rewrite Hc. reflexivity.
Qed.

Lemma tp_sleeps_app (lo hi : nat) (a b : list TP.Event) :
  tp_sleeps lo hi (a ++ b) = tp_sleeps lo hi a + tp_sleeps lo hi b.
Proof. unfold tp_sleeps. rewrite filter_app, length_app. reflexivity. Qed.

Lemma tp_store_result_length (r : TP.ParentResult) (g : TP.Globals) :
  List.length (TP.all_reviews (TP.store_result r g)) <= S (List.length (TP.all_reviews g)).
Proof.
  unfold TP.store_result. destruct (0 <? _); cbn [TP.all_reviews]; [| lia].
  rewrite length_app. simpl. lia.
Qed.

Lemma tp_for_loop_waits (urls : list (string * list TP.Fetch)) :
  forall g evs g',
    for_loop urls g = (evs, Return g') ->
    tp_sleeps 30 60 evs = List.length urls /\
    List.length (TP.all_reviews g') <= List.length (TP.all_reviews g) + List.length urls.
Proof.
  induction urls as [| [u script] rest IH]; intros g evs g' H.
  - inversion H; subst. split; [reflexivity | simpl; lia].
  - cbn [TP.for_loop] in H. unfold TP.url_body, TP.get_business_reviews in H.
    set (st0 := TP.mkLocals _ _ _) in H.
    destruct (tp_while_loop_trace script st0) as (_ & Hz & _).
    destruct (while_loop script st0) as [evs0 [r | e |]]; try discriminate.
    destruct (for_loop rest (TP.store_result r g)) as [evs2 r2] eqn:Hl.
    inversion H; subst. destruct (IH _ _ _ Hl) as [Hs Hlen].
    rewrite !tp_sleeps_app. cbn [fst] in Hz. rewrite Hz, Hs.
    pose proof (tp_store_result_length r g). cbn. split; lia.
Qed.

End BusinessRuns.

(** X5 -- Whenever [get_business_reviews] returns, the records of its result
    are those gathered before followed by at most one record per review card
    of the pages read, each with an English title or an English body (non-empty
    after stripping): no accepted record is dropped, duplicated or altered by a
    later page or by the exception that ends the loop. *)
Theorem get_business_reviews_keeps_accepted_records
    (detect : option string -> res string) (urljoin : string -> string -> string)
    (script : list TP.Fetch) (st : TP.Locals) (result : TP.ParentResult) :
  snd (TP.while_loop detect urljoin script st) = Return result ->
  exists more,
    TP.reviews result = TP.reviews_data st ++ more /\
    List.length more <= tp_cards_in script /\
    Forall (tp_quality detect) more.
Proof. apply tp_while_loop_records. Qed.

Lemma get_business_reviews_keeps_accepted_records_witness :
  exists more,
    [ {| TP.rating := "5"; TP.review_title := Some "Great service"; TP.review_text := None |};
      {| TP.rating := "5"; TP.review_title := Some "Great service"; TP.review_text := None |} ] =
    [] ++ more /\
    List.length more <= 3 /\
    Forall (tp_quality Samples.detect) more.
Proof.
  apply (get_business_reviews_keeps_accepted_records Samples.detect Samples.urljoin
           [TP.FetchOk acme_first_of_two; TP.FetchOk acme_page_2;
            TP.FetchRaises RequestException]
           {| TP.url := Some acme_url; TP.reviews_data := []; TP.l_business_name := None |}
           {| TP.business_name := "Acme Motors";
              TP.reviews :=
                [ {| TP.rating := "5"; TP.review_title := Some "Great service";
                     TP.review_text := None |};
                  {| TP.rating := "5"; TP.review_title := Some "Great service";
                     TP.review_text := None |} ] |}).
  reflexivity.
Defined.



(** X7 -- When the main loop of the TrustPilot notebook runs to its end it
    has slept 30 to 60 seconds exactly once per business url, whether or not
    the business yielded a record, and it has appended at most one result per
    business. *)
Theorem tp_main_loop_waits_once_per_business
    (detect : option string -> res string) (urljoin : string -> string -> string)
    (business_urls : list (string * list TP.Fetch)) (g g' : TP.Globals)
    (evs : list TP.Event) :
  TP.main_loop detect urljoin business_urls g = (evs, Return g') ->
  tp_sleeps 30 60 evs = List.length business_urls /\
  List.length (TP.all_reviews g') <=
    List.length (TP.all_reviews g) + List.length business_urls.
Proof.
  unfold TP.main_loop. intros H.
  destruct (tp_for_loop_waits detect urljoin (rev business_urls) g evs g' H) as [Hs Hl].
  rewrite length_rev in Hs, Hl. split; assumption.
Qed.

Lemma tp_main_loop_waits_once_per_business_witness :
  tp_sleeps 30 60
    (fst (TP.main_loop Samples.detect Samples.urljoin two_businesses TP.init_globals)) = 2.
Proof.
  refine (proj1 (tp_main_loop_waits_once_per_business Samples.detect Samples.urljoin
                   two_businesses TP.init_globals _ _ _)).
  reflexivity.
Defined.

(** ** Further properties of the main cell of the BoardGameGeek notebook *)

Section MainCell.

Variable float_str : string -> res pyfloat.
Variable detect : option string -> res string.
Variable re_sub_all : string -> string.

Local Abbreviation getData := (BGG.getData float_str detect re_sub_all).
Local Abbreviation row_body := (BGG.row_body float_str detect re_sub_all).
Local Abbreviation main_loop := (BGG.main_loop float_str detect re_sub_all).

Lemma bgg_store_buffer (cfg : BGG.Config) (r : BGG.ParentResult) (g : BGG.Globals) :
  exists more,
    BGG.all_reviews (BGG.store_result cfg r g) = BGG.all_reviews g ++ more /\
    List.length more <= 1 /\
    BGG.totalSaved (BGG.store_result cfg r g) = BGG.totalSaved g + bgg_total more.
Proof.
  assert (Hcase : BGG.reviews r = [] \/ BGG.reviews r <> [])
    by (destruct (BGG.reviews r); [left; reflexivity | right; discriminate]).
  destruct Hcase as [Hr | Hr].
  - rewrite bgg_store_empty by exact Hr. exists []. rewrite app_nil_r.
    split; [reflexivity |]. split; [simpl; lia | cbn; lia].
  - assert (Hone : bgg_total [r] = List.length (BGG.reviews r)) by (cbn; lia).
    destruct (le_lt_dec (BGG.checkThreshold cfg)
                (BGG.checkCount g + List.length (BGG.reviews r))) as [Hle | Hlt].
    + rewrite (bgg_store_flush cfg r g Hr Hle). exists [r].
      cbn [BGG.all_reviews BGG.totalSaved]. rewrite Hone.
      split; [reflexivity |]. split; [simpl; lia | reflexivity].
    + rewrite (bgg_store_keep cfg r g Hr Hlt). exists [r].
      cbn [BGG.all_reviews BGG.totalSaved]. rewrite Hone.
      split; [reflexivity |]. split; [simpl; lia | reflexivity].
Qed.

Lemma bgg_main_loop_buffer (cfg : BGG.Config) (rows : list (BGG.Row * list BGG.Fetch)) :
  forall index g evs g',
    main_loop cfg index rows g = (evs, Return g') ->
    exists more,
      BGG.all_reviews g' = BGG.all_reviews g ++ more /\
      List.length more <= List.length rows /\
      BGG.totalSaved g' = BGG.totalSaved g + bgg_total more.
Proof.
  induction rows as [| [row script] rest IH]; intros index g evs g' H.
  - inversion H; subst. exists []. rewrite app_nil_r.
    split; [reflexivity |]. split; [simpl; lia | cbn; lia].
  - cbn [BGG.main_loop] in H.
    destruct (row_body cfg index row script g) as [evs1 [g1 | e |]] eqn:Hb;
      try discriminate.
    destruct (main_loop cfg (S index) rest g1) as [evs2 r2] eqn:Hl.
    inversion H; subst.
    destruct (IH _ _ _ _ Hl) as (m2 & H2 & L2 & T2).
    assert (H1 : exists m1, BGG.all_reviews g1 = BGG.all_reviews g ++ m1 /\
                   List.length m1 <= 1 /\
                   BGG.totalSaved g1 = BGG.totalSaved g + bgg_total m1).
    { destruct (bgg_row_body_cases float_str detect re_sub_all _ _ _ _ _ _ _ Hb)
        as [-> | [r ->]]; [| apply bgg_store_buffer].
      exists []. rewrite app_nil_r. split; [reflexivity |]. split; [simpl; lia | cbn; lia]. }
    destruct H1 as (m1 & H1 & L1 & T1).
    exists (m1 ++ m2). rewrite H2, H1, app_assoc, length_app, bgg_total_app.
    cbn [List.length]. split; [reflexivity |]. split; lia.
Qed.

Lemma bgg_row_body_events (cfg : BGG.Config) (index : nat) (row : BGG.Row)
    (script : list BGG.Fetch) (g : BGG.Globals) (gid pg : nat) :
  In (BGG.EvGet gid pg) (fst (row_body cfg index row script g)) ->
  gid = BGG.row_id row /\ BGG.skipped cfg index (BGG.row_id row) = false.
Proof.
  unfold BGG.row_body. destruct (BGG.skipped cfg index (BGG.row_id row)); [contradiction |].
  pose proof (while_loop_paged float_str detect re_sub_all (BGG.row_id row) script
                BGG.init_locals) as Hp.
  cbn [BGG.getData].
  destruct (BGG.while_loop float_str detect re_sub_all (BGG.row_id row) script
              BGG.init_locals) as [evs0 [[r |] | e |]]; cbn [fst] in *; intros Hin;
    try (apply in_app_or in Hin; destruct Hin as [Hin | [Heq | []]]; [| discriminate]);
    (split; [eapply bgg_paged_game; eassumption | reflexivity]).
Qed.

Lemma bgg_main_loop_events (cfg : BGG.Config) (rows : list (BGG.Row * list BGG.Fetch)) :
  forall index g gid pg,
    In (BGG.EvGet gid pg) (fst (main_loop cfg index rows g)) ->
    exists i row script,
      nth_error rows i = Some (row, script) /\
      BGG.row_id row = gid /\
      BGG.skipped cfg (index + i) gid = false.
Proof.
  induction rows as [| [row script] rest IH]; intros index g gid pg Hin; [contradiction |].
  cbn [BGG.main_loop] in Hin.
  pose proof (bgg_row_body_events cfg index row script g gid pg) as Hrow.
  assert (Hhere : gid = BGG.row_id row /\ BGG.skipped cfg index (BGG.row_id row) = false ->
                  exists i row0 script0,
                    nth_error ((row, script) :: rest) i = Some (row0, script0) /\
                    BGG.row_id row0 = gid /\ BGG.skipped cfg (index + i) gid = false).
  { intros [-> Hs]. exists 0, row, script. rewrite Nat.add_0_r. repeat split. exact Hs. }
  destruct (row_body cfg index row script g) as [evs1 [g1 | e |]]; cbn [fst] in *;
    try (apply Hhere, Hrow, Hin).
  destruct (main_loop cfg (S index) rest g1) as [evs2 r2] eqn:Hl. cbn [fst] in Hin.
  apply in_app_or in Hin. destruct Hin as [Hin | Hin]; [apply Hhere, Hrow, Hin |].
  assert (Hin' : In (BGG.EvGet gid pg) (fst (main_loop cfg (S index) rest g1)))
    by (rewrite Hl; exact Hin).
  destruct (IH _ _ _ _ Hin') as (i & row0 & script0 & Hn & Hid & Hs).
  exists (S i), row0, script0. rewrite Nat.add_succ_r. repeat split; assumption.
Qed.

End MainCell.

(** X8 -- Whenever the main loop of the BoardGameGeek notebook runs to its
    end, the buffer is the buffer it started from followed by at most one
    result per row, and [totalSaved] has grown by exactly the number of records
    in the results appended: the buffer is append-only and the reported total
    is the number of records stored. *)
Theorem bgg_main_loop_counts_what_it_appends
    (float_str : string -> res pyfloat) (detect : option string -> res string)
    (re_sub_all : string -> string)
    (cfg : BGG.Config) (index : nat) (rows : list (BGG.Row * list BGG.Fetch))
    (g g' : BGG.Globals) (evs : list BGG.Event) :
  BGG.main_loop float_str detect re_sub_all cfg index rows g = (evs, Return g') ->
  exists more,
    BGG.all_reviews g' = BGG.all_reviews g ++ more /\
    List.length more <= List.length rows /\
    BGG.totalSaved g' = BGG.totalSaved g + bgg_total more.
Proof. apply bgg_main_loop_buffer. Qed.

Lemma bgg_main_loop_counts_what_it_appends_witness :
  exists more,
    [ {| BGG.game_name := BGG.NameList ["Gloomhaven"];
         BGG.reviews := [ {| BGG.rating := Some "7"; BGG.review_text := Some "Great game" |} ] |};
      {| BGG.game_name := BGG.NameList ["Catan"];
         BGG.reviews := [ {| BGG.rating := Some "7"; BGG.review_text := Some "Great game" |} ] |} ]
    = [] ++ more /\
    List.length more <= 2 /\
    2 = 0 + bgg_total more.
Proof.
  refine (bgg_main_loop_counts_what_it_appends Samples.float_str Samples.detect
            Samples.re_sub_all plain_cfg 0 two_rows BGG.init_globals
            {| BGG.all_reviews :=
                 [ {| BGG.game_name := BGG.NameList ["Gloomhaven"];
                      BGG.reviews := [ {| BGG.rating := Some "7";
                                          BGG.review_text := Some "Great game" |} ] |};
                   {| BGG.game_name := BGG.NameList ["Catan"];
                      BGG.reviews := [ {| BGG.rating := Some "7";
                                          BGG.review_text := Some "Great game" |} ] |} ];
               BGG.totalSaved := 2; BGG.checkCount := _; BGG.disk := _ |} _ _).
  reflexivity.
Defined.

(** X9 -- The main loop of the BoardGameGeek notebook issues requests only
    for rows that its filter lets through: every request in its trace is for
    the game id of a row of the list, and at the index of that row the test in
    front of [continue] is false; with [reprocess] set this means an index at
    or after [reprocessIndex] and an id in [reprocessIDs]. *)
Theorem bgg_main_loop_requests_only_unfiltered_rows
    (float_str : string -> res pyfloat) (detect : option string -> res string)
    (re_sub_all : string -> string)
    (cfg : BGG.Config) (index : nat) (rows : list (BGG.Row * list BGG.Fetch))
    (g : BGG.Globals) (gid pg : nat) :
  In (BGG.EvGet gid pg) (fst (BGG.main_loop float_str detect re_sub_all cfg index rows g)) ->
  exists i row script,
    nth_error rows i = Some (row, script) /\
    BGG.row_id row = gid /\
    BGG.skipped cfg (index + i) gid = false /\
    (BGG.reprocess cfg = true ->
     BGG.reprocessIndex cfg <= index + i /\ In gid (BGG.reprocessIDs cfg)).
Proof.
  intros Hin.
  destruct (bgg_main_loop_events float_str detect re_sub_all cfg rows index g gid pg Hin)
    as (i & row & script & Hn & Hid & Hs).
  exists i, row, script.
  split; [exact Hn |]. split; [exact Hid |]. split; [exact Hs |].
  intros Hre. unfold BGG.skipped in Hs. rewrite Hre in Hs. cbn [andb] in Hs.
  apply orb_false_elim in Hs. destruct Hs as [Hlt Hid'].
  apply Nat.ltb_ge in Hlt. apply negb_false_iff in Hid'.
  split; [exact Hlt | apply id_in_In; exact Hid'].
Qed.

Lemma bgg_main_loop_requests_only_unfiltered_rows_witness :
  exists i row script,
    nth_error two_rows i = Some (row, script) /\
    BGG.row_id row = 20 /\
    BGG.skipped plain_cfg (0 + i) 20 = false /\
    (BGG.reprocess plain_cfg = true ->
     BGG.reprocessIndex plain_cfg <= 0 + i /\ In 20 (BGG.reprocessIDs plain_cfg)).
Proof.
  apply (bgg_main_loop_requests_only_unfiltered_rows Samples.float_str Samples.detect
           Samples.re_sub_all plain_cfg 0 two_rows BGG.init_globals 20 1).
  vm_compute. tauto.
Defined.

(** ** The category walk *)

Section CategoryWalk.

Variable urljoin : string -> string -> string.

Local Abbreviation link_loop := (Category.link_loop urljoin).
Local Abbreviation while_loop := (Category.while_loop urljoin).


Lemma link_loop_effect (ls : list Category.Link) :
  forall urls,
  exists more,
    fst (link_loop ls urls) = urls ++ more /\
    Forall (fun url => Category.contains "/review/" url = true /\
                       cat_listed_on urljoin ls url) more.
Proof.
  induction ls as [| l rest IH]; intros urls.
  - exists []. rewrite app_nil_r. split; [reflexivity | constructor].
  - assert (Hweak : forall more : list string,
              Forall (fun url => Category.contains "/review/" url = true /\
                                 cat_listed_on urljoin rest url) more ->
              Forall (fun url => Category.contains "/review/" url = true /\
                                 cat_listed_on urljoin (l :: rest) url) more).
    { intros more. apply Forall_impl. intros url [Hc (link & Hin & Ht & Hu)].
      split; [exact Hc |]. exists link. split; [right; exact Hin | split; assumption]. }
    cbn [Category.link_loop].
    destruct (Category.trustscore_imgs l =? 0) eqn:Hl.
    + exists []. rewrite app_nil_r. split; [reflexivity | constructor].
    + apply Nat.eqb_neq in Hl.
      destruct (Category.contains "/review/" (Category.join_href urljoin (Category.link_href l)))
        eqn:Hc.
      * destruct (IH (urls ++ [Category.join_href urljoin (Category.link_href l)]))
          as (more & Hm & Hq).
        exists (Category.join_href urljoin (Category.link_href l) :: more).
        rewrite Hm, <- app_assoc. split; [reflexivity |].
        constructor; [| apply Hweak; exact Hq].
        split; [exact Hc |]. exists l. split; [left; reflexivity | split; [exact Hl | reflexivity]].
      * destruct (IH urls) as (more & Hm & Hq).
        exists more. split; [exact Hm | apply Hweak; exact Hq].
Qed.

Lemma cat_counts_cons (u : string) (evs : list TP.Event) :
  tp_attempts (TP.EvGet u :: TP.EvSleep 2 5 :: evs) = S (tp_attempts evs) /\
  tp_sleeps 2 5 (TP.EvGet u :: TP.EvSleep 2 5 :: evs) = S (tp_sleeps 2 5 evs).
Proof. split; reflexivity. Qed.

Lemma cat_while_loop_effect (script : list Category.Fetch) :
  forall u urls,
    (forall result, snd (while_loop script u urls) = Return result ->
       exists more,
         result = urls ++ more /\
         Forall (fun url => Category.contains "/review/" url = true /\
                            cat_listed urljoin script url) more)
    /\ (forall e, snd (while_loop script u urls) = Raise e ->
                  In (Category.FetchRaises e) script)
    /\ tp_sleeps 2 5 (fst (while_loop script u urls)) <=
         tp_attempts (fst (while_loop script u urls))
    /\ tp_attempts (fst (while_loop script u urls)) <=
         S (tp_sleeps 2 5 (fst (while_loop script u urls))).
Proof.
  assert (Hnil : forall (sc : list Category.Fetch) (urls result : list string),
            Return urls = Return result ->
            exists more, result = urls ++ more /\
              Forall (fun url => Category.contains "/review/" url = true /\
                                 cat_listed urljoin sc url) more).
  { intros sc urls result H. inversion H; subst. exists []. rewrite app_nil_r.
    split; [reflexivity | constructor]. }
  induction script as [| f rest IH]; intros u urls; cbn [Category.while_loop].
  - destruct (String.eqb u ""); cbn [fst snd];
      (split; [intros result H; try discriminate; apply Hnil; exact H |]);
      (split; [intros e H; discriminate |]); cbn; lia.
  - destruct (String.eqb u ""); cbn [fst snd].
    { split; [intros result H; apply Hnil; exact H |].
      split; [intros e H; discriminate |]. cbn; lia. }
    destruct f as [e0 | page]; cbn [fst snd].
    { split; [intros result H; discriminate |].
      split; [intros e H; inversion H; subst; left; reflexivity |]. cbn; lia. }
    destruct (link_loop_effect (Category.links page) urls) as (m1 & H1 & Q1).
    assert (Q1' : Forall (fun url => Category.contains "/review/" url = true /\
                            cat_listed urljoin (Category.FetchOk page :: rest) url) m1).
    { revert Q1. apply Forall_impl. intros url [Hc (link & Hin & Ht & Hu)].
      split; [exact Hc |]. exists page, link.
      split; [left; reflexivity | repeat split; assumption]. }
    assert (Hstop : forall urls1 : list string, urls1 = urls ++ m1 ->
              (forall result, Return urls1 = Return result ->
                 exists more, result = urls ++ more /\
                   Forall (fun url => Category.contains "/review/" url = true /\
                             cat_listed urljoin (Category.FetchOk page :: rest) url) more)).
    { intros urls1 -> result H. inversion H; subst. exists m1. split; [reflexivity | exact Q1']. }
    destruct (link_loop (Category.links page) urls) as [urls1 stop]. cbn [fst] in H1.
    destruct stop; cbn [fst snd].
    { split; [apply Hstop; exact H1 |]. split; [intros e H; discriminate |]. cbn; lia. }
    destruct (Category.next_href page) as [href |]; cbn [fst snd].
    2:{ split; [apply Hstop; exact H1 |]. split; [intros e H; discriminate |]. cbn; lia. }
    destruct (String.eqb href ""); cbn [fst snd].
    { split; [apply Hstop; exact H1 |]. split; [intros e H; discriminate |]. cbn; lia. }
    destruct (IH (urljoin TP.base_url href) urls1) as (Hres & Hexc & Hlo & Hhi).
    destruct (while_loop rest (urljoin TP.base_url href) urls1) as [evs r]. cbn [fst snd] in *.
    destruct (cat_counts_cons u evs) as [-> ->].
    split.
    { intros result H. destruct (Hres result H) as (m2 & H2 & Q2).
      exists (m1 ++ m2). rewrite H2, H1, app_assoc. split; [reflexivity |].
      apply Forall_app. split; [exact Q1' |].
      revert Q2. apply Forall_impl. intros url [Hc (pg & link & Hin & Hr)].
      split; [exact Hc |]. exists pg, link. split; [right; exact Hin | exact Hr]. }
    split; [intros e H; right; apply Hexc; exact H |]. lia.
Qed.

End CategoryWalk.



(** X11 -- Whenever [scrape_category_page] returns, its result is the list
    it started from followed by urls each of which contains [/review/] and is
    the join of the base url with the [href] of a business link that carries a
    TrustScore image on one of the pages read. *)
Theorem scrape_category_page_returns_review_urls
    (urljoin : string -> string -> string) (script : list Category.Fetch)
    (current_page_url : string) (business_urls result : list string) :
  snd (Category.while_loop urljoin script current_page_url business_urls) = Return result ->
  exists more,
    result = business_urls ++ more /\
    Forall (fun url => Category.contains "/review/" url = true /\
                       cat_listed urljoin script url) more.
Proof.
  intros H.
  destruct (cat_while_loop_effect urljoin script current_page_url business_urls)
    as (Hres & _).
  exact (Hres result H).
Qed.

Lemma scrape_category_page_returns_review_urls_witness :
  exists more,
    ["https://www.trustpilot.com/review/acme.example"] = [] ++ more /\
    Forall (fun url => Category.contains "/review/" url = true /\
                       cat_listed Samples.urljoin
                         [Category.FetchOk listing_page] url) more.
Proof.
  apply (scrape_category_page_returns_review_urls Samples.urljoin
           [Category.FetchOk listing_page] category_url []
           ["https://www.trustpilot.com/review/acme.example"]).
  reflexivity.
Defined.



(** ** The checkpoint file *)

Lemma find_filter_other (path other : string) (d : BGG.Disk) :
  path <> other ->
  find (fun e => String.eqb (fst e) path)
       (filter (fun e => negb (String.eqb (fst e) other)) d) =
  find (fun e => String.eqb (fst e) path) d.
Proof.
  intros Hne. induction d as [| [p data] d IH]; [reflexivity |].
  cbn [filter find fst].
  destruct (String.eqb p other) eqn:Ho; cbn [negb].
  - apply String.eqb_eq in Ho. subst p.
    destruct (String.eqb other path) eqn:Hp; [| exact IH].
    apply String.eqb_eq in Hp. congruence.
  - cbn [find fst]. destruct (String.eqb p path); [reflexivity | exact IH].
Qed.

Lemma filter_twice {A : Type} (f : A -> bool) (l : list A) :
  filter f (filter f l) = filter f l.
Proof.
  induction l as [| x l IH]; [reflexivity |].
  cbn [filter]. destruct (f x) eqn:Hx; [| exact IH].
  cbn [filter]. rewrite Hx, IH. reflexivity.
Qed.

(** X13 -- [flushBuffer] replaces the checkpoint file by the whole buffer:
    afterwards the file at [outputFile] holds exactly [all_reviews], whatever it
    held before; every other file is as it was; the buffer and the counters are
    untouched; and flushing twice in a row is the same as flushing once. *)
Theorem flushBuffer_overwrites_checkpoint
    (cfg : BGG.Config) (g : BGG.Globals) (path : string) :
  BGG.read_file (BGG.outputFile cfg) (BGG.disk (BGG.flushBuffer cfg g)) =
    Some (BGG.all_reviews g)
  /\ (path <> BGG.outputFile cfg ->
      BGG.read_file path (BGG.disk (BGG.flushBuffer cfg g)) = BGG.read_file path (BGG.disk g))
  /\ BGG.all_reviews (BGG.flushBuffer cfg g) = BGG.all_reviews g
  /\ BGG.checkCount (BGG.flushBuffer cfg g) = BGG.checkCount g
  /\ BGG.totalSaved (BGG.flushBuffer cfg g) = BGG.totalSaved g
  /\ BGG.flushBuffer cfg (BGG.flushBuffer cfg g) = BGG.flushBuffer cfg g.
Proof.
  split.
  { unfold BGG.read_file, BGG.flushBuffer, BGG.write_file. cbn [BGG.disk find fst snd].
    rewrite String.eqb_refl. reflexivity. }
  split.
  { intros Hne. unfold BGG.read_file, BGG.flushBuffer, BGG.write_file.
    cbn [BGG.disk find fst].
    destruct (String.eqb (BGG.outputFile cfg) path) eqn:E;
      [apply String.eqb_eq in E; congruence |].
    rewrite (find_filter_other path (BGG.outputFile cfg) _ Hne). reflexivity. }
  repeat split.
  unfold BGG.flushBuffer, BGG.write_file.
  cbn [BGG.disk BGG.all_reviews BGG.totalSaved BGG.checkCount filter fst].
  rewrite String.eqb_refl. cbn [negb]. rewrite filter_twice. reflexivity.
Qed.

Lemma flushBuffer_overwrites_checkpoint_witness :
  BGG.read_file "notes.json"
    (BGG.disk (BGG.flushBuffer plain_cfg
                 {| BGG.all_reviews := []; BGG.totalSaved := 0; BGG.checkCount := 0;
                    BGG.disk := [("notes.json", []); ("boardgamegeek.json", [])] |})) =
  BGG.read_file "notes.json" [("notes.json", []); ("boardgamegeek.json", [])].
Proof.
  apply (flushBuffer_overwrites_checkpoint plain_cfg
           {| BGG.all_reviews := []; BGG.totalSaved := 0; BGG.checkCount := 0;
              BGG.disk := [("notes.json", []); ("boardgamegeek.json", [])] |}
           "notes.json").
  discriminate.
Defined.

(** ** The clean-up of the business names *)

Lemma prefix_nonempty_nil (delim : string) :
  delim <> EmptyString -> String.prefix delim EmptyString = false.
Proof. destruct delim; [congruence | reflexivity]. Qed.

Lemma prefix_append (delim : string) :
  forall x z, String.prefix delim x = true -> String.prefix delim (x ++ z)%string = true.
Proof.
  induction delim as [| a delim IH]; intros x z H;
    [destruct (x ++ z)%string; reflexivity |].
  destruct x as [| b x]; [discriminate |].
  cbn [String.prefix String.append] in *.
  destruct (ascii_dec a b); [apply IH; exact H | discriminate].
Qed.

(** X14 -- [txt.split(delim)[0]], for a non-empty delimiter: the result is
    the text in front of the first occurrence of the delimiter (what is cut off
    is empty or begins with the delimiter), the delimiter does not occur in the
    result, and a text without the delimiter is returned whole. *)
Theorem split_head_cuts_at_first_delimiter (delim s : string) :
  delim <> EmptyString ->
  (exists rest,
      s = (TP.split_head delim s ++ rest)%string /\
      (rest = EmptyString \/ String.prefix delim rest = true))
  /\ Category.contains delim (TP.split_head delim s) = false
  /\ (Category.contains delim s = false -> TP.split_head delim s = s).
Proof.
  intros Hd. induction s as [| c r IH].
  - cbn [TP.split_head]. rewrite (prefix_nonempty_nil delim Hd).
    cbn [Category.contains]. rewrite (prefix_nonempty_nil delim Hd).
    split; [exists EmptyString; split; [reflexivity | left; reflexivity] |].
    split; [reflexivity | reflexivity].
  - destruct IH as ((rest & Hr & Hrest) & Hno & Hwhole).
    cbn [TP.split_head Category.contains].
    destruct (String.prefix delim (String c r)) eqn:Hp.
    + split; [exists (String c r); split; [reflexivity | right; exact Hp] |].
      cbn [Category.contains]. rewrite (prefix_nonempty_nil delim Hd).
      split; [reflexivity | discriminate].
    + split; [| split].
      * exists rest. cbn [String.append]. rewrite <- Hr. split; [reflexivity | exact Hrest].
      * cbn [Category.contains]. rewrite Hno, orb_false_r.
        destruct (String.prefix delim (String c (TP.split_head delim r))) eqn:Hq;
          [| reflexivity].
        apply (prefix_append delim _ rest) in Hq. cbn [String.append] in Hq.
        rewrite <- Hr in Hq. congruence.
      * cbn [orb]. intros Hc. rewrite (Hwhole Hc). reflexivity.
Qed.

Lemma split_head_cuts_at_first_delimiter_witness :
  Category.contains "Reviews" (TP.split_head "Reviews" "Acme Motors Reviews 1,204") = false.
Proof.
  apply (split_head_cuts_at_first_delimiter "Reviews" "Acme Motors Reviews 1,204").
  discriminate.
Defined.

Example clean_name_example :
  TP.clean_name {| TP.business_name := "Acme Motors Reviews 1,204"; TP.reviews := [] |} =
  {| TP.business_name := "Acme Motors "; TP.reviews := [] |}.
Proof. reflexivity. Qed.

(** ** The seed cell *)

Lemma strongly_sorted_app {A : Type} (R : A -> A -> Prop) (a b : list A) :
  StronglySorted R (a ++ b) ->
  StronglySorted R a /\ (forall x y, In x a -> In y b -> R x y).
Proof.
  induction a as [| h a IH]; intros H; [split; [constructor | intros x y []] |].
  cbn [app] in H. apply StronglySorted_inv in H. destruct H as [Hs Hall].
  destruct (IH Hs) as [Ha Hab]. rewrite Forall_forall in Hall. split.
  - constructor; [exact Ha |]. apply Forall_forall. intros x Hx. apply Hall, in_or_app.
    left; exact Hx.
  - intros x y [-> | Hx] Hy; [apply Hall, in_or_app; right; exact Hy | apply Hab; assumption].
Qed.

Lemma insert_row_perm (row : BGG.Row) (l : list BGG.Row) :
  Permutation (insert_row row l) (row :: l).
Proof.
  induction l as [| x rest IH]; [reflexivity |].
  cbn [insert_row]. destruct (BGG.usersrated x <=? BGG.usersrated row); [reflexivity |].
  rewrite IH. apply perm_swap.
Qed.

Lemma sort_rows_perm (l : list BGG.Row) : Permutation (sort_rows l) l.
Proof.
  induction l as [| x rest IH]; [reflexivity |].
  cbn [sort_rows]. rewrite insert_row_perm, IH. reflexivity.
Qed.

Lemma insert_row_sorted (row : BGG.Row) (l : list BGG.Row) :
  StronglySorted votes_desc l -> StronglySorted votes_desc (insert_row row l).
Proof.
  induction l as [| x rest IH]; intros H; [constructor; constructor |].
  apply StronglySorted_inv in H. destruct H as [Hs Hall].
  cbn [insert_row]. destruct (BGG.usersrated x <=? BGG.usersrated row) eqn:E.
  - apply Nat.leb_le in E. constructor; [constructor; assumption |].
    constructor; [exact E |].
    revert Hall. apply Forall_impl. unfold votes_desc. intros y Hy. lia.
  - apply Nat.leb_gt in E. constructor; [apply IH; exact Hs |].
    apply Forall_forall. intros y Hy.
    apply (Permutation_in _ (insert_row_perm row rest)) in Hy.
    destruct Hy as [<- | Hy]; [unfold votes_desc; lia |].
    rewrite Forall_forall in Hall. apply Hall. exact Hy.
Qed.

Lemma sort_rows_sorted (l : list BGG.Row) : StronglySorted votes_desc (sort_rows l).
Proof.
  induction l as [| x rest IH]; [constructor |].
  cbn [sort_rows]. apply insert_row_sorted. exact IH.
Qed.

(** X15 -- The seed cell, for any [sort_values] that permutes its input and
    orders it by falling [usersrated]: the selection has at most
    [gamesSelection] rows, each a row of the file with at least 1000 ratings, in
    that order; and a row of the file with at least 1000 ratings is left out
    only when the selection is full and none of the selected rows has fewer
    ratings than it. *)
Theorem select_games_takes_the_most_rated
    (sort_values : list BGG.Row -> list BGG.Row) (df : list BGG.Row) :
  (forall l, Permutation (sort_values l) l) ->
  (forall l, StronglySorted votes_desc (sort_values l)) ->
  List.length (Seed.select_games sort_values df) <= Seed.gamesSelection
  /\ Forall (fun row => In row df /\ 1000 <= BGG.usersrated row)
            (Seed.select_games sort_values df)
  /\ StronglySorted votes_desc (Seed.select_games sort_values df)
  /\ (forall row,
        In row df -> 1000 <= BGG.usersrated row ->
        ~ In row (Seed.select_games sort_values df) ->
        List.length (Seed.select_games sort_values df) = Seed.gamesSelection /\
        Forall (fun chosen => BGG.usersrated row <= BGG.usersrated chosen)
               (Seed.select_games sort_values df)).
Proof.
  intros Hperm Hsorted. unfold Seed.select_games.
  set (kept := filter (fun row => 1000 <=? BGG.usersrated row) df).
  set (n := Seed.gamesSelection).
  pose proof (firstn_skipn n (sort_values kept)) as Hsplit.
  pose proof (Hsorted kept) as Hs. rewrite <- Hsplit in Hs.
  destruct (strongly_sorted_app votes_desc _ _ Hs) as [Hfirst Hcross].
  assert (Hin : forall row, In row (sort_values kept) <->
                            In row df /\ 1000 <= BGG.usersrated row).
  { intros row. split.
    - intros H. apply (Permutation_in _ (Hperm kept)) in H.
      apply filter_In in H. destruct H as [H1 H2]. apply Nat.leb_le in H2. tauto.
    - intros [H1 H2]. apply (Permutation_in _ (Permutation_sym (Hperm kept))).
      apply filter_In. split; [exact H1 | apply Nat.leb_le; exact H2]. }
  split; [apply firstn_le_length |].
  split.
  { apply Forall_forall. intros row H. apply Hin. rewrite <- Hsplit.
    apply in_or_app. left; exact H. }
  split; [exact Hfirst |].
  intros row Hdf Hvotes Hout.
  assert (Hrow : In row (skipn n (sort_values kept))).
  { assert (H : In row (sort_values kept)) by (apply Hin; tauto).
    rewrite <- Hsplit in H. apply in_app_or in H. tauto. }
  split.
  - rewrite length_firstn. apply Nat.min_l.
    destruct (le_lt_dec n (List.length (sort_values kept))) as [Hle | Hlt]; [exact Hle |].
    rewrite skipn_all2 in Hrow by lia. contradiction.
  - apply Forall_forall. intros chosen Hc. exact (Hcross chosen row Hc Hrow).
Qed.

Lemma select_games_takes_the_most_rated_witness :
  StronglySorted votes_desc (Seed.select_games sort_rows small_frame).
Proof.
  apply (select_games_takes_the_most_rated sort_rows small_frame
           sort_rows_perm sort_rows_sorted).
Defined.

Example small_frame_selection :
  map BGG.row_id (Seed.select_games sort_rows small_frame) = [10; 20].
Proof. reflexivity. Qed.

(** ** Stripped text *)

Lemma string_app_nil_r (s : string) : (s ++ "")%string = s.
Proof. induction s as [| c s IH]; [reflexivity | cbn [String.append]; rewrite IH; reflexivity]. Qed.

Lemma string_app_assoc (a b c : string) : ((a ++ b) ++ c)%string = (a ++ (b ++ c))%string.
Proof. induction a as [| x a IH]; [reflexivity | cbn [String.append]; rewrite IH; reflexivity]. Qed.

Lemma string_rev_onto_app (s : string) :
  forall acc, string_rev_onto s acc = (string_rev s ++ acc)%string.
Proof.
  unfold string_rev. induction s as [| c s IH]; intros acc; [reflexivity |].
  cbn [string_rev_onto]. rewrite (IH (String c acc)), (IH (String c EmptyString)).
  rewrite string_app_assoc. reflexivity.
Qed.

Lemma string_rev_cons (c : ascii) (s : string) :
  string_rev (String c s) = (string_rev s ++ String c "")%string.
Proof. unfold string_rev at 1. cbn [string_rev_onto]. apply string_rev_onto_app. Qed.

Lemma string_rev_app (a b : string) :
  string_rev (a ++ b) = (string_rev b ++ string_rev a)%string.
Proof.
  induction a as [| c a IH]; [cbn [String.append]; rewrite string_app_nil_r; reflexivity |].
  cbn [String.append]. rewrite !string_rev_cons, IH, string_app_assoc. reflexivity.
Qed.

Lemma string_rev_involutive (s : string) : string_rev (string_rev s) = s.
Proof.
  induction s as [| c s IH]; [reflexivity |].
  rewrite string_rev_cons, string_rev_app, IH. reflexivity.
Qed.

Section Stripping.

Variable w1 : ascii -> bool.
Variable w2 : ascii -> ascii -> bool.
Variable w3 : ascii -> ascii -> ascii -> bool.

(** What [lstrip_by] returns is what is left of the text after a prefix, and
    does not begin with a byte that [w1] recognises. *)
Lemma lstrip_by_effect (n : nat) :
  forall s, String.length s <= n ->
    (exists p, s = (p ++ lstrip_by w1 w2 w3 s)%string) /\
    match lstrip_by w1 w2 w3 s with
    | EmptyString => True
    | String c _ => w1 c = false
    end.
Proof.
  induction n as [| n IH]; intros s Hlen.
  - destruct s; [| simpl in Hlen; lia]. split; [exists EmptyString; reflexivity | exact I].
  - destruct s as [| c1 r1]; [split; [exists EmptyString; reflexivity | exact I] |].
    cbn [String.length] in Hlen. cbn [lstrip_by].
    destruct (w1 c1) eqn:H1.
    { destruct (IH r1 ltac:(lia)) as [[p Hp] Hc].
      split; [exists (String c1 p); cbn [String.append]; rewrite <- Hp; reflexivity | exact Hc]. }
    destruct r1 as [| c2 r2]; [split; [exists EmptyString; reflexivity | exact H1] |].
    cbn [String.length] in Hlen.
    destruct (w2 c1 c2).
    { destruct (IH r2 ltac:(lia)) as [[p Hp] Hc].
      split; [| exact Hc].
      exists (String c1 (String c2 p)). cbn [String.append]. rewrite <- Hp. reflexivity. }
    destruct r2 as [| c3 r3]; [split; [exists EmptyString; reflexivity | exact H1] |].
    cbn [String.length] in Hlen.
    destruct (w3 c1 c2 c3); [| split; [exists EmptyString; reflexivity | exact H1]].
    destruct (IH r3 ltac:(lia)) as [[p Hp] Hc].
    split; [| exact Hc].
    exists (String c1 (String c2 (String c3 p))). cbn [String.append]. rewrite <- Hp.
    reflexivity.
Qed.

End Stripping.

Lemma lstrip_clean (s : string) : clean_head (lstrip s).
Proof.
  exact (proj2 (lstrip_by_effect isspace isspace2 isspace3 (String.length s) s (le_n _))).
Qed.

Lemma lstrip_reversed_clean (s : string) : clean_head (lstrip_reversed s).
Proof.
  exact (proj2 (lstrip_by_effect isspace (fun a b => isspace2 b a)
                  (fun a b c => isspace3 c b a) (String.length s) s (le_n _))).
Qed.

Lemma lstrip_reversed_suffix (s : string) :
  exists p, s = (p ++ lstrip_reversed s)%string.
Proof.
  exact (proj1 (lstrip_by_effect isspace (fun a b => isspace2 b a)
                  (fun a b c => isspace3 c b a) (String.length s) s (le_n _))).
Qed.

Lemma rstrip_clean (a : string) :
  clean_head a -> clean_head (string_rev (lstrip_reversed (string_rev a))).
Proof.
  intros Ha. destruct (lstrip_reversed_suffix (string_rev a)) as [p Hp].
  assert (Hrev : a = (string_rev (lstrip_reversed (string_rev a)) ++ string_rev p)%string).
  { rewrite <- string_rev_app, <- Hp, string_rev_involutive. reflexivity. }
  destruct (string_rev (lstrip_reversed (string_rev a))) as [| c z]; [exact I |].
  rewrite Hrev in Ha. exact Ha.
Qed.

Lemma strip_trimmed (s : string) : trimmed (strip s).
Proof.
  unfold trimmed, strip. split; [apply rstrip_clean, lstrip_clean |].
  rewrite string_rev_involutive. apply lstrip_reversed_clean.
Qed.

(** A title that is a single no-break space is empty once stripped. *)
Example strip_no_break_space :
  strip (String (ascii_of_nat 194) (String (ascii_of_nat 160) EmptyString)) = EmptyString /\
  strip "  Acme Motors " = "Acme Motors".
Proof. split; reflexivity. Qed.

Section StoredText.

Variable detect : option string -> res string.
Variable urljoin : string -> string -> string.

Lemma tp_review_body_trimmed (review : TP.Card) (data : list TP.Review) :
  Forall tp_trimmed_review data ->
  Forall tp_trimmed_review (TP.review_body detect review data).
Proof.
  intros H. unfold TP.review_body.
  destruct (TP.review_try detect review) as [[r |] | e] eqn:Ht; try exact H.
  apply Forall_app. split; [exact H |]. constructor; [| constructor].
  unfold TP.review_try in Ht.
  destruct (TP.card_rating review) as [rating_value |]; [| discriminate].
  destruct (TP.is_some (TP.card_text review) || TP.is_some (TP.card_title review));
    [| discriminate].
  destruct (TP.is_english detect _ _) as [[|] | e]; try discriminate.
  inversion Ht; subst. unfold tp_trimmed_review. cbn [TP.review_title TP.review_text].
  split; intros s Hs.
  - destruct (TP.card_title review); [| discriminate].
    inversion Hs; subst. apply strip_trimmed.
  - destruct (TP.card_text review); [| discriminate].
    inversion Hs; subst. apply strip_trimmed.
Qed.

Lemma tp_review_loop_trimmed (reviews_ : list TP.Card) :
  forall data,
    Forall tp_trimmed_review data ->
    Forall tp_trimmed_review (TP.review_loop detect reviews_ data).
Proof.
  induction reviews_ as [| review rest IH]; intros data H; [exact H |].
  cbn [TP.review_loop]. apply IH, tp_review_body_trimmed, H.
Qed.

Lemma tp_while_loop_trimmed (script : list TP.Fetch) :
  forall st result,
    (forall n, TP.l_business_name st = Some n -> trimmed n) ->
    Forall tp_trimmed_review (TP.reviews_data st) ->
    snd (TP.while_loop detect urljoin script st) = Return result ->
    trimmed (TP.business_name result) /\ Forall tp_trimmed_review (TP.reviews result).
Proof.
  assert (Hnow : forall st result,
            (forall n, TP.l_business_name st = Some n -> trimmed n) ->
            Forall tp_trimmed_review (TP.reviews_data st) ->
            TP.return_result st = Return result ->
            trimmed (TP.business_name result) /\ Forall tp_trimmed_review (TP.reviews result)).
  { intros st result Hn Hd H. unfold TP.return_result in H.
    destruct (TP.l_business_name st) as [n |]; [| discriminate].
    inversion H; subst. split; [apply Hn; reflexivity | exact Hd]. }
  induction script as [| f rest IH]; intros st result Hn Hd H; cbn [TP.while_loop] in H.
  - destruct (TP.url st) as [u |]; [destruct (String.eqb u "") |]; try discriminate;
      apply (Hnow st result Hn Hd H).
  - destruct (TP.url st) as [u |]; [destruct (String.eqb u "") |];
      try (apply (Hnow st result Hn Hd H)).
    destruct f as [e | page]; cbn [TP.loop_body] in H; [apply (Hnow st result Hn Hd H) |].
    set (st' := TP.mkLocals _ _ _) in H.
    destruct (TP.while_loop detect urljoin rest st') as [evs r] eqn:Hl.
    cbn [snd] in H. subst r.
    apply (IH st' result).
    + subst st'. cbn [TP.l_business_name]. unfold TP.capture_name. intros n Hcap.
      destruct (TP.reviews_data st); [| apply Hn; exact Hcap].
      destruct (TP.page_title page); [| apply Hn; exact Hcap].
      inversion Hcap; subst. apply strip_trimmed.
    + subst st'. cbn [TP.reviews_data]. apply tp_review_loop_trimmed. exact Hd.
    + rewrite Hl. reflexivity.
Qed.

End StoredText.

(** X16 -- Whatever [get_business_reviews] returns carries trimmed text: the
    business name and every stored title and body neither begin nor end with
    white space. *)
Theorem get_business_reviews_stores_trimmed_text
    (detect : option string -> res string) (urljoin : string -> string -> string)
    (url_ : string) (script : list TP.Fetch) (result : TP.ParentResult) :
  snd (TP.get_business_reviews detect urljoin url_ script) = Return result ->
  trimmed (TP.business_name result) /\ Forall tp_trimmed_review (TP.reviews result).
Proof.
  unfold TP.get_business_reviews. apply tp_while_loop_trimmed.
  - cbn [TP.l_business_name]. discriminate.
  - constructor.
Qed.

Lemma get_business_reviews_stores_trimmed_text_witness :
  trimmed "Acme Motors" /\
  Forall tp_trimmed_review
    [ {| TP.rating := "5"; TP.review_title := Some "Great service"; TP.review_text := None |} ].
Proof.
  apply (get_business_reviews_stores_trimmed_text Samples.detect Samples.urljoin acme_url
           [TP.FetchOk acme_last_page]
           {| TP.business_name := "Acme Motors";
              TP.reviews := [ {| TP.rating := "5"; TP.review_title := Some "Great service";
                                 TP.review_text := None |} ] |}).
  reflexivity.
Defined.

(** ** From the first request to the file *)

Section EndToEnd.

Variable float_str : string -> res pyfloat.
Variable detect : option string -> res string.
Variable re_sub_all : string -> string.
Variable urljoin : string -> string -> string.

Lemma bgg_store_cases (cfg : BGG.Config) (r : BGG.ParentResult) (g : BGG.Globals) :
  BGG.all_reviews (BGG.store_result cfg r g) = BGG.all_reviews g \/
  (BGG.reviews r <> [] /\
   BGG.all_reviews (BGG.store_result cfg r g) = BGG.all_reviews g ++ [r]).
Proof.
  assert (Hcase : BGG.reviews r = [] \/ BGG.reviews r <> [])
    by (destruct (BGG.reviews r); [left; reflexivity | right; discriminate]).
  destruct Hcase as [Hr | Hr]; [left; rewrite bgg_store_empty by exact Hr; reflexivity |].
  right. split; [exact Hr |].
  destruct (le_lt_dec (BGG.checkThreshold cfg)
              (BGG.checkCount g + List.length (BGG.reviews r))) as [Hle | Hlt].
  - rewrite (bgg_store_flush cfg r g Hr Hle). reflexivity.
  - rewrite (bgg_store_keep cfg r g Hr Hlt). reflexivity.
Qed.

Lemma bgg_main_loop_sound (cfg : BGG.Config) (rows : list (BGG.Row * list BGG.Fetch)) :
  forall index g evs g',
    Forall (bgg_sound_result float_str detect) (BGG.all_reviews g) ->
    BGG.main_loop float_str detect re_sub_all cfg index rows g = (evs, Return g') ->
    Forall (bgg_sound_result float_str detect) (BGG.all_reviews g').
Proof.
  induction rows as [| [row script] rest IH]; intros index g evs g' Hg H.
  - inversion H; subst. exact Hg.
  - cbn [BGG.main_loop] in H.
    destruct (BGG.row_body float_str detect re_sub_all cfg index row script g)
      as [evs1 [g1 | e |]] eqn:Hb; try discriminate.
    destruct (BGG.main_loop float_str detect re_sub_all cfg (S index) rest g1)
      as [evs2 r2] eqn:Hl.
    inversion H; subst. eapply IH; [| exact Hl].
    unfold BGG.row_body in Hb.
    destruct (BGG.skipped cfg index (BGG.row_id row)); [inversion Hb; subst; exact Hg |].
    cbn [BGG.getData] in Hb.
    pose proof (while_loop_keeps_records float_str detect re_sub_all (BGG.row_id row) script
                  BGG.init_locals) as Hrec.
    destruct (BGG.while_loop float_str detect re_sub_all (BGG.row_id row) script
                BGG.init_locals) as [evs0 [[r |] | e |]]; try discriminate;
      inversion Hb; subst; [| exact Hg].
    destruct (Hrec r eq_refl) as (more & Hm & Hq). cbn [BGG.init_locals BGG.reviewData app] in Hm.
    destruct (bgg_store_cases cfg r g) as [-> | [Hne ->]]; [exact Hg |].
    apply Forall_app. split; [exact Hg |]. constructor; [| constructor].
    split; [exact Hne | rewrite Hm; exact Hq].
Qed.


End EndToEnd.

(** X17 -- When the BoardGameGeek notebook runs to its end, the checkpoint
    file holds the whole buffer; the buffer holds exactly [totalSaved] records;
    and every result in it has at least one record, each with a rating that
    passed [checkNumericRange] for 1 to 10 and a text classified as English. *)
Theorem bgg_notebook_writes_sound_checkpoint
    (float_str : string -> res pyfloat) (detect : option string -> res string)
    (re_sub_all : string -> string)
    (cfg : BGG.Config) (rows : list (BGG.Row * list BGG.Fetch))
    (evs : list BGG.Event) (g : BGG.Globals) :
  BGG.notebook float_str detect re_sub_all cfg rows = (evs, Return g) ->
  BGG.read_file (BGG.outputFile cfg) (BGG.disk g) = Some (BGG.all_reviews g)
  /\ bgg_total (BGG.all_reviews g) = BGG.totalSaved g
  /\ Forall (bgg_sound_result float_str detect) (BGG.all_reviews g).
Proof.
  unfold BGG.notebook. intros H.
  destruct (BGG.main_loop float_str detect re_sub_all cfg 0 rows BGG.init_globals)
    as [evs0 [g0 | e |]] eqn:Hl; try discriminate.
  inversion H; subst. split.
  { unfold BGG.read_file, BGG.flushBuffer, BGG.write_file. cbn [BGG.disk find fst snd].
    rewrite String.eqb_refl. reflexivity. }
  cbn [BGG.flushBuffer BGG.all_reviews BGG.totalSaved]. split.
  - destruct (bgg_main_loop_buffer float_str detect re_sub_all cfg rows 0 BGG.init_globals
                evs g0 Hl) as (more & Hm & _ & Ht).
    cbn [BGG.init_globals BGG.all_reviews BGG.totalSaved app] in Hm, Ht.
    rewrite Hm, Ht. reflexivity.
  - apply (bgg_main_loop_sound float_str detect re_sub_all cfg rows 0 BGG.init_globals
             evs g0 (Forall_nil _) Hl).
Qed.

Lemma bgg_notebook_writes_sound_checkpoint_witness :
  exists g,
    snd (BGG.notebook Samples.float_str Samples.detect Samples.re_sub_all plain_cfg two_rows) =
      Return g /\
    BGG.read_file "boardgamegeek.json" (BGG.disk g) = Some (BGG.all_reviews g) /\
    bgg_total (BGG.all_reviews g) = 2.
Proof.
  destruct (BGG.notebook Samples.float_str Samples.detect Samples.re_sub_all plain_cfg two_rows)
    as [evs r] eqn:H.
  assert (Hr : exists g, r = Return g /\ BGG.totalSaved g = 2).
  { vm_compute in H. inversion H. eexists. split; reflexivity. }
  destruct Hr as (g & -> & H2). exists g.
  destruct (bgg_notebook_writes_sound_checkpoint Samples.float_str Samples.detect
              Samples.re_sub_all plain_cfg two_rows evs g H) as (Hfile & Htotal & _).
  split; [reflexivity |]. split; [exact Hfile | rewrite Htotal; exact H2].
Defined.



(** ** What the drivers return, exactly *)

Section ExactResults.

Variable float_str : string -> res pyfloat.
Variable detect : option string -> res string.
Variable re_sub_all : string -> string.
Variable urljoin : string -> string -> string.

Local Abbreviation comment_body := (BGG.comment_body float_str detect re_sub_all).
Local Abbreviation comment_loop := (BGG.comment_loop float_str detect re_sub_all).
Local Abbreviation loop_body := (BGG.loop_body float_str detect re_sub_all).
Local Abbreviation while_loop := (BGG.while_loop float_str detect re_sub_all).
Local Abbreviation comment_records := (bgg_comment_records float_str detect re_sub_all).
Local Abbreviation comments_raise := (bgg_comments_raise float_str detect re_sub_all).
Local Abbreviation fetch_records := (bgg_fetch_records float_str detect re_sub_all).
Local Abbreviation stored := (bgg_stored float_str detect re_sub_all).

(** The comment loop appends [comment_records] and raises exactly when
    [comments_raise] says so, whatever the locals are. *)
Lemma comment_loop_exact (comments : list BGG.Comment) :
  forall st,
    BGG.reviewData (fst (comment_loop comments st)) =
      BGG.reviewData st ++ comment_records comments /\
    (snd (comment_loop comments st) = None <-> comments_raise comments = false).
Proof.
  induction comments as [| c rest IH]; intros st.
  - cbn. rewrite app_nil_r. split; [reflexivity | tauto].
  - cbn [BGG.comment_loop bgg_comment_records bgg_comments_raise]. unfold BGG.comment_body.
    destruct (BGG.checkNumericRange float_str (BGG.c_rating c) 1 10); [| apply IH].
    destruct (detect (BGG.removeMarkup re_sub_all (BGG.c_text c))) as [lang | e].
    + destruct (String.eqb lang "en").
      * destruct (IH (BGG.accept_comment (BGG.c_rating c)
                        (BGG.removeMarkup re_sub_all (BGG.c_text c)) st)) as [Hr Hx].
        split; [| exact Hx]. rewrite Hr. cbn [BGG.accept_comment BGG.reviewData].
        rewrite <- app_assoc. reflexivity.
      * apply IH.
    + destruct e; try apply IH;
        (cbn [fst snd]; rewrite app_nil_r; split; [reflexivity | split; discriminate]).
Qed.

(** A turn of the loop that does not end in the outer handler makes one
    request and appends the records of the answer. *)
Lemma loop_body_records (gameID : nat) (f : BGG.Fetch) (st st' : BGG.Locals)
    (evs : list BGG.Event) :
  loop_body gameID f st = (evs, Ok st') ->
  BGG.reviewData st' = BGG.reviewData st ++ fetch_records f /\ bgg_attempts evs = 1.
Proof.
  unfold BGG.loop_body, bgg_fetch_records. destruct f as [e | resp]; [discriminate |].
  destruct (BGG.status_code resp =? 200).
  2:{ intros H; inversion H; subst. cbn. rewrite app_nil_r. split; reflexivity. }
  destruct (BGG.content resp) as [| names comments].
  { intros H; inversion H; subst. cbn. rewrite app_nil_r. split; reflexivity. }
  destruct (0 <? List.length comments) eqn:Hlen.
  2:{ intros H; inversion H; subst. destruct comments; [| discriminate].
      cbn. rewrite app_nil_r. split; reflexivity. }
  destruct (comment_loop_exact comments (BGG.begin_page names (List.length comments) st))
    as [Hr _].
  destruct (comment_loop comments (BGG.begin_page names (List.length comments) st))
    as [st1 [e |]]; cbn [fst] in Hr; intros H; inversion H; subst;
    (split; [exact Hr | reflexivity]).
Qed.

(** A successful page is stored: one request, one sleep, the next page, and
    the error counter and [keepGoing] as they were. *)
Lemma loop_body_stored (gameID : nat) (f : BGG.Fetch) (st : BGG.Locals) :
  stored f = true ->
  exists st',
    loop_body gameID f st =
      ([BGG.EvGet gameID (BGG.pgCount st); BGG.EvSleep 5 10], Ok st') /\
    BGG.requestErrorCount st' = BGG.requestErrorCount st /\
    BGG.keepGoing st' = BGG.keepGoing st /\
    BGG.pgCount st' = S (BGG.pgCount st).
Proof.
  unfold bgg_stored, BGG.loop_body. destruct f as [e | resp]; [discriminate |].
  destruct (BGG.status_code resp =? 200); [| discriminate].
  destruct (BGG.content resp) as [| names comments]; [discriminate |].
  destruct (0 <? List.length comments); [| discriminate].
  cbn [andb]. intros Hno. apply negb_true_iff in Hno.
  set (st0 := BGG.begin_page names (List.length comments) st).
  destruct (comment_loop_exact comments st0) as [_ Hx].
  destruct (comment_loop_effect float_str detect re_sub_all comments st0)
    as [(Hp & Hk & Hn) _].
  destruct (comment_loop comments st0) as [st1 [e |]]; cbn [fst snd] in *.
  - destruct Hx as [_ Hx]. specialize (Hx Hno). discriminate.
  - eexists. split; [reflexivity |].
    cbn [BGG.next_page BGG.requestErrorCount BGG.keepGoing BGG.pgCount].
    rewrite Hn, Hk, Hp. repeat split. simpl. lia.
Qed.

(** No turn of the loop lowers the error counter, and a turn that sleeps
    leaves it as it is. *)
Lemma loop_body_counter (gameID : nat) (f : BGG.Fetch) (st st' : BGG.Locals)
    (evs : list BGG.Event) :
  loop_body gameID f st = (evs, Ok st') ->
  BGG.requestErrorCount st <= BGG.requestErrorCount st' /\
  (In (BGG.EvSleep 5 10) evs ->
   BGG.requestErrorCount st' = BGG.requestErrorCount st /\
   BGG.keepGoing st' = BGG.keepGoing st).
Proof.
  intros H.
  destruct (loop_body_shape float_str detect re_sub_all gameID f st)
    as [[e He] | [(s1 & He & _ & _ & Hc) | (s1 & He & _ & _ & Hn & Hk)]];
    rewrite He in H; inversion H; subst.
  - split; [destruct Hc as [[-> _] | [-> _]]; lia |].
    intros [Hin | []]. discriminate.
  - split; [lia | intros _; split; assumption].
Qed.

Lemma while_loop_exact_records (gameID : nat) (script : list BGG.Fetch) :
  forall st result,
    snd (while_loop gameID script st) = Return (Some result) ->
    BGG.reviews result =
      BGG.reviewData st ++
      flat_map fetch_records
        (firstn (bgg_attempts (fst (while_loop gameID script st))) script).
Proof.
  assert (Hstop : forall (sc : list BGG.Fetch) (st : BGG.Locals) result,
            BGG.keepGoing st = false ->
            snd (while_loop gameID sc st) = Return (Some result) ->
            BGG.reviews result =
              BGG.reviewData st ++
              flat_map fetch_records
                (firstn (bgg_attempts (fst (while_loop gameID sc st))) sc)).
  { intros sc st result Hk H.
    rewrite (while_loop_stopped float_str detect re_sub_all gameID sc st Hk) in *.
    cbn [fst snd] in *. inversion H; subst.
    change (bgg_attempts []) with 0. cbn [firstn flat_map BGG.result_of BGG.reviews].
    rewrite app_nil_r. reflexivity. }
  induction script as [| f rest IH]; intros st result H.
  - destruct (BGG.keepGoing st) eqn:Hk; [| apply Hstop; assumption].
    simpl in H. rewrite Hk in H. discriminate.
  - destruct (BGG.keepGoing st) eqn:Hk; [| apply Hstop; assumption].
    rewrite (while_loop_cons float_str detect re_sub_all gameID f rest st Hk) in *.
    destruct (loop_body gameID f st) as [evs [st' | e]] eqn:Hb; [| discriminate].
    cbn [fst snd] in *.
    destruct (loop_body_records gameID f st st' evs Hb) as [Hr Ha].
    destruct (bgg_counts_app evs (fst (while_loop gameID rest st'))) as [-> _].
    rewrite Ha. cbn [Nat.add firstn flat_map].
    rewrite (IH st' result H), Hr, <- app_assoc. reflexivity.
Qed.

(** Successful pages between the errors do not reset the counter: the loop
    ends with the error that brings the counter to 3. *)
Lemma mixed_answers_abort (gameID : nat) (script : list BGG.Fetch) :
  forall st,
    BGG.keepGoing st = true ->
    BGG.requestErrorCount st < 3 ->
    forallb (fun f => bgg_bad_answer f || stored f) script = true ->
    3 - BGG.requestErrorCount st <= List.length (filter bgg_bad_answer script) ->
    (exists result, snd (while_loop gameID script st) = Return (Some result)) /\
    bgg_attempts (fst (while_loop gameID script st)) =
      bgg_sleeps (fst (while_loop gameID script st)) + (3 - BGG.requestErrorCount st).
Proof.
  induction script as [| f rest IH]; intros st Hk Hc Hall Hlen;
    cbn [forallb filter List.length] in Hall, Hlen; [lia |].
  apply andb_prop in Hall. destruct Hall as [Hf Hrest].
  rewrite (while_loop_cons float_str detect re_sub_all gameID f rest st Hk).
  destruct (bgg_bad_answer f) eqn:Hbad.
  - rewrite (loop_body_bad_answer float_str detect re_sub_all gameID f st Hbad).
    cbn [fst snd List.length] in *.
    destruct (count_error_frame st) as (Hn & _ & _).
    destruct (bgg_counts_app [BGG.EvGet gameID (BGG.pgCount st)]
                (fst (while_loop gameID rest (BGG.count_error st)))) as [-> ->].
    destruct (Nat.eq_dec (BGG.requestErrorCount st) 2) as [H2 | H2].
    + rewrite while_loop_stopped by (rewrite keepGoing_count_error, H2; reflexivity).
      split; [eexists; reflexivity |]. rewrite H2. reflexivity.
    + assert (Hk' : BGG.keepGoing (BGG.count_error st) = true).
      { rewrite keepGoing_count_error.
        destruct (3 <=? BGG.requestErrorCount st + 1) eqn:E; [| exact Hk].
        apply Nat.leb_le in E. lia. }
      assert (Hc' : BGG.requestErrorCount (BGG.count_error st) < 3) by lia.
      assert (Hlen' : 3 - BGG.requestErrorCount (BGG.count_error st) <=
                      List.length (filter bgg_bad_answer rest)) by lia.
      destruct (IH (BGG.count_error st) Hk' Hc' Hrest Hlen') as [Hres Hcount].
      split; [exact Hres |]. rewrite Hcount, Hn.
      change (bgg_attempts [BGG.EvGet gameID (BGG.pgCount st)]) with 1.
      change (bgg_sleeps [BGG.EvGet gameID (BGG.pgCount st)]) with 0. lia.
  - cbn [orb] in Hf. destruct (loop_body_stored gameID f st Hf) as (st' & Hb & Hn & Hk' & _).
    rewrite Hb. cbn [fst snd].
    destruct (bgg_counts_app [BGG.EvGet gameID (BGG.pgCount st); BGG.EvSleep 5 10]
                (fst (while_loop gameID rest st'))) as [-> ->].
    assert (Hk2 : BGG.keepGoing st' = true) by congruence.
    assert (Hc' : BGG.requestErrorCount st' < 3) by lia.
    assert (Hlen' : 3 - BGG.requestErrorCount st' <=
                    List.length (filter bgg_bad_answer rest)) by lia.
    destruct (IH st' Hk2 Hc' Hrest Hlen') as [Hres Hcount].
    split; [exact Hres |]. rewrite Hcount, Hn.
    change (bgg_attempts [BGG.EvGet gameID (BGG.pgCount st); BGG.EvSleep 5 10]) with 1.
    change (bgg_sleeps [BGG.EvGet gameID (BGG.pgCount st); BGG.EvSleep 5 10]) with 1. lia.
Qed.

(** *** The HTML driver *)








End ExactResults.




(** C2 (amended) -- In [getData] the error counter of an entity is cumulative:
    no turn of the loop lowers it and a stored page leaves it as it is, so
    whatever successful pages lie between them, the loop ends with the answer
    that is the third counted error (a status other than 200 or content that
    does not parse), and the driver then returns the records gathered so far.
    When every fetch is such an answer the same page is requested until the
    counter reaches 3: from the start exactly three requests for page 1 and an
    empty result.  A request that raises ends [getData] after that one attempt
    with [None], and ends the loop of [get_business_reviews], which has no
    counter, after that one attempt. *)
Theorem C2_error_ceiling
    (float_str : string -> res pyfloat) (detect : option string -> res string)
    (re_sub_all : string -> string) (urljoin : string -> string -> string)
    (gameID : nat) (script : list BGG.Fetch) (st : BGG.Locals)
    (e : exn) (u : string) (tp_rest : list TP.Fetch) (tp_st : TP.Locals)
    (f : BGG.Fetch) (st1 st2 : BGG.Locals) (evs : list BGG.Event)
    (mixed : list BGG.Fetch) :
  forallb bgg_bad_answer script = true ->
  BGG.keepGoing st = true ->
  BGG.requestErrorCount st < 3 ->
  3 <= List.length script ->
  TP.url tp_st = Some u -> u <> "" ->
  BGG.getData float_str detect re_sub_all (Some gameID) script =
    (repeat (BGG.EvGet gameID 1) 3,
     Return (Some {| BGG.game_name := BGG.NameStr ""; BGG.reviews := [] |}))
  /\ BGG.while_loop float_str detect re_sub_all gameID script st =
       (repeat (BGG.EvGet gameID (BGG.pgCount st)) (3 - BGG.requestErrorCount st),
        Return (Some (BGG.result_of st)))
  /\ BGG.while_loop float_str detect re_sub_all gameID (BGG.FetchRaises e :: script) st =
       ([BGG.EvGet gameID (BGG.pgCount st)], Return None)
  /\ TP.while_loop detect urljoin (TP.FetchRaises e :: tp_rest) tp_st =
       ([TP.EvGet u], TP.return_result tp_st)
  /\ (BGG.loop_body float_str detect re_sub_all gameID f st1 = (evs, Ok st2) ->
      BGG.requestErrorCount st1 <= BGG.requestErrorCount st2 /\
      (In (BGG.EvSleep 5 10) evs ->
       BGG.requestErrorCount st2 = BGG.requestErrorCount st1 /\
       BGG.keepGoing st2 = BGG.keepGoing st1))
  /\ (forallb (fun a => bgg_bad_answer a || bgg_stored float_str detect re_sub_all a) mixed
        = true ->
      3 - BGG.requestErrorCount st <= List.length (filter bgg_bad_answer mixed) ->
      (exists result,
          snd (BGG.while_loop float_str detect re_sub_all gameID mixed st) =
            Return (Some result) /\
          BGG.reviews result =
            BGG.reviewData st ++
            flat_map (bgg_fetch_records float_str detect re_sub_all)
              (firstn (bgg_attempts
                         (fst (BGG.while_loop float_str detect re_sub_all gameID mixed st)))
                      mixed)) /\
      bgg_attempts (fst (BGG.while_loop float_str detect re_sub_all gameID mixed st)) =
        bgg_sleeps (fst (BGG.while_loop float_str detect re_sub_all gameID mixed st)) +
        (3 - BGG.requestErrorCount st)).
Proof.
  intros Hall Hk Hc Hlen Hu Hne.
  split.
  { apply (bad_answers_abort float_str detect re_sub_all gameID script BGG.init_locals);
      [reflexivity | cbn; lia | exact Hall | cbn; lia]. }
  split; [apply bad_answers_abort; [exact Hk | exact Hc | exact Hall | lia] |].
  split; [apply raising_fetch_returns_None; exact Hk |].
  split; [apply tp_raising_fetch_breaks; assumption |].
  split; [apply loop_body_counter |].
  intros Hmixed Hcount.
  destruct (mixed_answers_abort float_str detect re_sub_all gameID mixed st Hk Hc Hmixed Hcount)
    as [[result Hres] Hn].
  split; [| exact Hn].
  exists result. split; [exact Hres |].
  apply while_loop_exact_records. exact Hres.
Qed.

Lemma C2_error_ceiling_witness :
  BGG.getData Samples.float_str Samples.detect Samples.re_sub_all (Some 13) three_bad_answers =
    ([BGG.EvGet 13 1; BGG.EvGet 13 1; BGG.EvGet 13 1],
     Return (Some {| BGG.game_name := BGG.NameStr ""; BGG.reviews := [] |}))
  /\ bgg_attempts
       (fst (BGG.getData Samples.float_str Samples.detect Samples.re_sub_all (Some 13)
               [status_500; good_page "Catan"; status_500; good_page "Catan"; status_500;
                good_page "Catan"])) =
     bgg_sleeps
       (fst (BGG.getData Samples.float_str Samples.detect Samples.re_sub_all (Some 13)
               [status_500; good_page "Catan"; status_500; good_page "Catan"; status_500;
                good_page "Catan"])) + 3.
Proof.
  destruct (C2_error_ceiling Samples.float_str Samples.detect Samples.re_sub_all Samples.urljoin
              13 three_bad_answers BGG.init_locals RequestException acme_url []
              {| TP.url := Some acme_url; TP.reviews_data := []; TP.l_business_name := None |}
              (good_page "Catan") BGG.init_locals BGG.init_locals []
              [status_500; good_page "Catan"; status_500; good_page "Catan"; status_500;
               good_page "Catan"]
              eq_refl eq_refl ltac:(cbn; lia) ltac:(cbn; lia) eq_refl ltac:(discriminate))
    as (H1 & _ & _ & _ & _ & H6).
  split; [exact H1 |].
  exact (proj2 (H6 eq_refl ltac:(cbn; lia))).
Defined.

(** The no-break space is white space: the title is empty once stripped, the
    detector is not asked about it, and the English body admits the record. *)
Example no_break_space_title_is_skipped :
  tp_admitted Samples.detect card_nbsp_title = true /\
  TP.review_body Samples.detect card_nbsp_title [] =
  [ {| TP.rating := "5"; TP.review_title := Some ""; TP.review_text := Some "Great service" |} ].
Proof. split; reflexivity. Qed.
